(** * DLMS document manager: state machine and access-control engine

    A shallow embedding of [DocMgr] (dlms-server, [docMgr.ts]) together with
    the helpers of [util.ts] it relies on, and the proofs of the properties
    the specification states about it.

    Conventions of the embedding.
    - A JavaScript value of type [any] is a [json] value; a property that is
      [undefined] is an [option] that is [None].
    - An object used as a record or as a map from property names to values is
      an association list in insertion order ([Fields]); the registries that
      are set up once at configuration time ([documents], [states],
      [nextStates], [docRoles]) and the group cache are [gmap]s.  Only own
      properties are modelled: names inherited from [Object.prototype] are
      not.
    - An [async] method is a computation in the monad [M]: it reads and
      writes the [World] (manager state, the caller's [UserContext], and a
      log of hook invocations) and either returns or throws.  A throw keeps
      the world as it is at that point: nothing is rolled back.
    - The storage collaborator (MongoDB collections) is modelled by lists of
      stored objects carrying their [_id]; storage keys are strings. *)

From Stdlib Require Import Ascii String.
From stdpp Require Import base strings list gmap pretty.

Local Open Scope string_scope.
Local Open Scope Z_scope.

(** ** JavaScript values *)

#[warnings="-register-all"]
Inductive json : Type :=
| JNull
| JBool (b : bool)
| JNum (n : Z)
| JStr (s : string)
| JArr (l : list json)
| JObj (l : list (string * json)).

(** An object as its list of own properties, in insertion order. *)
Abbreviation Fields := (list (string * json)).

Section Objects.
Context {A : Type}.

(** [o[k]] *)
Fixpoint obj_get (k : string) (o : list (string * A)) : option A :=
  match o with
  | [] => None
  | (k', v) :: o' => if String.eqb k k' then Some v else obj_get k o'
  end.

(** [k in o] *)
Definition obj_has (k : string) (o : list (string * A)) : bool :=
  match obj_get k o with Some _ => true | None => false end.

(** [delete o[k]] *)
Fixpoint obj_del (k : string) (o : list (string * A)) : list (string * A) :=
  match o with
  | [] => []
  | (k', v) :: o' =>
      if String.eqb k k' then obj_del k o' else (k', v) :: obj_del k o'
  end.

(** [o[k] = v]: an existing property keeps its place, a new one goes last. *)
Fixpoint obj_set (k : string) (v : A) (o : list (string * A))
  : list (string * A) :=
  match o with
  | [] => [(k, v)]
  | (k', v') :: o' =>
      if String.eqb k k' then (k, v) :: o' else (k', v') :: obj_set k v o'
  end.

(** [{...a, ...b}] *)
Definition obj_spread (a b : list (string * A)) : list (string * A) :=
  fold_left (fun acc kv => obj_set (fst kv) (snd kv) acc) b a.
End Objects.

(** JavaScript truthiness of a value that is not [undefined]. *)
Definition truthy (v : json) : bool :=
  match v with
  | JNull => false
  | JBool b => b
  | JNum n => negb (Z.eqb n 0)
  | JStr s => negb (String.eqb s "")
  | JArr _ | JObj _ => true
  end.

(** Truthiness of a string: every string but the empty one. *)
Definition nonempty (s : string) : bool := negb (String.eqb s "").

(** [l.includes(x)] on an array of strings. *)
Definition includes (l : list string) (x : string) : bool :=
  existsb (String.eqb x) l.

(** ** Strings *)

(** [s.split(c)] for a one-character separator. *)
Fixpoint split (c : Ascii.ascii) (s : string) : list string :=
  match s with
  | EmptyString => [EmptyString]
  | String a r =>
      if Ascii.eqb a c then EmptyString :: split c r
      else match split c r with
           | h :: t => String a h :: t
           | [] => [String a EmptyString]
           end
  end.

(** [s.includes(c)] for a one-character [c]. *)
Fixpoint contains (c : Ascii.ascii) (s : string) : bool :=
  match s with
  | EmptyString => false
  | String a r => Ascii.eqb a c || contains c r
  end.

Definition dollar : Ascii.ascii := "$"%char.
Definition dot : Ascii.ascii := "."%char.

(** [state.split('$')[0]] *)
Definition stateBase (state : string) : string :=
  hd EmptyString (split dollar state).

(** [key.startsWith('$')] *)
Definition startsWithDollar (key : string) : bool :=
  match key with
  | String a _ => Ascii.eqb a dollar
  | EmptyString => false
  end.

(** The double-quote character, for messages built with [JSON.stringify]. *)
Definition dquote : string := String "034"%char EmptyString.

(** ** Errors and the monad of asynchronous methods *)

(** What a method can throw: a [DocMgrError] raised through [throwErr]
    (status code and message), a [TypeError] of the runtime, or a failure of
    the storage collaborator. *)
Inductive Error : Type :=
| DocMgrError (scode : Z) (msg : string)
| TypeError (msg : string)
| StorageError (msg : string).

Inductive Result (A : Type) : Type :=
| Ok (a : A)
| Throw (e : Error).
Arguments Ok {A} a.
Arguments Throw {A} e.

Definition isOk {A} (r : Result A) : bool :=
  match r with Ok _ => true | Throw _ => false end.

(** The status code carried by a thrown [DocMgrError]. *)
Definition scodeOf {A} (r : Result A) : option Z :=
  match r with
  | Throw (DocMgrError c _) => Some c
  | _ => None
  end.

(** ** Persons, users and the caller's context *)

(** [User] of dlms-base: a [Person] with an id and the global roles granted
    at authentication time. *)
Record User : Type := {
  name : string;
  department : string;
  email : string;
  title : string;
  employeeNumber : string;
  id : string;
  roles : list string;
}.

Inductive Mode : Type := ModeCreate | ModeRead | ModeUpdate | ModeDelete.

(** [UserContext]: [user] is fixed, the other properties are assigned by the
    manager while it serves a request. *)
Record UserContext : Type := {
  user : User;
  docId : option json;
  updates : option Fields;
  mode : option Mode;
  isAdmin_ : option bool;
}.

(** [UserGroupInfo]; [members] is the stored array of [Person] objects. *)
Record UserGroupInfo : Type := {
  ug_id : string;
  members : json;
  deletable : bool;
}.

(** The mutable part of a [DocMgr]: the document collections by collection
    name (every stored object carries its [_id]), the user-group collection,
    and [userGroupCache]. *)
Record MgrState : Type := {
  collections : gmap string (list Fields);
  userCollection : list UserGroupInfo;
  userGroupCache : gmap string UserGroupInfo;
}.

(** ** Callbacks *)

(** What a [StateCallbackContextImpl] shows to a callback: the context as it
    is when the callback is built, the document type and the document. *)
Record StateCallbackContext : Type := {
  cb_ctx : UserContext;
  cb_type : string;
  cb_document : Fields;
}.

(** What a callback can change through the methods of its context
    ([isCallerInGroup], [notify], [getDocMgr] ...): the manager's state and
    the admin status memoised in the caller's context.  It does not write the
    request properties of the context, nor the objects it is given. *)
Record CallbackState : Type := {
  cs_mgr : MgrState;
  cs_isAdmin : option bool;
}.

Definition Callback (X : Type) : Type :=
  StateCallbackContext -> CallbackState -> Result X * CallbackState.

(** [StateCallback | string[]]: the groups of a gate, given or computed. *)
Inductive Gate : Type :=
| StaticGroups (groups : list string)
| DynamicGroups (cb : Callback (list string)).

(** [StateActionCallback]; the engine ignores what it returns. *)
Definition StateActionCallback : Type := Callback unit.

(** [NextState] *)
Record NextState : Type := {
  groups : list string;
  ns_label : option string;
  ns_action : option StateActionCallback;
}.

(** [DocState]; the display-only properties ([puml], the comment gates) play
    no part in the engine and are left out. *)
Record DocState : Type := {
  label : string;
  description : string;
  entry : option Gate;
  onEntry : option StateActionCallback;
  onReentry : option StateActionCallback;
  read : option Gate;
  onRead : option StateActionCallback;
  write : option Gate;
  onWrite : option StateActionCallback;
  exit : option Gate;
  delete_ : option Gate;
  onDelete : option StateActionCallback;
  action : option StateActionCallback;
  nextStates : gmap string NextState;
}.

(** [RoleEntry.getMembers]: the name of a group, or a callback computing the
    persons who hold the role on a document. *)
Inductive RoleSource : Type :=
| RoleGroup (groupName : string)
| RoleCallback (cb : Callback json).

Record RoleEntry : Type := {
  role_name : string;
  getMembers_ : RoleSource;
}.

(** [DocType] *)
Record DocType : Type := {
  states : gmap string DocState;
  collectionName : option string;
  docRoles : option (gmap string RoleEntry);
  document_id_required : option bool;
}.

(** [DocSpec] *)
Record DocSpec : Type := {
  ds_type : string;
  ds_id : string;
}.

(** What a [DocMgr] is constructed with and never changes afterwards, and
    [adminIds], read once from the environment. *)
Record DocMgrConfig : Type := {
  appName : string;
  documents : gmap string DocType;
  adminGroups : list string;
  adminRole : string;
  adminIds : list string;
}.

(** ** The world and the monad *)

(** The lifecycle points at which the engine calls an application hook. *)
Inductive HookKind : Type :=
| HOnEntry | HOnReentry | HOnRead | HOnWrite | HOnDelete | HTransitionAction.

(** The log: every invocation of a hook, and every membership test of the
    caller against a group (the [log.debug] line of [isInUserGroup]). *)
Inductive Event : Type :=
| HookCalled (k : HookKind) (type : string) (document : Fields)
| MembershipTested (groupName : string).

Record World : Type := {
  mgr : MgrState;
  ctx : UserContext;
  trace : list Event;
}.

Definition M (A : Type) : Type := World -> Result A * World.

Definition ret {A} (a : A) : M A := fun w => (Ok a, w).

Definition bind {A B} (m : M A) (k : A -> M B) : M B :=
  fun w =>
    match m w with
    | (Ok a, w') => k a w'
    | (Throw e, w') => (Throw e, w')
    end.

Notation "'let!' x ':=' m 'in' k" := (bind m (fun x => k))
  (at level 10, x name, m at level 100, k at level 200).
Notation "'do!' m 'in' k" := (bind m (fun _ => k))
  (at level 10, m at level 100, k at level 200).

(** [throw e] *)
Definition throw {A} (e : Error) : M A := fun w => (Throw e, w).

(** [throwErr(scode, msg)] of util.ts *)
Definition throwErr {A} (scode : Z) (msg : string) : M A :=
  throw (DocMgrError scode msg).

(** [try { m } catch (e) { h }] *)
Definition tryCatch {A} (m : M A) (h : Error -> M A) : M A :=
  fun w =>
    match m w with
    | (Ok a, w') => (Ok a, w')
    | (Throw e, w') => h e w'
    end.

Definition getMgr : M MgrState := fun w => (Ok (mgr w), w).
Definition getCtx : M UserContext := fun w => (Ok (ctx w), w).

Definition setMgr (s : MgrState) : M unit :=
  fun w => (Ok tt, {| mgr := s; ctx := ctx w; trace := trace w |}).

Definition setCtx (c : UserContext) : M unit :=
  fun w => (Ok tt, {| mgr := mgr w; ctx := c; trace := trace w |}).

Definition logEvent (e : Event) : M unit :=
  fun w => (Ok tt, {| mgr := mgr w; ctx := ctx w; trace := (trace w ++ [e])%list |}).

(** Assignments to the properties of [ctx]. *)
Definition withDocId (d : option json) (c : UserContext) : UserContext :=
  {| user := user c; docId := d; updates := updates c;
     mode := mode c; isAdmin_ := isAdmin_ c |}.
Definition withMode (m : Mode) (c : UserContext) : UserContext :=
  {| user := user c; docId := docId c; updates := updates c;
     mode := Some m; isAdmin_ := isAdmin_ c |}.
Definition withUpdates (u : Fields) (c : UserContext) : UserContext :=
  {| user := user c; docId := docId c; updates := Some u;
     mode := mode c; isAdmin_ := isAdmin_ c |}.
Definition withIsAdmin (b : option bool) (c : UserContext) : UserContext :=
  {| user := user c; docId := docId c; updates := updates c;
     mode := mode c; isAdmin_ := b |}.

Definition modifyCtx (f : UserContext -> UserContext) : M unit :=
  let! c := getCtx in setCtx (f c).

(** Running a callback: it is handed a [StateCallbackContextImpl] built from
    the current context, and what it does to the manager's state and to the
    memoised admin status is written back, also when it throws. *)
Definition callback {X} (cb : Callback X) (type : string) (doc : Fields)
  : M X :=
  fun w =>
    let scc := {| cb_ctx := ctx w; cb_type := type; cb_document := doc |} in
    let '(r, cs) :=
      cb scc {| cs_mgr := mgr w; cs_isAdmin := isAdmin_ (ctx w) |} in
    (r, {| mgr := cs_mgr cs;
           ctx := withIsAdmin (cs_isAdmin cs) (ctx w);
           trace := trace w |}).

(** ** Helpers of util.ts and of the runtime *)

(** [String(v)], as used when a value is a property key. *)
Fixpoint js_String (v : json) : string :=
  match v with
  | JNull => "null"
  | JBool true => "true"
  | JBool false => "false"
  | JNum n => pretty n
  | JStr s => s
  | JArr l =>
      String.concat ","
        (List.map (fun e => match e with JNull => "" | _ => js_String e end) l)
  | JObj _ => "[object Object]"
  end.

(** The position a property name denotes in an array of length [n]. *)
Definition arrayIndex (part : string) (n : nat) : option nat :=
  List.find (fun i => String.eqb (pretty i) part) (seq 0 n).

(** [part in obj]; a [TypeError] when [obj] is not an object. *)
Definition js_in (part : string) (obj : json) : Result bool :=
  match obj with
  | JObj o => Ok (obj_has part o)
  | JArr l =>
      Ok (String.eqb part "length"
          || match arrayIndex part (length l) with
             | Some _ => true
             | None => false
             end)
  | _ => Throw (TypeError "Cannot use 'in' operator to search for a key")
  end.

(** [obj[part]] for a property that is there. *)
Definition js_prop (part : string) (obj : json) : option json :=
  match obj with
  | JObj o => obj_get part o
  | JArr l =>
      if String.eqb part "length" then Some (JNum (Z.of_nat (length l)))
      else match arrayIndex part (length l) with
           | Some i => l !! i
           | None => None
           end
  | _ => None
  end.

(** The loop of [getField] over the parts of the path.  The message of the
    error leaves out the rendering of the object. *)
Fixpoint getFieldFrom (parts : list string) (obj : json) : Result json :=
  match parts with
  | [] => Ok obj
  | part :: rest =>
      match js_in part obj with
      | Throw e => Throw e
      | Ok false =>
          Throw (DocMgrError 400 ("Field '" ++ part ++ " not found"))
      | Ok true =>
          match js_prop part obj with
          | Some v => getFieldFrom rest v
          | None => Throw (TypeError "Cannot use 'in' operator")
          end
      end
  end.

(** [getField(path, obj)] of util.ts *)
Definition getField (path : string) (obj : json) : Result json :=
  getFieldFrom (split dot path) obj.

(** [toInfo(doc, copy)]: the storage key [_id] is shown as [id], unless the
    object has an [id] of its own.  A copy of a value is the value, and
    [_id.toString()] is the key itself, the keys of the store being
    strings. *)
Definition toInfo (doc : Fields) (copy : bool) : Fields :=
  let doc :=
    if obj_has "id" doc then doc
    else match obj_get "_id" doc with
         | Some k => ("id", JStr (js_String k)) :: doc
         | None => doc
         end in
  obj_del "_id" doc.

(** [hasNonStateKey(args)] *)
Definition hasNonStateKey (args : Fields) : bool :=
  existsb (fun kv => negb (String.eqb (fst kv) "state")) args.

(** What [{...v}] copies out of a value: the properties of an object, the
    elements of an array under their positions, nothing out of a number, a
    boolean or [null]. *)
Definition spreadOf (v : json) : Fields :=
  match v with
  | JObj o => o
  | JArr l => imap (fun i e => (pretty i, e)) l
  | JStr s =>
      imap (fun i c => (pretty i, JStr (String c EmptyString)))
           (list_ascii_of_string s)
  | _ => []
  end.

(** The object [toMongoUpdate] builds: [$set], then the operators of the
    caller in the order they were met. *)
Abbreviation MongoUpdate := (list (string * Fields)).

(** One step of the [forEach] of [toMongoUpdate].  [setObj] is the object
    the plain keys are written to; [result] holds [$set] and the operators.
    [result.$set] is [setObj] until the caller's own [$set] key replaces it
    by a new object: from then on the plain keys, still written to [setObj],
    no longer reach [result].  The third component tells whether
    [result.$set] is still [setObj]. *)
Definition toMongoUpdateStep (st : Result (Fields * MongoUpdate * bool))
    (kv : string * json) : Result (Fields * MongoUpdate * bool) :=
  match st with
  | Throw e => Throw e
  | Ok (setObj, result, linked) =>
      let '(key, val) := kv in
      if startsWithDollar key then
        let cur :=
          if String.eqb key "$set" && linked then setObj
          else default [] (obj_get key result) in
        Ok (setObj, obj_set key (obj_spread cur (spreadOf val)) result,
            linked && negb (String.eqb key "$set"))
      else if String.eqb key "state" then
        match val with
        | JStr s => Ok (obj_set key (JStr (stateBase s)) setObj, result, linked)
        | _ => Throw (TypeError "val.split is not a function")
        end
      else Ok (obj_set key val setObj, result, linked)
  end.

(** [toMongoUpdate(obj)] *)
Definition toMongoUpdate (obj : Fields) : Result MongoUpdate :=
  match fold_left toMongoUpdateStep obj (Ok ([], [("$set", [])], true)) with
  | Throw e => Throw e
  | Ok (setObj, result, linked) =>
      Ok (if linked then obj_set "$set" setObj result else result)
  end.

(** ** The storage collaborator

    A collection is the list of its objects in insertion order; every object
    carries its key under [_id].  Keys are strings: an [ObjectId] stands for
    its hexadecimal form, so [idFilter(id)] is the filter on the key [id].
    A key the caller supplies must be new; a key the store generates is the
    first decimal numeral not in use. *)

Definition withCollections (c : gmap string (list Fields)) (s : MgrState)
  : MgrState :=
  {| collections := c; userCollection := userCollection s;
     userGroupCache := userGroupCache s |}.
Definition withUserCollection (u : list UserGroupInfo) (s : MgrState)
  : MgrState :=
  {| collections := collections s; userCollection := u;
     userGroupCache := userGroupCache s |}.
Definition withUserGroupCache (c : gmap string UserGroupInfo) (s : MgrState)
  : MgrState :=
  {| collections := collections s; userCollection := userCollection s;
     userGroupCache := c |}.

Definition collection (s : MgrState) (cname : string) : list Fields :=
  default [] (collections s !! cname).

(** The filter [{ _id: k }] *)
Definition hasKey (k : string) (doc : Fields) : bool :=
  match obj_get "_id" doc with
  | Some (JStr k') => String.eqb k' k
  | _ => false
  end.

Definition freshKey (coll : list Fields) : option string :=
  List.find (fun k => negb (existsb (hasKey k) coll))
            (List.map (fun i : nat => pretty i) (seq 0 (S (length coll)))).

(** [pc.findOne(idFilter(k), { projection })] *)
Definition findOne (cname k : string) (projection : option (Fields -> Fields))
  : M (option Fields) :=
  let! s := getMgr in
  ret (default (fun d => d) projection
         <$> List.find (hasKey k) (collection s cname)).

(** [pc.find(match, { projection }).toArray()]; [match] is given by the
    predicate it denotes. *)
Definition find (cname : string) (matching : Fields -> bool)
    (projection : option (Fields -> Fields)) : M (list Fields) :=
  let! s := getMgr in
  ret (default (fun d => d) projection
         <$> List.filter matching (collection s cname)).

(** [pc.insertOne(doc)], returning [insertedId.toString()] *)
Definition insertOne (cname : string) (doc : Fields) : M string :=
  let! s := getMgr in
  let coll := collection s cname in
  match obj_get "_id" doc with
  | Some (JStr k) =>
      if existsb (hasKey k) coll
      then throw (StorageError "E11000 duplicate key error")
      else
        do! setMgr (withCollections
                      (<[cname := (coll ++ [doc])%list]> (collections s)) s)
        in ret k
  | Some _ => throw (StorageError "key of a kind that is not modelled")
  | None =>
      match freshKey coll with
      | Some k =>
          do! setMgr (withCollections
                        (<[cname := (coll ++ [("_id", JStr k) :: doc])%list]>
                           (collections s)) s)
          in ret k
      | None => throw (StorageError "no key left")
      end
  end.

(** What one update operator does to a stored object: [$set] assigns its
    fields one after the other, [$unset] removes, and [_id] cannot be
    changed.  The other operators of the store are not modelled and fail. *)
Definition assignField (doc : Result Fields) (kv : string * json)
  : Result Fields :=
  match doc with
  | Throw e => Throw e
  | Ok d =>
      if String.eqb (fst kv) "_id" then
        match obj_get "_id" d, snd kv with
        | Some (JStr a), JStr b =>
            if String.eqb a b then Ok d
            else Throw (StorageError "_id is immutable")
        | _, _ => Throw (StorageError "_id is immutable")
        end
      else Ok (obj_set (fst kv) (snd kv) d)
  end.

Definition applyOperator (doc : Result Fields) (op : string * Fields)
  : Result Fields :=
  match doc with
  | Throw e => Throw e
  | Ok d =>
      if String.eqb (fst op) "$set" then fold_left assignField (snd op) (Ok d)
      else if String.eqb (fst op) "$unset" then
        if obj_has "_id" (snd op)
        then Throw (StorageError "_id is immutable")
        else Ok (fold_left (fun d' kv => obj_del (fst kv) d') (snd op) d)
      else Throw (StorageError "update operator that is not modelled")
  end.

Fixpoint updateFirst (k : string) (upd : list (string * Fields))
    (coll : list Fields) : Result (list Fields) :=
  match coll with
  | [] => Ok []
  | d :: rest =>
      if hasKey k d then
        match fold_left applyOperator upd (Ok d) with
        | Ok d' => Ok (d' :: rest)
        | Throw e => Throw e
        end
      else
        match updateFirst k upd rest with
        | Ok rest' => Ok (d :: rest')
        | Throw e => Throw e
        end
  end.

(** [pc.updateOne(idFilter(k), upd)] *)
Definition updateOne (cname k : string) (upd : list (string * Fields))
  : M unit :=
  let! s := getMgr in
  match updateFirst k upd (collection s cname) with
  | Ok coll' =>
      if existsb (hasKey k) (collection s cname)
      then setMgr (withCollections (<[cname := coll']> (collections s)) s)
      else ret tt
  | Throw e => throw e
  end.

Fixpoint removeFirst {A} (p : A -> bool) (l : list A) : list A :=
  match l with
  | [] => []
  | x :: rest => if p x then rest else x :: removeFirst p rest
  end.

(** The filter [{ id }] on the user-group collection. *)
Definition hasGroupId (i : string) (g : UserGroupInfo) : bool :=
  String.eqb (ug_id g) i.

(** [uc.findOne({ id })] *)
Definition findUserGroup (i : string) : M (option UserGroupInfo) :=
  let! s := getMgr in ret (List.find (hasGroupId i) (userCollection s)).

(** [uc.deleteOne({ id })] *)
Definition deleteUserGroupRecord (i : string) : M unit :=
  let! s := getMgr in
  setMgr (withUserCollection (removeFirst (hasGroupId i) (userCollection s)) s).

(** [pc.deleteOne(idFilter(k))]: the first object under the key goes; a key
    that is not there is no error. *)
Definition deleteOne (cname k : string) : M unit :=
  let! s := getMgr in
  if existsb (hasKey k) (collection s cname)
  then setMgr (withCollections
                 (<[cname := removeFirst (hasKey k) (collection s cname)]>
                    (collections s)) s)
  else ret tt.

(** [UserGroupCreate]: what a group is created from.  As for
    [UserGroupInfo], the additional properties a group may carry are left
    out. *)
Record UserGroupCreate : Type := {
  uc_id : string;
  uc_members : option json;
  uc_deletable : option bool;
}.

(** [uc.insertOne(args)] *)
Definition insertUserGroup (g : UserGroupInfo) : M unit :=
  let! s := getMgr in
  setMgr (withUserCollection (userCollection s ++ [g])%list s).

(** A stored group as the object the update operators of the store work
    on, and back.  An update that leaves an object of another shape (a
    property more or less, an [id] that is no string, a [deletable] that is
    no boolean) is not modelled. *)
Definition groupFields (g : UserGroupInfo) : Fields :=
  [("id", JStr (ug_id g)); ("members", members g);
   ("deletable", JBool (deletable g))].

Definition groupOfFields (f : Fields) : option UserGroupInfo :=
  match f with
  | [(k1, JStr i); (k2, m); (k3, JBool d)] =>
      if String.eqb k1 "id" && String.eqb k2 "members"
         && String.eqb k3 "deletable"
      then Some {| ug_id := i; members := m; deletable := d |}
      else None
  | _ => None
  end.

Fixpoint updateFirstGroup (i : string) (upd : list (string * Fields))
    (l : list UserGroupInfo) : Result (list UserGroupInfo) :=
  match l with
  | [] => Ok []
  | g :: rest =>
      if hasGroupId i g then
        match fold_left applyOperator upd (Ok (groupFields g)) with
        | Ok f =>
            match groupOfFields f with
            | Some g' => Ok (g' :: rest)
            | None =>
                Throw (StorageError "group of a shape that is not modelled")
            end
        | Throw e => Throw e
        end
      else
        match updateFirstGroup i upd rest with
        | Ok rest' => Ok (g :: rest')
        | Throw e => Throw e
        end
  end.

(** [uc.updateOne({ id }, upd)] *)
Definition updateUserGroupRecord (i : string) (upd : list (string * Fields))
  : M unit :=
  let! s := getMgr in
  match updateFirstGroup i upd (userCollection s) with
  | Ok l => setMgr (withUserCollection l s)
  | Throw e => throw e
  end.

(** ** The document manager *)

Section DocMgr.
Variable cfg : DocMgrConfig.

(** [getDocRoles(ctx, type)] *)
Definition getDocRoles (type : option string) : gmap string RoleEntry :=
  match type with
  | Some t =>
      if nonempty t then
        match documents cfg !! t with
        | Some dt => default ∅ (docRoles dt)
        | None => ∅
        end
      else ∅
  | None => ∅
  end.

(** [getDocType(type)] *)
Definition getDocType (type : string) : M DocType :=
  match documents cfg !! type with
  | Some dt => ret dt
  | None => throwErr 400 ("Invalid document type: '" ++ type ++ "'")
  end.

(** [getDocCollectionName(type)]; reading [collectionName] off a type that
    is not registered is a [TypeError]. *)
Definition getDocCollectionName (type : string) : M string :=
  match documents cfg !! type with
  | None => throw (TypeError "Cannot read properties of undefined")
  | Some dt =>
      match collectionName dt with
      | Some cName =>
          if nonempty cName then ret (appName cfg ++ "." ++ cName)
          else ret (appName cfg ++ "." ++ type ++ ".doc")
      | None => ret (appName cfg ++ "." ++ type ++ ".doc")
      end
  end.

(** [getDocCollection(type)]: the collection is known by its name. *)
Definition getDocCollection (type : string) : M string :=
  getDocCollectionName type.

(** [lookupUserGroup(ctx, id)] *)
Definition lookupUserGroup (i : string) : M (option UserGroupInfo) :=
  let! s := getMgr in
  match userGroupCache s !! i with
  | Some g => ret (Some g)
  | None =>
      let! result := findUserGroup i in
      match result with
      | Some info =>
          do! setMgr (withUserGroupCache (<[i := info]> (userGroupCache s)) s)
          in ret (Some info)
      | None => ret None
      end
  end.

(** [getUserGroup(ctx, id)] *)
Definition getUserGroup (i : string) : M UserGroupInfo :=
  let! info := lookupUserGroup i in
  match info with
  | Some g => ret g
  | None => throwErr 404 ("user group '" ++ i ++ "' was not found")
  end.

(** [_getMembers(ctx, groupName, doc)] *)
Definition _getMembers (groupName : string) (doc : option Fields) : M json :=
  let fromGroup :=
    let! ug := lookupUserGroup groupName in
    match ug with
    | None => ret (JArr [])
    | Some g => ret (members g)
    end in
  match doc with
  | Some d =>
      match getField groupName (JObj d) with
      | Ok v => ret v
      | Throw _ => fromGroup
      end
  | None => fromGroup
  end.

(** [getMembers(ctx, groupName, type, doc)] *)
Definition getMembers (groupName : string) (type : option string)
    (doc : option Fields) : M json :=
  match getDocRoles type !! groupName with
  | Some role =>
      match getMembers_ role with
      | RoleCallback m =>
          match doc, type with
          | Some d, Some t =>
              if nonempty t then callback m t (toInfo d true)
              else ret (JArr [])
          | _, _ => ret (JArr [])
          end
      | RoleGroup m => _getMembers m doc
      end
  | None => _getMembers groupName doc
  end.

(** [member.email === email], for one element of the members. *)
Definition emailIs (e : string) (member : json) : Result bool :=
  match member with
  | JNull => Throw (TypeError "Cannot read properties of null")
  | JObj o =>
      match obj_get "email" o with
      | Some (JStr e') => Ok (String.eqb e' e)
      | _ => Ok false
      end
  | _ => Ok false
  end.

(** The [for (const member of members)] loop of [isInUserGroup] over the
    elements it visits. *)
Fixpoint memberLoop (e : string) (ms : list json) : Result bool :=
  match ms with
  | [] => Ok false
  | m :: rest =>
      match emailIs e m with
      | Throw err => Throw err
      | Ok true => Ok true
      | Ok false => memberLoop e rest
      end
  end.

(** What [for ... of] visits in a value: the elements of an array, the
    characters of a string; any other value is not iterable. *)
Definition iterate (v : json) : Result (list json) :=
  match v with
  | JArr l => Ok l
  | JStr s =>
      Ok (List.map (fun c => JStr (String c EmptyString))
                   (list_ascii_of_string s))
  | _ => Throw (TypeError "members is not iterable")
  end.

(** [isInUserGroup(ctx, groupName, type, doc)] *)
Definition isInUserGroup (groupName : string) (type : option string)
    (doc : option Fields) : M bool :=
  do! logEvent (MembershipTested groupName) in
  let! c := getCtx in
  if includes (roles (user c)) groupName then ret true
  else
    let! ms := getMembers groupName type doc in
    if truthy ms then
      match iterate ms with
      | Throw e => throw e
      | Ok l =>
          match memberLoop (email (user c)) l with
          | Throw e => throw e
          | Ok b => ret b
          end
      end
    else ret false.

(** The [for] loop of [isInUserGroups]. *)
Fixpoint isInUserGroupsLoop (groupNames : list string) (type : option string)
    (doc : option Fields) : M bool :=
  match groupNames with
  | [] => ret false
  | groupName :: rest =>
      let! isMember := isInUserGroup groupName type doc in
      if isMember then ret true else isInUserGroupsLoop rest type doc
  end.

(** [isAdmin(ctx)].  Its call of [isInUserGroups] passes [fromIsAdmin], so
    that only the loop of that method runs. *)
Definition isAdmin : M bool :=
  let! c := getCtx in
  match isAdmin_ c with
  | None =>
      if includes (adminIds cfg) (id (user c)) then
        do! modifyCtx (withIsAdmin (Some true)) in ret true
      else if includes (roles (user c)) (adminRole cfg) then
        do! modifyCtx (withIsAdmin (Some true)) in ret true
      else
        let! r := isInUserGroupsLoop (adminGroups cfg) None None in
        do! modifyCtx (withIsAdmin (Some r)) in ret r
  | Some b => ret b
  end.

(** [isInUserGroups(ctx, groupNames, type, doc, fromIsAdmin)] *)
Definition isInUserGroups (groupNames : list string) (type : option string)
    (doc : option Fields) (fromIsAdmin : bool) : M bool :=
  let! found := isInUserGroupsLoop groupNames type doc in
  if found then ret true
  else if negb fromIsAdmin then
    let! admin := isAdmin in
    if admin then ret true else ret false
  else ret false.

(** [assertAdmin(ctx)] *)
Definition assertAdmin : M unit :=
  let! ok := isAdmin in
  if ok then ret tt else throwErr 401 "Caller is not admin".

(** [getInUserGroups(ctx, arg, type, doc)] *)
Definition getInUserGroups (arg : option Gate) (type : string) (doc : Fields)
  : M (option (list string)) :=
  match arg with
  | Some (DynamicGroups cb) =>
      let! gs := callback cb type (toInfo doc true) in ret (Some gs)
  | Some (StaticGroups gs) => ret (Some gs)
  | None => ret None
  end.

Definition notAuthorized {A} : M A :=
  let! c := getCtx in throwErr 401 (email (user c) ++ " is not authorized").

(** [assertInUserGroups(ctx, arg, type, doc)] *)
Definition assertInUserGroups (arg : option Gate) (type : string)
    (doc : Fields) : M unit :=
  match arg with
  | None => ret tt
  | Some _ =>
      let! gs := getInUserGroups arg type doc in
      match gs with
      | None | Some [] => notAuthorized
      | Some gs =>
          let! ok := isInUserGroups gs (Some type) (Some doc) false in
          if ok then ret tt
          else
            let! admin := isAdmin in
            if admin then ret tt else notAuthorized
      end
  end.

Definition noHooks (l d : string) : DocState :=
  {| label := l; description := d;
     entry := None; onEntry := None; onReentry := None;
     read := None; onRead := None; write := None; onWrite := None;
     exit := None; delete_ := None; onDelete := None; action := None;
     nextStates := ∅ |}.

(** [getDocState(ctx, type, state)] *)
Definition getDocState (type : string) (state : option json) : M DocState :=
  let! doc := getDocType type in
  match state with
  | Some (JStr st) =>
      let st := stateBase st in
      match states doc !! st with
      | Some d => ret d
      | None =>
          let! admin := isAdmin in
          if admin then ret (noHooks "invalid" "")
          else throwErr 400 ("Invalid state in '" ++ type ++ "' document: '"
                               ++ st ++ "'")
      end
  | Some _ => throw (TypeError "state.split is not a function")
  | None =>
      match map_to_list (states doc) with
      | [(_, d)] => ret d
      | _ =>
          throwErr 400 ("Document of type '" ++ type ++
            "' can have multiple states but it is missing a 'state' field")
      end
  end.

(** [has...Access]: the gate of the document's state, with every failure of
    the assertion turned into [false]. *)
Definition hasAccess (gate : DocState -> option Gate) (type : string)
    (doc : Fields) : M bool :=
  let! docState := getDocState type (obj_get "state" doc) in
  tryCatch (do! assertInUserGroups (gate docState) type doc in ret true)
           (fun _ => ret false).

Definition hasEntryAccess := hasAccess entry.
Definition hasReadAccess := hasAccess read.
Definition hasWriteAccess := hasAccess write.
Definition hasDeleteAccess := hasAccess delete_.

Definition assertAccess (has : string -> Fields -> M bool) (msg : string)
    (type : string) (doc : Fields) : M unit :=
  let! ok := has type doc in
  if ok then ret tt else throwErr 401 msg.

Definition assertEntryAccess := assertAccess hasEntryAccess "entry access denied".
Definition assertReadAccess := assertAccess hasReadAccess "read access denied".
Definition assertWriteAccess := assertAccess hasWriteAccess "write access denied".
Definition assertDeleteAccess :=
  assertAccess hasDeleteAccess "delete access denied".

(** [JSON.stringify(ds)], without escapes. *)
Definition stringifyDocSpec (ds : DocSpec) : string :=
  "{" ++ dquote ++ "type" ++ dquote ++ ":" ++ dquote ++ ds_type ds ++ dquote
      ++ "," ++ dquote ++ "id" ++ dquote ++ ":" ++ dquote ++ ds_id ds
      ++ dquote ++ "}".

(** [_getDoc(ctx, ds, project)] *)
Definition _getDoc (ds : DocSpec) (project : option (Fields -> Fields))
  : M Fields :=
  let! pc := getDocCollection (ds_type ds) in
  let! doc := findOne pc (ds_id ds) project in
  match doc with
  | None => throwErr 404 ("document '" ++ stringifyDocSpec ds ++ "' was not found")
  | Some d => ret (toInfo d false)
  end.

(** [if (hook) { await hook(new StateCallbackContextImpl(...)) }] *)
Definition runHook (k : HookKind) (hook : option StateActionCallback)
    (type : string) (doc : Fields) : M unit :=
  match hook with
  | None => ret tt
  | Some cb => do! logEvent (HookCalled k type doc) in callback cb type doc
  end.

(** An array of group names as a value. *)
Definition groupsJson (gs : list string) : json := JArr (List.map JStr gs).

(** [_createDoc(ctx, type, doc)] *)
Definition _createDoc (type : string) (doc : Fields) : M Fields :=
  do! modifyCtx (withMode ModeCreate) in
  do! assertEntryAccess type doc in
  let! docState := getDocState type (obj_get "state" doc) in
  do! runHook HOnEntry (onEntry docState) type (toInfo doc true) in
  let! r := getInUserGroups (read docState) type doc in
  let doc := obj_set "curStateRead" (groupsJson (default [] r)) doc in
  let! w := getInUserGroups (write docState) type doc in
  let doc := obj_set "curStateWrite" (groupsJson (default [] w)) doc in
  let! pc := getDocCollection type in
  let! i := insertOne pc doc in
  _getDoc {| ds_type := type; ds_id := i |} None.

(** [createDoc(ctx, type, doc)] *)
Definition createDoc (type : string) (doc : Fields) : M Fields :=
  let! dt := getDocType type in
  if default false (document_id_required dt) then
    throwErr 401 ("documents of type '" ++ type ++
                  "' require the ID to be specified by the caller")
  else
    let doc := obj_del "_id" doc in
    let doc := obj_del "id" doc in
    _createDoc type doc.

(** [createDocById(ctx, type, id, doc)] *)
Definition createDocById (type i : string) (doc : Fields) : M Fields :=
  let! dt := getDocType type in
  if negb (default false (document_id_required dt)) then
    throwErr 401 ("documents of type '" ++ type ++
      "' may not be created with an ID that is specified by the caller")
  else
    let doc := obj_set "_id" (JStr i) doc in
    _createDoc type doc.

(** One turn of the loop of [getDocs].  [rtn.push(doc)] comes before the
    rest of the [try] block, so that a throw after it leaves [doc] in
    [rtn]. *)
Definition getDocsStep (type : string) (rtn : list Fields) (doc : Fields)
  : M (list Fields) :=
  let doc := toInfo doc false in
  do! modifyCtx (withDocId (obj_get "id" doc)) in
  do! modifyCtx (withMode ModeRead) in
  tryCatch
    (let! ok := hasReadAccess type doc in
     if ok then
       let rtn := (rtn ++ [doc])%list in
       tryCatch
         (let! docState := getDocState type (obj_get "state" doc) in
          do! runHook HOnRead (onRead docState) type (toInfo doc true) in
          ret rtn)
         (fun _ => ret rtn)
     else ret rtn)
    (fun _ => ret rtn).

Fixpoint getDocsLoop (type : string) (docs : list Fields) (rtn : list Fields)
  : M (list Fields) :=
  match docs with
  | [] => ret rtn
  | doc :: rest =>
      let! rtn := getDocsStep type rtn doc in
      getDocsLoop type rest rtn
  end.

(** [getDocs(ctx, type, match, projection)]; the filter and the projection
    are given by what they denote. *)
Definition getDocs (type : string) (matching : Fields -> bool)
    (projection : option (Fields -> Fields)) : M (list Fields) :=
  let! pc := getDocCollection type in
  let! docs := find pc matching projection in
  getDocsLoop type docs [].

(** [a == b] where [b] is not [undefined].  When [updateDoc] compares
    [doc.state] with the requested state, both have been through
    [getDocState], which accepts strings only (and an absent [doc.state]);
    the comparison of strings is the one that matters. *)
Definition looseEq (a : option json) (b : json) : bool :=
  match a, b with
  | Some (JStr x), JStr y => String.eqb x y
  | Some (JNum x), JNum y => Z.eqb x y
  | Some (JBool x), JBool y => Bool.eqb x y
  | Some JNull, JNull | None, JNull => true
  | _, _ => false
  end.

(** [if (v)] on a property that may be [undefined]: the value when it is
    truthy. *)
Definition ifTruthy (v : option json) : option json :=
  match v with
  | Some x => if truthy x then Some x else None
  | None => None
  end.

(** [if (hook)]: the property is there. *)
Definition declared {A} (o : option A) : bool :=
  match o with Some _ => true | None => false end.

(** [updateArgs(ctx, ds, args)]: the hook for extending classes, the
    identity in [DocMgr] itself. *)
Definition updateArgs (ds : DocSpec) (args : Fields) : M Fields := ret args.

(** [args.curState... = (await this.getInUserGroups(...)) || []]; [args] is
    the object [ctx.updates] refers to, so the context sees the assignment. *)
Definition cacheGroups (key : string) (gate : option Gate) (type : string)
    (doc : Fields) (args : Fields) : M Fields :=
  let! gs := getInUserGroups gate type doc in
  let args := obj_set key (groupsJson (default [] gs)) args in
  do! modifyCtx (withUpdates args) in
  ret args.

(** [if (gate) { await this.assertInUserGroups(ctx, gate, type, doc) }] *)
Definition assertIfDeclared (gate : option Gate) (type : string)
    (doc : Fields) : M unit :=
  match gate with
  | Some _ => assertInUserGroups gate type doc
  | None => ret tt
  end.

(** [updateDoc(ctx, ds, args)] *)
Definition updateDoc (ds : DocSpec) (args : Fields) : M Fields :=
  do! modifyCtx (withDocId (Some (JStr (ds_id ds)))) in
  let type := ds_type ds in
  do! modifyCtx (withMode ModeUpdate) in
  do! modifyCtx (withUpdates args) in
  let! doc := _getDoc ds None in
  let! docState := getDocState type (obj_get "state" doc) in
  let hasNonStateChange := hasNonStateKey args in
  let! admin := isAdmin in
  let newState := obj_get "state" args in
  let! args :=
    match ifTruthy newState with
    | Some newState =>
        let next := nextStates docState !! js_String newState in
        do! match next with
            | Some ns =>
                assertInUserGroups (Some (StaticGroups (groups ns))) type doc
            | None =>
                if negb admin then throwErr 500 "Invalid next state"
                else ret tt
            end in
        do! assertIfDeclared (exit docState) type doc in
        let! newDocState := getDocState type (Some newState) in
        do! (if hasNonStateChange then
               do! assertWriteAccess type doc in
               runHook HOnWrite (onWrite docState) type (toInfo doc true)
             else ret tt) in
        do! assertIfDeclared (entry newDocState) type doc in
        do! runHook HTransitionAction (next ≫= ns_action) type
              (toInfo doc true) in
        do! (if looseEq (obj_get "state" doc) newState
                && declared (onReentry newDocState)
             then runHook HOnReentry (onReentry newDocState) type
                    (toInfo doc true)
             else runHook HOnEntry (onEntry newDocState) type
                    (toInfo doc true)) in
        let! args := cacheGroups "curStateRead" (read newDocState) type doc
                       args in
        cacheGroups "curStateWrite" (write newDocState) type doc args
    | None =>
        if hasNonStateChange then
          do! assertWriteAccess type doc in
          do! runHook HOnWrite (onWrite docState) type (toInfo doc true) in
          let! args := cacheGroups "curStateRead" (read docState) type doc
                         args in
          cacheGroups "curStateWrite" (write docState) type doc args
        else ret args
    end in
  let! pc := getDocCollection type in
  let! newArgs := updateArgs ds args in
  match toMongoUpdate newArgs with
  | Throw e => throw e
  | Ok upd =>
      do! updateOne pc (ds_id ds) upd in
      _getDoc ds None
  end.

(** [deleteUserGroup(ctx, id)] *)
Definition deleteUserGroup (i : string) : M UserGroupInfo :=
  do! assertAdmin in
  let! result := getUserGroup i in
  if negb (deletable result) then
    throwErr 403 ("The '" ++ i ++ "' user group can not be deleted")
  else
    do! deleteUserGroupRecord i in
    let! s := getMgr in
    do! (match userGroupCache s !! i with
         | Some _ =>
             setMgr (withUserGroupCache (base.delete i (userGroupCache s)) s)
         | None => ret tt
         end) in
    ret result.

(** [getDoc(ctx, ds, projection)]: the read gate is checked on the whole
    document; a projection is applied by a second read. *)
Definition getDoc (ds : DocSpec) (projection : option (Fields -> Fields))
  : M Fields :=
  do! modifyCtx (withDocId (Some (JStr (ds_id ds)))) in
  do! modifyCtx (withMode ModeRead) in
  let! doc := _getDoc ds None in
  do! assertReadAccess (ds_type ds) doc in
  let! docState := getDocState (ds_type ds) (obj_get "state" doc) in
  do! runHook HOnRead (onRead docState) (ds_type ds) (toInfo doc true) in
  match projection with
  | None => ret doc
  | Some _ => _getDoc ds projection
  end.

(** [deleteDoc(ctx, ds)] *)
Definition deleteDoc (ds : DocSpec) : M Fields :=
  do! modifyCtx (withDocId (Some (JStr (ds_id ds)))) in
  do! modifyCtx (withMode ModeDelete) in
  let! doc := _getDoc ds None in
  let! docState := getDocState (ds_type ds) (obj_get "state" doc) in
  do! (if declared (delete_ docState)
       then assertDeleteAccess (ds_type ds) doc
       else assertWriteAccess (ds_type ds) doc) in
  do! runHook HOnDelete (onDelete docState) (ds_type ds) (toInfo doc true) in
  let! pc := getDocCollection (ds_type ds) in
  do! deleteOne pc (ds_id ds) in
  ret doc.

(** [createUserGroup(ctx, args, defaultMembers)] *)
Definition createUserGroup (args : UserGroupCreate)
    (defaultMembers : option json) : M UserGroupInfo :=
  do! assertAdmin in
  let! result := findUserGroup (uc_id args) in
  match result with
  | Some _ =>
      throwErr 400 ("User group '" ++ uc_id args ++ "' already exists")
  | None =>
      let deletable := default false (uc_deletable args) in
      let members :=
        match ifTruthy (uc_members args) with
        | Some ms => ms
        | None => default (JArr []) (ifTruthy defaultMembers)
        end in
      do! insertUserGroup
            {| ug_id := uc_id args; members := members;
               deletable := deletable |} in
      getUserGroup (uc_id args)
  end.

(** [getOrCreateUserGroup(ctx, args, defaultMembers)] *)
Definition getOrCreateUserGroup (args : UserGroupCreate)
    (defaultMembers : option json) : M UserGroupInfo :=
  let! s := getMgr in
  match userGroupCache s !! uc_id args with
  | Some g => ret g
  | None =>
      let! result := findUserGroup (uc_id args) in
      match result with
      | Some g => ret g
      | None => createUserGroup args defaultMembers
      end
  end.

(** [updateUserGroup(ctx, id, args)] *)
Definition updateUserGroup (i : string) (args : Fields) : M UserGroupInfo :=
  do! assertAdmin in
  match toMongoUpdate args with
  | Throw e => throw e
  | Ok upd =>
      do! updateUserGroupRecord i upd in
      let! s := getMgr in
      do! (match userGroupCache s !! i with
           | Some _ =>
               setMgr (withUserGroupCache (base.delete i (userGroupCache s)) s)
           | None => ret tt
           end) in
      getUserGroup i
  end.

(** *** [StateCallbackContextImpl]

    The methods a callback finds on its context ask the manager about the
    caller of the request, with the type and the document the context was
    built with. *)

(** [isCallerInGroup(groups)] *)
Definition isCallerInGroup (type : string) (doc : Fields)
    (groups : list string) : M bool :=
  isInUserGroups groups (Some type) (Some doc) false.

(** [assertCallerInGroup(groups)] calls
    [assertInUserGroups(ctx, groups, this.doc, this.type)]: the document
    goes where the type is expected, the type where the document is.  The
    methods on the way are given here as they run on such arguments, a type
    that is any value and a document that is a string. *)

(** [getDocRoles(ctx, type)]: the types are indexed by [String(type)]. *)
Definition getDocRolesAt (type : json) : gmap string RoleEntry :=
  if truthy type then
    match documents cfg !! js_String type with
    | Some dt => default ∅ (docRoles dt)
    | None => ∅
    end
  else ∅.

(** [_getMembers(ctx, groupName, doc)]: [getField] throws on a string, and
    the throw is caught. *)
Definition _getMembersAt (groupName : string) (doc : string) : M json :=
  let fromGroup :=
    let! ug := lookupUserGroup groupName in
    match ug with
    | None => ret (JArr [])
    | Some g => ret (members g)
    end in
  if nonempty doc then
    match getField groupName (JStr doc) with
    | Ok v => ret v
    | Throw _ => fromGroup
    end
  else fromGroup.

(** [getMembers(ctx, groupName, type, doc)]: a role computed by a callback
    is to be handed [toInfo(doc, true)], which throws on a string. *)
Definition getMembersAt (groupName : string) (type : json) (doc : string)
  : M json :=
  match getDocRolesAt type !! groupName with
  | Some role =>
      match getMembers_ role with
      | RoleCallback m =>
          if nonempty doc && truthy type
          then throw (TypeError "Cannot use 'in' operator to search for 'id'")
          else ret (JArr [])
      | RoleGroup m => _getMembersAt m doc
      end
  | None => _getMembersAt groupName doc
  end.

(** [isInUserGroup(ctx, groupName, type, doc)] *)
Definition isInUserGroupAt (groupName : string) (type : json) (doc : string)
  : M bool :=
  do! logEvent (MembershipTested groupName) in
  let! c := getCtx in
  if includes (roles (user c)) groupName then ret true
  else
    let! ms := getMembersAt groupName type doc in
    if truthy ms then
      match iterate ms with
      | Throw e => throw e
      | Ok l =>
          match memberLoop (email (user c)) l with
          | Throw e => throw e
          | Ok b => ret b
          end
      end
    else ret false.

Fixpoint isInUserGroupsLoopAt (groupNames : list string) (type : json)
    (doc : string) : M bool :=
  match groupNames with
  | [] => ret false
  | groupName :: rest =>
      let! isMember := isInUserGroupAt groupName type doc in
      if isMember then ret true else isInUserGroupsLoopAt rest type doc
  end.

(** [isInUserGroups(ctx, groupNames, type, doc)] *)
Definition isInUserGroupsAt (groupNames : list string) (type : json)
    (doc : string) : M bool :=
  let! found := isInUserGroupsLoopAt groupNames type doc in
  if found then ret true
  else
    let! admin := isAdmin in
    if admin then ret true else ret false.

(** [assertInUserGroups(ctx, arg, type, doc)] for an [arg] that is an array
    of group names. *)
Definition assertInUserGroupsAt (groups : list string) (type : json)
    (doc : string) : M unit :=
  match groups with
  | [] => notAuthorized
  | _ =>
      let! ok := isInUserGroupsAt groups type doc in
      if ok then ret tt
      else
        let! admin := isAdmin in
        if admin then ret tt else notAuthorized
  end.

(** [assertCallerInGroup(groups)] *)
Definition assertCallerInGroup (type : string) (doc : Fields)
    (groups : list string) : M unit :=
  assertInUserGroupsAt groups (JObj doc) type.

End DocMgr.

(** ** The document types of the repository's own test (docClient.ts)

    [profile] documents are created under a caller-supplied id and are open
    to the employee whose id they carry; [testDocType] documents go through
    [requested], [approved], [purchased] and [closed]. *)

Definition cbReturn {X} (x : X) : Callback X := fun _ cs => (Ok x, cs).

(** [profileACL] *)
Definition profileACL : Callback (list string) :=
  fun scc cs =>
    match obj_get "id" (cb_document scc) with
    | Some (JStr docId) =>
        if String.eqb (id (user (cb_ctx scc))) docId
        then (Ok ["Employee"], cs) else (Ok [], cs)
    | _ => (Ok [], cs)
    end.

Definition nextState (gs : list string) : NextState :=
  {| groups := gs; ns_label := Some ""; ns_action := None |}.

Definition testState (l : string) (w : list string)
    (next : list (string * NextState)) : DocState :=
  {| label := l; description := l;
     entry := None; onEntry := None; onReentry := None;
     read := Some (StaticGroups ["Employee"; "procurement"; "management"]);
     onRead := None;
     write := Some (StaticGroups w); onWrite := None;
     exit := None; delete_ := None; onDelete := None; action := None;
     nextStates := list_to_map next |}.

(** [getTestStates()] *)
Definition getTestStates : gmap string DocState :=
  list_to_map
    [("requested",
      testState "Requested" ["Employee"]
        [("approved", nextState ["management"]);
         ("closed", nextState ["procurement"])]);
     ("approved",
      testState "Approved" ["management"]
        [("purchased", nextState ["procurement"]);
         ("closed", nextState ["procurement"])]);
     ("purchased",
      testState "Purchased" ["procurement"]
        [("closed", nextState ["procurement"])]);
     ("closed", testState "Closed" ["procurement"] [])].

Definition profileStates : gmap string DocState :=
  {[ "created" :=
       {| label := "Created"; description := "Created";
          entry := Some (DynamicGroups profileACL);
          onEntry := None; onReentry := None;
          read := Some (DynamicGroups profileACL); onRead := None;
          write := Some (DynamicGroups profileACL); onWrite := None;
          exit := None; delete_ := None; onDelete := None; action := None;
          nextStates := ∅ |} ]}.

Definition profileType : DocType :=
  {| states := profileStates; collectionName := None;
     docRoles := None; document_id_required := Some true |}.

Definition purchaseType : DocType :=
  {| states := getTestStates; collectionName := None;
     docRoles := None; document_id_required := None |}.

Definition testConfig : DocMgrConfig :=
  {| appName := "test";
     documents :=
       list_to_map [("profile", profileType); ("testDocType", purchaseType)];
     adminGroups := ["admin"];
     adminRole := "Admin";
     adminIds := [] |}.

(** [createUserContext(id)] and [createUserContextAdmin(id)] *)
Definition testUser (i : string) (rs : list string) : User :=
  {| name := i; department := i; email := i ++ "@test.com";
     title := "chief flunky"; employeeNumber := i; id := i; roles := rs |}.

Definition createUserContext (i : string) : UserContext :=
  {| user := testUser i ["Employee"]; docId := None; updates := None;
     mode := None; isAdmin_ := None |}.

Definition createUserContextAdmin (i : string) : UserContext :=
  {| user := testUser i ["Employee"; "Admin"]; docId := None;
     updates := None; mode := None; isAdmin_ := None |}.

(** A [Person] as a stored object. *)
Definition personOf (u : User) : json :=
  JObj [("name", JStr (name u)); ("department", JStr (department u));
        ("email", JStr (email u)); ("title", JStr (title u));
        ("employeeNumber", JStr (employeeNumber u))].

(** The store once [manager1] has been put into [management] and [user1]
    has created the purchase request [doc1]. *)
Definition doc1 : Fields :=
  [("_id", JStr "0");
   ("purchase", JStr "video monitor");
   ("state", JStr "requested");
   ("curStateRead",
    groupsJson ["Employee"; "procurement"; "management"]);
   ("curStateWrite", groupsJson ["Employee"])].

Definition managementGroup : UserGroupInfo :=
  {| ug_id := "management";
     members := JArr [personOf (testUser "manager1" ["Employee"])];
     deletable := false |}.

Definition testStore : MgrState :=
  {| collections := {[ "test.testDocType.doc" := [doc1] ]};
     userCollection :=
       [ managementGroup;
         {| ug_id := "procurement"; members := JArr []; deletable := true |} ];
     userGroupCache := ∅ |}.

Definition startWorld (c : UserContext) (s : MgrState) : World :=
  {| mgr := s; ctx := c; trace := [] |}.

Definition ds1 : DocSpec := {| ds_type := "testDocType"; ds_id := "0" |}.

(** ** Vocabulary of the statements *)

(** The five gates of a state. *)
Inductive GateName : Type := GEntry | GRead | GWrite | GDelete | GExit.

Definition gateOf (g : GateName) (st : DocState) : option Gate :=
  match g with
  | GEntry => entry st
  | GRead => read st
  | GWrite => write st
  | GDelete => delete_ st
  | GExit => exit st
  end.

(** The error [assertInUserGroups] denies access with. *)
Definition accessDenied (c : UserContext) : Error :=
  DocMgrError 401 (email (user c) ++ " is not authorized").

(** The worlds in which [user1], [manager1] and [admin1] start a request. *)
Definition user1World : World :=
  startWorld (createUserContext "user1") testStore.
Definition manager1World : World :=
  startWorld (createUserContext "manager1") testStore.
Definition admin1World : World :=
  startWorld (createUserContextAdmin "admin1") testStore.

(** A state nobody may write to: its [write] gate is the empty list. *)
Definition sealedState : DocState :=
  {| label := "Sealed"; description := "Sealed";
     entry := None; onEntry := None; onReentry := None;
     read := None; onRead := None;
     write := Some (StaticGroups []); onWrite := None;
     exit := None; delete_ := None; onDelete := None;
     action := None; nextStates := ∅ |}.

(** Every cached group is the group stored under its id. *)
Definition cacheCoherent (s : MgrState) : Prop :=
  forall i g,
    userGroupCache s !! i = Some g ->
    List.find (hasGroupId i) (userCollection s) = Some g.

(** The world after one more line of the log. *)
Definition logged (e : Event) (w : World) : World :=
  {| mgr := mgr w; ctx := ctx w; trace := (trace w ++ [e])%list |}.

(** The [Owner] role of the README: its members are computed from the
    document, [[ctx.document.owner]]. *)
Definition ownerRole : RoleEntry :=
  {| role_name := "Owner";
     getMembers_ :=
       RoleCallback
         (fun scc cs =>
            match obj_get "owner" (cb_document scc) with
            | Some o => (Ok (JArr [o]), cs)
            | None => (Ok (JArr [JNull]), cs)
            end) |}.

(** A configuration with one type, [request], one state, and that role. *)
Definition requestType : DocType :=
  {| states :=
       {[ "open" :=
            {| label := "Open"; description := "Open";
               entry := None; onEntry := None; onReentry := None;
               read := Some (StaticGroups ["Owner"]);
               onRead := None;
               write := Some (StaticGroups ["Owner"]);
               onWrite := None;
               exit := None; delete_ := None; onDelete := None;
               action := None; nextStates := ∅ |} ]};
     collectionName := None;
     docRoles := Some {[ "Owner" := ownerRole ]};
     document_id_required := None |}.

Definition ownerConfig : DocMgrConfig :=
  {| appName := "app";
     documents := {[ "request" := requestType ]};
     adminGroups := ["admin"];
     adminRole := "Admin";
     adminIds := [] |}.

(** What a computation that only consults the user groups may change: the
    cache, coherently; not the collections. *)
Definition storeKept (w w' : World) : Prop :=
  collections (mgr w') = collections (mgr w)
  /\ userCollection (mgr w') = userCollection (mgr w)
  /\ (cacheCoherent (mgr w) -> cacheCoherent (mgr w')).

(** The [state] of the object stored under key [k] in a collection. *)
Definition storedState (s : MgrState) (cname k : string) : option json :=
  List.find (hasKey k) (collection s cname) ≫= obj_get "state".

(** The world of [updateDoc] once it has recorded the request in [ctx]. *)
Definition updating (ds : DocSpec) (args : Fields) (w : World) : World :=
  {| mgr := mgr w;
     ctx := withUpdates args
              (withMode ModeUpdate
                 (withDocId (Some (JStr (ds_id ds))) (ctx w)));
     trace := trace w |}.

(** [user1] asks for [doc1] to be given the empty state. *)
Definition blankStateUpdate : Result Fields * World :=
  updateDoc testConfig ds1 [("state", JStr "")] user1World.

(** How often the log records a call of a hook of kind [k]. *)
Definition isCall (k : HookKind) (e : Event) : bool :=
  match e, k with
  | HookCalled HOnEntry _ _, HOnEntry
  | HookCalled HOnReentry _ _, HOnReentry
  | HookCalled HOnRead _ _, HOnRead
  | HookCalled HOnWrite _ _, HOnWrite
  | HookCalled HOnDelete _ _, HOnDelete
  | HookCalled HTransitionAction _ _, HTransitionAction => true
  | _, _ => false
  end.

Definition hookCalls (k : HookKind) (tr : list Event) : nat :=
  length (List.filter (isCall k) tr).

(** The calls of [onEntry] and of [onReentry] the log of a world records. *)
Definition entryCalls (w : World) : nat * nat :=
  (hookCalls HOnEntry (trace w), hookCalls HOnReentry (trace w)).

(** A computation that calls neither [onEntry] nor [onReentry]. *)
Definition Quiet {A} (m : M A) : Prop :=
  forall w, entryCalls (snd (m w)) = entryCalls w.

(** What an update that re-enters [target] may add to the log between the
    worlds [w] and [w']: [onE] calls of [onEntry] and [onR] calls of
    [onReentry], at most one call in all; with [onReentry] declared, no call
    of [onEntry], and one call of [onReentry] when the update went through
    ([ok]); without it, no call of [onReentry], and one call of [onEntry]
    when that hook is declared and the update went through. *)
Definition reentryOutcome (target : option DocState) (ok : bool)
    (w w' : World) : Prop :=
  exists onE onR : nat,
    hookCalls HOnEntry (trace w') = (hookCalls HOnEntry (trace w) + onE)%nat
    /\ hookCalls HOnReentry (trace w')
       = (hookCalls HOnReentry (trace w) + onR)%nat
    /\ (onE + onR <= 1)%nat
    /\ (declared (target ≫= onReentry) = true ->
        onE = 0%nat /\ (ok = true -> onR = 1%nat))
    /\ (declared (target ≫= onReentry) = false ->
        onR = 0%nat
        /\ (ok = true ->
            onE = if declared (target ≫= onEntry) then 1%nat else 0%nat)).

(** A type whose only state, [open], may be entered again from itself and
    declares both entry hooks. *)
Definition ticketState : DocState :=
  {| label := "Open"; description := "Open";
     entry := None;
     onEntry := Some (cbReturn tt); onReentry := Some (cbReturn tt);
     read := Some (StaticGroups ["Employee"]); onRead := None;
     write := Some (StaticGroups ["Employee"]); onWrite := None;
     exit := None; delete_ := None; onDelete := None; action := None;
     nextStates := {[ "open" := nextState ["Employee"] ]} |}.

Definition ticketType : DocType :=
  {| states := {[ "open" := ticketState ]}; collectionName := None;
     docRoles := None; document_id_required := None |}.

Definition ticketConfig : DocMgrConfig :=
  {| appName := "app";
     documents := {[ "ticket" := ticketType ]};
     adminGroups := ["admin"]; adminRole := "Admin"; adminIds := [] |}.

Definition ticket1 : Fields :=
  [("_id", JStr "0"); ("state", JStr "open")].

Definition ticketWorld : World :=
  startWorld (createUserContext "user1")
    {| collections := {[ "app.ticket.doc" := [ticket1] ]};
       userCollection := []; userGroupCache := ∅ |}.

Definition ticketSpec : DocSpec := {| ds_type := "ticket"; ds_id := "0" |}.

(** [user1] asks for the ticket to be put into the state it is in. *)
Definition reopenTicket : Result Fields * World :=
  updateDoc ticketConfig ticketSpec [("state", JStr "open")] ticketWorld.

(** A value that is an object, as every [Person] is. *)
Definition isObject (v : json) : bool :=
  match v with JObj _ => true | _ => false end.

(** The [email] of a person is the string [e]. *)
Definition hasEmail (e : string) (m : json) : bool :=
  match m with
  | JObj o =>
      match obj_get "email" o with
      | Some (JStr e') => String.eqb e' e
      | _ => false
      end
  | _ => false
  end.

(** A request whose [owner] field holds one [Person], as the README allows
    for a document with a single holder of a role, and the same request with
    the person in an array. *)
Definition ownedBy (owner : json) : Fields :=
  [("id", JStr "0"); ("owner", owner); ("state", JStr "open")].

Definition user1Person : json := personOf (testUser "user1" ["Employee"]).

(** The name of the collection of a registered type. *)
Definition docCollectionName (cfg : DocMgrConfig) (type : string)
    (dt : DocType) : string :=
  match collectionName dt with
  | Some cName =>
      if nonempty cName then appName cfg ++ "." ++ cName
      else appName cfg ++ "." ++ type ++ ".doc"
  | None => appName cfg ++ "." ++ type ++ ".doc"
  end.

(** The world in which [getDocs] checks a document: the context tells the
    id of the document and the mode [read]. *)
Definition reading (doc : Fields) (w : World) : World :=
  {| mgr := mgr w;
     ctx := withMode ModeRead (withDocId (obj_get "id" doc) (ctx w));
     trace := trace w |}.

(** The evaluation of the read gate of a document succeeds for the caller:
    [hasReadAccess] answers [true]. *)
Definition readGranted (cfg : DocMgrConfig) (type : string) (doc : Fields)
    (w : World) : bool :=
  match fst (hasReadAccess cfg type doc w) with
  | Ok true => true
  | _ => false
  end.

(** The query as the specification words it: of the objects found, in their
    order, those for which the evaluation of the read gate succeeds, each
    under its read-path form.  An object is checked in the world the checks
    of the objects before it have left. *)
Fixpoint readable (cfg : DocMgrConfig) (type : string) (found : list Fields)
    (w : World) : list Fields :=
  match found with
  | [] => []
  | d :: rest =>
      let doc := toInfo d false in
      ((if readGranted cfg type doc (reading doc w) then [doc] else [])
       ++ readable cfg type rest (snd (getDocsStep cfg type [] d w)))%list
  end.


(** Two stored requests, the first owned by [user1], the second by
    [user2], and the world in which [user1] queries them. *)
Definition request1 : Fields :=
  [("_id", JStr "0"); ("owner", user1Person); ("state", JStr "open")].
Definition request2 : Fields :=
  [("_id", JStr "1"); ("owner", personOf (testUser "user2" ["Employee"]));
   ("state", JStr "open")].

Definition ownerWorld : World :=
  startWorld (createUserContext "user1")
    {| collections := {[ "app.request.doc" := [request1; request2] ]};
       userCollection := []; userGroupCache := ∅ |}.

Definition everyDoc : Fields -> bool := fun _ => true.

(** A thrown error that carries a 4xx status code. *)
Definition clientError {A} (r : Result A) : bool :=
  match scodeOf r with
  | Some c => (400 <=? c) && (c <? 500)
  | None => false
  end.

(** [user1] creates the profile stored under the key [k1] from a payload
    that has an [id] of its own. *)
Definition profilePayload : Fields :=
  [("id", JStr "user1"); ("addr", JStr "user1 address")].

Definition createProfile : Result Fields * World :=
  createDocById testConfig "profile" "k1" profilePayload user1World.

(** The record that creation returns. *)
Definition profileRecord : Fields :=
  [("id", JStr "user1"); ("addr", JStr "user1 address");
   ("curStateRead", groupsJson ["Employee"]);
   ("curStateWrite", groupsJson ["Employee"])].

(** [user1] creates a second purchase request; the payload names an [id]
    that [createDoc] removes. *)
Definition purchasePayload : Fields :=
  [("id", JStr "mine"); ("purchase", JStr "software license");
   ("state", JStr "requested")].

Definition createPurchase : Result Fields * World :=
  createDoc testConfig "testDocType" purchasePayload user1World.

Definition purchaseRecord : Fields :=
  [("id", JStr "1"); ("purchase", JStr "software license");
   ("state", JStr "requested");
   ("curStateRead", groupsJson ["Employee"; "procurement"; "management"]);
   ("curStateWrite", groupsJson ["Employee"])].

(** The property names of an object. *)
Definition keys {A} (o : list (string * A)) : list string := List.map fst o.

Fixpoint distinct (l : list string) : bool :=
  match l with
  | [] => true
  | k :: rest => negb (includes rest k) && distinct rest
  end.

(** A payload that is an object, its property names distinct, and that
    names no update operator of the store: no name starts with [$]. *)
Definition plainPayload (args : Fields) : bool :=
  distinct (keys args)
  && forallb (fun k => negb (startsWithDollar k)) (keys args).

(** [manager1] asks for [doc1] to be moved to the state [st]. *)
Definition approve (st : string) : Result Fields * World :=
  updateDoc testConfig ds1 [("state", JStr st)] manager1World.

(** [user1] creates a request whose state carries a suffix, then changes a
    field of it. *)
Definition createSuffixed : Result Fields * World :=
  createDoc testConfig "testDocType"
    [("purchase", JStr "pens"); ("state", JStr "requested$urgent")]
    user1World.

Definition editSuffixed : Result Fields * World :=
  updateDoc testConfig {| ds_type := "testDocType"; ds_id := "1" |}
    [("purchase", JStr "pencils")]
    (startWorld (createUserContext "user1") (mgr (snd createSuffixed))).

(** [admin1] asks for [doc1] to be moved to [approved$x]. *)
Definition adminApprove : Result Fields * World :=
  updateDoc testConfig ds1 [("state", JStr "approved$x")] admin1World.

(** ** Vocabulary of the further properties *)

(** The value is a string. *)
Definition isStr (v : json) : bool :=
  match v with JStr _ => true | _ => false end.

(** No property name of the object starts with [$]. *)
Definition noOperator (o : Fields) : bool :=
  forallb (fun k => negb (startsWithDollar k)) (keys o).

(** Every [state] the object holds under a name that is no operator is a
    string. *)
Definition stringStates (o : Fields) : bool :=
  forallb (fun kv => startsWithDollar (fst kv)
                     || negb (String.eqb (fst kv) "state")
                     || isStr (snd kv)) o.

(** The world with another store and another log: what the caller's context
    has recorded is all that is kept. *)
Definition withStore (s : MgrState) (tr : list Event) (w : World) : World :=
  {| mgr := s; ctx := ctx w; trace := tr |}.

(** A callback that does not write the store: whatever it is run on, it
    leaves the collections and the user groups as they are, and the cache
    coherent. *)
Definition readOnly {X} (cb : Callback X) : Prop :=
  forall scc cs,
    collections (cs_mgr (snd (cb scc cs))) = collections (cs_mgr cs)
    /\ userCollection (cs_mgr (snd (cb scc cs))) = userCollection (cs_mgr cs)
    /\ (cacheCoherent (cs_mgr cs) -> cacheCoherent (cs_mgr (snd (cb scc cs)))).

Definition readOnlyGate (g : option Gate) : Prop :=
  match g with
  | Some (DynamicGroups cb) => readOnly cb
  | _ => True
  end.

Definition readOnlyHook (h : option StateActionCallback) : Prop :=
  match h with
  | Some cb => readOnly cb
  | None => True
  end.

Definition readOnlyState (S : DocState) : Prop :=
  readOnlyGate (entry S) /\ readOnlyGate (read S) /\ readOnlyGate (write S)
  /\ readOnlyGate (exit S) /\ readOnlyGate (delete_ S)
  /\ readOnlyHook (onEntry S) /\ readOnlyHook (onReentry S)
  /\ readOnlyHook (onRead S) /\ readOnlyHook (onWrite S)
  /\ readOnlyHook (onDelete S)
  /\ map_Forall (fun _ ns => readOnlyHook (ns_action ns)) (nextStates S).

Definition readOnlyRole (r : RoleEntry) : Prop :=
  match getMembers_ r with
  | RoleCallback cb => readOnly cb
  | RoleGroup _ => True
  end.

Definition readOnlyType (dt : DocType) : Prop :=
  map_Forall (fun _ S => readOnlyState S) (states dt)
  /\ map_Forall (fun _ r => readOnlyRole r) (default ∅ (docRoles dt)).

(** A configuration none of whose callbacks writes the store: the gates,
    the hooks, the actions of the transitions and the roles of every type. *)
Definition readOnlyConfig (cfg : DocMgrConfig) : Prop :=
  map_Forall (fun _ dt => readOnlyType dt) (documents cfg).

(** A computation that does not write the store. *)
Definition Keeps {A} (m : M A) : Prop :=
  forall w, storeKept w (snd (m w)).



(** A store without documents in which [user1] is the one member of the
    group [admin], the store without anything, and the world in which
    [user1] starts a request on the first. *)
Definition adminGroupStore : MgrState :=
  {| collections := ∅;
     userCollection :=
       [ {| ug_id := "admin"; members := JArr [user1Person];
            deletable := false |} ];
     userGroupCache := ∅ |}.

Definition emptyStore : MgrState :=
  {| collections := ∅; userCollection := []; userGroupCache := ∅ |}.

Definition user1AdminWorld : World :=
  startWorld (createUserContext "user1") adminGroupStore.

(** The stored user groups have ids of their own, and the cache holds
    nothing but stored groups. *)
Definition uniqueIds (s : MgrState) : Prop :=
  NoDup (List.map ug_id (userCollection s)).

Definition groupsSound (s : MgrState) : Prop :=
  uniqueIds s /\ cacheCoherent s.

(** The group a creation stores. *)
Definition createdGroup (args : UserGroupCreate) (defaultMembers : option json)
  : UserGroupInfo :=
  {| ug_id := uc_id args;
     members := match ifTruthy (uc_members args) with
                | Some ms => ms
                | None => default (JArr []) (ifTruthy defaultMembers)
                end;
     deletable := default false (uc_deletable args) |}.

(** A group with other members. *)
Definition withMembers (ms : json) (g : UserGroupInfo) : UserGroupInfo :=
  {| ug_id := ug_id g; members := ms; deletable := deletable g |}.

(** The group [reviewers], created by [admin1] without members and filled
    with [user1] afterwards. *)
Definition reviewersArgs : UserGroupCreate :=
  {| uc_id := "reviewers"; uc_members := None; uc_deletable := Some true |}.

Definition createReviewers : Result UserGroupInfo * World :=
  createUserGroup testConfig reviewersArgs None admin1World.

Definition fillReviewers : Result UserGroupInfo * World :=
  updateUserGroup testConfig "reviewers" [("members", JArr [user1Person])]
    (snd createReviewers).

Definition dropReviewers : Result UserGroupInfo * World :=
  deleteUserGroup testConfig "reviewers" (snd fillReviewers).

(** The assertion that the caller is in one of the groups, decided on the
    global roles of the caller, the stored user groups and the admin status
    alone: neither a type nor a document is given. *)
Definition assertInStoredGroups (cfg : DocMgrConfig) (groups : list string)
  : M unit :=
  match groups with
  | [] => notAuthorized
  | _ =>
      let! ok := isInUserGroups cfg groups None None false in
      if ok then ret tt
      else
        let! admin := isAdmin cfg in
        if admin then ret tt else notAuthorized
  end.

(** The world of [getDoc] and of [deleteDoc] once they have recorded the
    id of the document and their mode in [ctx]. *)
Definition serving (m : Mode) (ds : DocSpec) (w : World) : World :=
  {| mgr := mgr w;
     ctx := withMode m (withDocId (Some (JStr (ds_id ds))) (ctx w));
     trace := trace w |}.

(** The gate that decides a deletion: the [delete] gate of the state when
    it declares one, its [write] gate otherwise. *)
Definition deletionGate (S : DocState) : option Gate :=
  match delete_ S with
  | Some g => Some g
  | None => write S
  end.

(** A document of the test type whose state is no state of the type, and
    the worlds in which [admin1] and [user1] find it. *)
Definition strayDoc : Fields :=
  [("_id", JStr "7"); ("purchase", JStr "ink"); ("state", JStr "lost")].

Definition strayStore : MgrState :=
  {| collections := {[ "test.testDocType.doc" := [doc1; strayDoc] ]};
     userCollection := userCollection testStore;
     userGroupCache := ∅ |}.

Definition straySpec : DocSpec := {| ds_type := "testDocType"; ds_id := "7" |}.

(** A projection under which the document keeps an [_id] that [toInfo] can
    turn into a string, or has none: [toInfo] calls [toString] on the [_id]
    it finds, which [null] does not have. *)
Definition keepsId (projection : Fields -> Fields) (d : Fields) : Prop :=
  obj_get "_id" (projection d) <> Some JNull.

(** The names every object inherits from [Object.prototype].  Under one
    of them [o[k]] and [k in o] find the inherited member when [o] has no
    property of its own of that name, so that a registry or a cache asked
    for such a name answers with it.  The embedding looks up own properties
    only: a statement that depends on a name not being found says that the
    name is none of these. *)
Definition inheritedNames : list string :=
  ["constructor"; "hasOwnProperty"; "isPrototypeOf"; "propertyIsEnumerable";
   "toLocaleString"; "toString"; "valueOf"; "__proto__";
   "__defineGetter__"; "__defineSetter__";
   "__lookupGetter__"; "__lookupSetter__"].

Definition inheritedName (k : string) : bool := includes inheritedNames k.


(** A type whose only state is named by the empty string, may be entered
    again from itself and declares both entry hooks; a stored note in that
    state, and [user1] asking for the note to be put into the state it is
    in. *)
Definition noteState : DocState :=
  {| label := "Note"; description := "Note";
     entry := None;
     onEntry := Some (cbReturn tt); onReentry := Some (cbReturn tt);
     read := Some (StaticGroups ["Employee"]); onRead := None;
     write := Some (StaticGroups ["Employee"]); onWrite := None;
     exit := None; delete_ := None; onDelete := None; action := None;
     nextStates := {[ "" := nextState ["Employee"] ]} |}.

Definition noteType : DocType :=
  {| states := {[ "" := noteState ]}; collectionName := None;
     docRoles := None; document_id_required := None |}.

Definition noteConfig : DocMgrConfig :=
  {| appName := "app";
     documents := {[ "note" := noteType ]};
     adminGroups := ["admin"]; adminRole := "Admin"; adminIds := [] |}.

Definition note1 : Fields := [("_id", JStr "0"); ("state", JStr "")].

Definition noteWorld : World :=
  startWorld (createUserContext "user1")
    {| collections := {[ "app.note.doc" := [note1] ]};
       userCollection := []; userGroupCache := ∅ |}.

Definition noteSpec : DocSpec := {| ds_type := "note"; ds_id := "0" |}.

Definition reenterNote : Result Fields * World :=
  updateDoc noteConfig noteSpec [("state", JStr "")] noteWorld.

(** * Properties *)

(** ** Reasoning about computations *)

Lemma bind_ok {A B} (m : M A) (k : A -> M B) w a w1 :
  m w = (Ok a, w1) -> bind m k w = k a w1.
Proof. intros H. unfold bind. now rewrite H. Qed.

Lemma bind_inv {A B} (m : M A) (k : A -> M B) w r w' :
  bind m k w = (r, w') ->
  (exists e, m w = (Throw e, w') /\ r = Throw e) \/
  (exists a w1, m w = (Ok a, w1) /\ k a w1 = (r, w')).
Proof.
  unfold bind. destruct (m w) as [[a | e] w1]; intros H.
  - right. eauto.
  - left. inversion H; subst. eauto.
Qed.

Lemma bind_ok_inv {A B} (m : M A) (k : A -> M B) w b w' :
  bind m k w = (Ok b, w') ->
  exists a w1, m w = (Ok a, w1) /\ k a w1 = (Ok b, w').
Proof.
  intros H. apply bind_inv in H as [(e & _ & He) | H]; [discriminate | exact H].
Qed.

(** ** The scenarios of the specification, on the types of the test *)

(** A caller outside [management] is denied the move to [approved]. *)
Example scenario_transition_denied :
  fst (updateDoc testConfig ds1 [("state", JStr "approved")] user1World)
  = Throw (DocMgrError 401 "user1@test.com is not authorized").
Proof. reflexivity. Qed.

(** A member of [management] moves the document to [approved], whose write
    gate becomes the cached one. *)
Example scenario_transition_granted :
  fst (approve "approved")
  = Ok [("id", JStr "0"); ("purchase", JStr "video monitor");
        ("state", JStr "approved");
        ("curStateRead",
         groupsJson ["Employee"; "procurement"; "management"]);
        ("curStateWrite", groupsJson ["management"])].
Proof. reflexivity. Qed.

(** [purchased] is no next state of [requested]: the move is refused to a
    caller who is no administrator and tolerated for an administrator. *)
Example scenario_invalid_transition :
  fst (updateDoc testConfig ds1 [("state", JStr "purchased")] manager1World)
  = Throw (DocMgrError 500 "Invalid next state")
  /\ isOk (fst (updateDoc testConfig ds1 [("state", JStr "purchased")]
                  admin1World)) = true
  /\ storedState
       (mgr (snd (updateDoc testConfig ds1 [("state", JStr "purchased")]
                    admin1World)))
       "test.testDocType.doc" "0"
     = Some (JStr "purchased").
Proof. repeat split; reflexivity. Qed.

(** The role [Owner] is computed from the document: its owner passes a gate
    made of that role, though no group of that name is stored. *)
Example scenario_owner_role :
  fst (assertInUserGroups ownerConfig (Some (StaticGroups ["Owner"]))
         "request" (toInfo request1 false) ownerWorld) = Ok tt
  /\ fst (assertInUserGroups ownerConfig (Some (StaticGroups ["Owner"]))
            "request" (toInfo request2 false) ownerWorld)
     = Throw (DocMgrError 401 "user1@test.com is not authorized").
Proof. split; reflexivity. Qed.

(** ** The authorization assertion *)

Lemma assertInUserGroups_empty cfg arg type doc w w1 :
  getInUserGroups arg type doc w = (Ok (Some []), w1) ->
  assertInUserGroups cfg arg type doc w = (Throw (accessDenied (ctx w1)), w1).
Proof.
  intros H. unfold assertInUserGroups.
  destruct arg as [gate |]; [| discriminate].
  now rewrite (bind_ok _ _ _ _ _ H).
Qed.

(** C2. For each of the gates entry, read, write, delete and exit of a state:
    when the gate is undefined the assertion returns at once for every caller,
    leaving the world as it is (no group is resolved, no membership is
    tested); when the gate resolves to the empty list of groups the assertion
    throws the 401 error, whoever the caller is. *)
Theorem assertInUserGroups_undefined_or_empty
    cfg (g : GateName) (st : DocState) (type : string) (doc : Fields)
    (w : World) :
  (gateOf g st = None ->
   assertInUserGroups cfg (gateOf g st) type doc w = (Ok tt, w))
  /\ (forall w1,
        getInUserGroups (gateOf g st) type doc w = (Ok (Some []), w1) ->
        assertInUserGroups cfg (gateOf g st) type doc w
        = (Throw (accessDenied (ctx w1)), w1)).
Proof.
  split.
  - intros ->. reflexivity.
  - intros w1 H. now apply assertInUserGroups_empty.
Qed.

Lemma assertInUserGroups_undefined_or_empty_witness :
  assertInUserGroups testConfig (gateOf GExit sealedState) "testDocType" doc1
    user1World
  = (Ok tt, user1World)
  /\ assertInUserGroups testConfig (gateOf GWrite sealedState) "testDocType"
       doc1 user1World
     = (Throw (accessDenied (ctx user1World)), user1World).
Proof.
  split.
  - apply (assertInUserGroups_undefined_or_empty testConfig GExit).
    reflexivity.
  - apply (assertInUserGroups_undefined_or_empty testConfig GWrite).
    reflexivity.
Defined.

(** C9. When a gate resolves to the empty list of groups the assertion throws
    the 401 error for an administrator too, and it does so in the world the
    resolution of the gate has left: the admin status is not looked at.  The
    admin override only exists for a list that is not empty: there an
    administrator who is in none of the groups passes. *)
Theorem assertInUserGroups_empty_denies_admin
    cfg (arg : option Gate) (type : string) (doc : Fields) (w w1 : World) :
  fst (isAdmin cfg w1) = Ok true ->
  (getInUserGroups arg type doc w = (Ok (Some []), w1) ->
   assertInUserGroups cfg arg type doc w
   = (Throw (accessDenied (ctx w1)), w1))
  /\ (forall g gs w2,
        getInUserGroups arg type doc w = (Ok (Some (g :: gs)), w1) ->
        isInUserGroupsLoop cfg (g :: gs) (Some type) (Some doc) w1
        = (Ok false, w2) ->
        fst (isAdmin cfg w2) = Ok true ->
        fst (assertInUserGroups cfg arg type doc w) = Ok tt).
Proof.
  intros Hadmin. split.
  - apply assertInUserGroups_empty.
  - intros g gs w2 Hgs Hloop Hadm2. unfold assertInUserGroups.
    destruct arg as [gate |]; [| discriminate].
    rewrite (bind_ok _ _ _ _ _ Hgs). unfold isInUserGroups, bind.
    rewrite Hloop. cbn [negb].
    destruct (isAdmin cfg w2) as [[[] | e] w3] eqn:E; cbn in Hadm2;
      try discriminate.
    reflexivity.
Qed.

Lemma assertInUserGroups_empty_denies_admin_witness :
  fst (isAdmin testConfig admin1World) = Ok true
  /\ assertInUserGroups testConfig (write sealedState) "testDocType" doc1
       admin1World
     = (Throw (accessDenied (ctx admin1World)), admin1World)
  /\ fst (assertInUserGroups testConfig (Some (StaticGroups ["procurement"]))
            "testDocType" doc1 admin1World)
     = Ok tt.
Proof.
  split; [reflexivity |]. split.
  - apply (assertInUserGroups_empty_denies_admin testConfig
             (write sealedState) "testDocType" doc1 admin1World admin1World);
      reflexivity.
  - eapply (assertInUserGroups_empty_denies_admin testConfig
              (Some (StaticGroups ["procurement"])) "testDocType" doc1
              admin1World admin1World);
      reflexivity.
Defined.

(** ** Resolution of the members of a group *)

Lemma lookupUserGroup_absent i w :
  cacheCoherent (mgr w) ->
  List.find (hasGroupId i) (userCollection (mgr w)) = None ->
  lookupUserGroup i w = (Ok None, w).
Proof.
  intros Hc Hnone. unfold lookupUserGroup, bind, getMgr, findUserGroup.
  destruct (userGroupCache (mgr w) !! i) as [g |] eqn:E.
  - apply Hc in E. congruence.
  - cbn. now rewrite Hnone.
Qed.

Lemma _getMembers_absent groupName doc w :
  cacheCoherent (mgr w) ->
  (forall d, doc = Some d -> isOk (getField groupName (JObj d)) = false) ->
  List.find (hasGroupId groupName) (userCollection (mgr w)) = None ->
  _getMembers groupName doc w = (Ok (JArr []), w).
Proof.
  intros Hc Hfield Hnone. unfold _getMembers.
  assert (Hgroup :
    bind (lookupUserGroup groupName)
         (fun ug => match ug with
                    | None => ret (JArr [])
                    | Some g => ret (members g)
                    end) w = (Ok (JArr []), w)).
  { now rewrite (bind_ok _ _ _ _ _ (lookupUserGroup_absent _ _ Hc Hnone)). }
  destruct doc as [d |]; [| exact Hgroup].
  specialize (Hfield d eq_refl).
  destruct (getField groupName (JObj d)); [discriminate | exact Hgroup].
Qed.

Lemma getMembers_absent cfg groupName type doc w :
  cacheCoherent (mgr w) ->
  getDocRoles cfg type !! groupName = None ->
  (forall d, doc = Some d -> isOk (getField groupName (JObj d)) = false) ->
  List.find (hasGroupId groupName) (userCollection (mgr w)) = None ->
  getMembers cfg groupName type doc w = (Ok (JArr []), w).
Proof.
  intros Hc Hrole Hfield Hnone. unfold getMembers. rewrite Hrole.
  now apply _getMembers_absent.
Qed.

Lemma isAdmin_memo cfg w b w' :
  isAdmin cfg w = (Ok b, w') -> isAdmin_ (ctx w') = Some b.
Proof.
  unfold isAdmin, bind, getCtx. destruct (isAdmin_ (ctx w)) as [b0 |] eqn:E.
  - intros [= <- <-]. exact E.
  - destruct (includes (adminIds cfg) (id (user (ctx w)))).
    { intros [= <- <-]. reflexivity. }
    destruct (includes (roles (user (ctx w))) (adminRole cfg)).
    { intros [= <- <-]. reflexivity. }
    destruct (isInUserGroupsLoop cfg (adminGroups cfg) None None w)
      as [[r | e] w1]; [| discriminate].
    intros [= <- <-]. reflexivity.
Qed.

Lemma isAdmin_memoised cfg w b :
  isAdmin_ (ctx w) = Some b -> isAdmin cfg w = (Ok b, w).
Proof. intros H. unfold isAdmin, bind, getCtx. now rewrite H. Qed.

(** C4. A group name that is no role of the document type, no field of the
    document and no stored user group resolves to the empty list of members,
    in a world that is left as it was; the membership test of a caller who
    does not hold the name as a role is then false, and a gate made of that
    name denies the caller who is not an administrator with the 401 error.
    A role of the document type whose source is a callback resolves to the
    empty list when there is no document. *)
Theorem getMembers_unknown_group_is_empty
    cfg (groupName : string) (type : option string) (doc : option Fields)
    (w : World) :
  (cacheCoherent (mgr w) ->
   getDocRoles cfg type !! groupName = None ->
   (forall d, doc = Some d -> isOk (getField groupName (JObj d)) = false) ->
   List.find (hasGroupId groupName) (userCollection (mgr w)) = None ->
   getMembers cfg groupName type doc w = (Ok (JArr []), w)
   /\ (includes (roles (user (ctx w))) groupName = false ->
       isInUserGroup cfg groupName type doc w
       = (Ok false, logged (MembershipTested groupName) w)
       /\ forall t d w2,
            type = Some t -> doc = Some d ->
            isAdmin cfg (logged (MembershipTested groupName) w)
            = (Ok false, w2) ->
            assertInUserGroups cfg (Some (StaticGroups [groupName])) t d w
            = (Throw (accessDenied (ctx w2)), w2)))
  /\ (forall role cb,
        getDocRoles cfg type !! groupName = Some role ->
        getMembers_ role = RoleCallback cb ->
        getMembers cfg groupName type None w = (Ok (JArr []), w)).
Proof.
  split.
  - intros Hc Hrole Hfield Hnone. split.
    { now apply getMembers_absent. }
    intros Hroles.
    assert (Htest : isInUserGroup cfg groupName type doc w
                    = (Ok false, logged (MembershipTested groupName) w)).
    { unfold isInUserGroup, bind, logEvent, getCtx. cbn [ctx].
      rewrite Hroles.
      change {| mgr := mgr w; ctx := ctx w;
                trace := (trace w ++ [MembershipTested groupName])%list |}
        with (logged (MembershipTested groupName) w).
      rewrite (getMembers_absent cfg groupName type doc
                 (logged (MembershipTested groupName) w)); auto. }
    split; [exact Htest |].
    intros t d w2 -> -> Hadm.
    unfold assertInUserGroups, getInUserGroups, isInUserGroups.
    unfold bind at 1. cbn [ret].
    unfold isInUserGroupsLoop, bind. rewrite Htest. cbn [negb ret].
    rewrite Hadm. cbn [ret].
    rewrite (isAdmin_memoised cfg w2 false (isAdmin_memo _ _ _ _ Hadm)).
    reflexivity.
  - intros role cb Hrole Hsrc. unfold getMembers. rewrite Hrole, Hsrc.
    reflexivity.
Qed.

Lemma cacheCoherent_empty s : userGroupCache s = ∅ -> cacheCoherent s.
Proof. intros H i g. rewrite H, lookup_empty. discriminate. Qed.

Lemma getMembers_unknown_group_is_empty_witness :
  getMembers testConfig "NonExistentGroup" (Some "testDocType") (Some doc1)
    user1World
  = (Ok (JArr []), user1World)
  /\ isInUserGroup testConfig "NonExistentGroup" (Some "testDocType")
       (Some doc1) user1World
     = (Ok false, logged (MembershipTested "NonExistentGroup") user1World)
  /\ fst (assertInUserGroups testConfig
            (Some (StaticGroups ["NonExistentGroup"])) "testDocType" doc1
            user1World)
     = Throw (DocMgrError 401 "user1@test.com is not authorized")
  /\ getMembers ownerConfig "Owner" (Some "request") None user1World
     = (Ok (JArr []), user1World).
Proof.
  destruct (getMembers_unknown_group_is_empty testConfig "NonExistentGroup"
              (Some "testDocType") (Some doc1) user1World) as [H1 _].
  destruct H1 as [Hm Ht].
  { apply cacheCoherent_empty. reflexivity. }
  { reflexivity. }
  { intros d [= <-]. reflexivity. }
  { reflexivity. }
  destruct (Ht eq_refl) as [Htest Hassert].
  split; [exact Hm |]. split; [exact Htest |]. split.
  - erewrite Hassert; cycle 1; [reflexivity .. |]. reflexivity.
  - eapply (proj2 (getMembers_unknown_group_is_empty ownerConfig "Owner"
                     (Some "request") None user1World));
      reflexivity.
Defined.

(** ** Computations that leave the store alone *)

Lemma storeKept_refl w : storeKept w w.
Proof. unfold storeKept. auto. Qed.

Lemma storeKept_trans w1 w2 w3 :
  storeKept w1 w2 -> storeKept w2 w3 -> storeKept w1 w3.
Proof.
  unfold storeKept. intros (A1 & B1 & C1) (A2 & B2 & C2).
  repeat split; [congruence | congruence | auto].
Qed.

Lemma storeKept_same_mgr w w' : mgr w' = mgr w -> storeKept w w'.
Proof. unfold storeKept. intros ->. auto. Qed.

Lemma lookupUserGroup_spec i w :
  exists w',
    lookupUserGroup i w
    = (Ok (match userGroupCache (mgr w) !! i with
           | Some g => Some g
           | None => List.find (hasGroupId i) (userCollection (mgr w))
           end), w')
    /\ storeKept w w' /\ ctx w' = ctx w /\ trace w' = trace w.
Proof.
  unfold lookupUserGroup, bind, getMgr, findUserGroup.
  destruct (userGroupCache (mgr w) !! i) as [g |] eqn:E.
  - exists w. cbn. auto using storeKept_refl.
  - cbn.
    destruct (List.find (hasGroupId i) (userCollection (mgr w))) as [g |] eqn:F.
    + eexists. split; [reflexivity |]. cbn. split; [| auto].
      unfold storeKept. cbn. repeat split. intros Hc j g' Hj.
      unfold withUserGroupCache in *. cbn [userGroupCache userCollection] in *.
      destruct (decide (i = j)) as [<- | Hne].
      * rewrite lookup_insert_eq in Hj. congruence.
      * rewrite lookup_insert_ne in Hj by exact Hne. now apply Hc.
    + exists w. auto using storeKept_refl.
Qed.

Lemma lookupUserGroup_coherent i w :
  cacheCoherent (mgr w) ->
  fst (lookupUserGroup i w)
  = Ok (List.find (hasGroupId i) (userCollection (mgr w))).
Proof.
  intros Hc. destruct (lookupUserGroup_spec i w) as (w' & -> & _). cbn.
  destruct (userGroupCache (mgr w) !! i) as [g |] eqn:E; [| reflexivity].
  now rewrite (Hc _ _ E).
Qed.

Lemma isInUserGroup_global_kept cfg groupName w :
  storeKept w (snd (isInUserGroup cfg groupName None None w)).
Proof.
  unfold isInUserGroup, bind, logEvent, getCtx. cbn [ctx].
  destruct (includes _ groupName); [now apply storeKept_same_mgr |].
  unfold getMembers. cbn [getDocRoles]. rewrite lookup_empty.
  unfold _getMembers, bind.
  match goal with |- context [lookupUserGroup ?i ?w0] =>
    destruct (lookupUserGroup_spec i w0) as (w' & -> & Hk & _ & _)
  end.
  assert (Hk' : storeKept w w').
  { eapply storeKept_trans; [| exact Hk]. now apply storeKept_same_mgr. }
  match goal with |- context [match ?o with Some _ => _ | None => _ end ?w0] =>
    destruct o
  end; cbn [ret].
  all: repeat match goal with
    | |- context [if ?b then _ else _] => destruct b
    | |- context [match ?r with Ok _ => _ | Throw _ => _ end] => destruct r
    end; exact Hk'.
Qed.

Lemma isInUserGroupsLoop_global_kept cfg groupNames w :
  storeKept w (snd (isInUserGroupsLoop cfg groupNames None None w)).
Proof.
  revert w. induction groupNames as [| g gs IH]; intros w.
  - apply storeKept_refl.
  - cbn [isInUserGroupsLoop]. unfold bind.
    pose proof (isInUserGroup_global_kept cfg g w) as Hg.
    destruct (isInUserGroup cfg g None None w) as [[[] | e] w1]; cbn in *;
      try exact Hg.
    eapply storeKept_trans; [exact Hg | apply IH].
Qed.

Lemma isAdmin_kept cfg w : storeKept w (snd (isAdmin cfg w)).
Proof.
  unfold isAdmin, bind, getCtx. destruct (isAdmin_ (ctx w)).
  { apply storeKept_refl. }
  destruct (includes (adminIds cfg) _); [now apply storeKept_same_mgr |].
  destruct (includes (roles _) _); [now apply storeKept_same_mgr |].
  pose proof (isInUserGroupsLoop_global_kept cfg (adminGroups cfg) w) as Hl.
  destruct (isInUserGroupsLoop cfg (adminGroups cfg) None None w)
    as [[r | e] w1]; cbn in *; [| exact Hl].
  eapply storeKept_trans; [exact Hl | now apply storeKept_same_mgr].
Qed.

(** ** Deletion of a user group *)

(** C8, as the code has it. Deleting a stored group whose [deletable] flag
    is false never succeeds and leaves the group collection as it is.  The
    admin check comes first: a caller who is an administrator gets the 403
    error of the undeletable group, a caller who is not gets the 401 error
    of [assertAdmin]. *)
Theorem deleteUserGroup_undeletable
    cfg (i : string) (w : World) (g : UserGroupInfo) :
  cacheCoherent (mgr w) ->
  List.find (hasGroupId i) (userCollection (mgr w)) = Some g ->
  deletable g = false ->
  forall r w',
    deleteUserGroup cfg i w = (r, w') ->
    isOk r = false
    /\ userCollection (mgr w') = userCollection (mgr w)
    /\ (fst (isAdmin cfg w) = Ok true ->
        r = Throw (DocMgrError 403
                     ("The '" ++ i ++ "' user group can not be deleted")))
    /\ (fst (isAdmin cfg w) = Ok false ->
        r = Throw (DocMgrError 401 "Caller is not admin")).
Proof.
  intros Hc Hfind Hdel r w'. unfold deleteUserGroup, assertAdmin.
  pose proof (isAdmin_kept cfg w) as (_ & Hu & Hc1).
  unfold bind at 1 2.
  destruct (isAdmin cfg w) as [[[] | e] w1]; cbn [fst snd] in *.
  - (* the caller is an administrator *)
    cbn [ret]. unfold getUserGroup. unfold bind at 1 2.
    destruct (lookupUserGroup_spec i w1) as (w2 & Hl & (_ & Hu2 & _) & _).
    pose proof (lookupUserGroup_coherent i w1 (Hc1 Hc)) as Hl'.
    rewrite Hl in Hl'. cbn [fst] in Hl'. injection Hl' as Hl'.
    rewrite Hl, Hl', Hu, Hfind. cbn [ret]. rewrite Hdel.
    cbn. intros [= <- <-].
    repeat split; [congruence | discriminate].
  - cbn. intros [= <- <-]. repeat split; [exact Hu | discriminate].
  - intros [= <- <-]. repeat split; [exact Hu | discriminate | discriminate].
Qed.

Lemma deleteUserGroup_undeletable_witness :
  isOk (fst (deleteUserGroup testConfig "management" admin1World)) = false
  /\ userCollection (mgr (snd (deleteUserGroup testConfig "management"
                                 admin1World)))
     = userCollection (mgr admin1World)
  /\ fst (deleteUserGroup testConfig "management" admin1World)
     = Throw (DocMgrError 403
                "The 'management' user group can not be deleted").
Proof.
  destruct (deleteUserGroup_undeletable testConfig "management" admin1World
              managementGroup
              (cacheCoherent_empty (mgr admin1World) eq_refl)
              eq_refl eq_refl
              _ _ (surjective_pairing _)) as (H1 & H2 & H3 & _).
  split; [exact H1 |]. split; [exact H2 |]. exact (H3 eq_refl).
Defined.

(** C8 fails as stated: [management] is stored and not deletable, and the
    deletion asked by [user1], who is no administrator, fails with the 401
    error of the admin check, not with the 403 error of the undeletable
    group. *)
Lemma deleteUserGroup_undeletable_counterexample :
  List.find (hasGroupId "management") (userCollection (mgr user1World))
  = Some managementGroup
  /\ deletable managementGroup = false
  /\ fst (deleteUserGroup testConfig "management" user1World)
     = Throw (DocMgrError 401 "Caller is not admin")
  /\ scodeOf (fst (deleteUserGroup testConfig "management" user1World))
     <> Some 403.
Proof. repeat split; try reflexivity. vm_compute. discriminate. Qed.

(** ** Transitions *)

Lemma modifyCtx_run f w :
  modifyCtx f w
  = (Ok tt, {| mgr := mgr w; ctx := f (ctx w); trace := trace w |}).
Proof. reflexivity. Qed.

Lemma _getDoc_spec cfg ds project w :
  exists r, _getDoc cfg ds project w = (r, w).
Proof.
  unfold _getDoc, getDocCollection, getDocCollectionName, bind.
  destruct (documents cfg !! ds_type ds) as [dt |]; [| eexists; reflexivity].
  destruct (collectionName dt) as [c |]; [destruct (nonempty c) |];
    cbn; match goal with |- context [List.find ?p ?l] =>
           destruct (List.find p l) end; cbn; eexists; reflexivity.
Qed.

Lemma getDocType_spec cfg type w :
  getDocType cfg type w
  = (match documents cfg !! type with
     | Some dt => Ok dt
     | None =>
         Throw (DocMgrError 400 ("Invalid document type: '" ++ type ++ "'"))
     end, w).
Proof. unfold getDocType. now destruct (documents cfg !! type). Qed.

Lemma getDocState_kept cfg type state w :
  storeKept w (snd (getDocState cfg type state w)).
Proof.
  unfold getDocState, bind. rewrite getDocType_spec.
  destruct (documents cfg !! type) as [dt |]; [| apply storeKept_refl].
  destruct state as [[| | | st | |] |]; try apply storeKept_refl.
  - destruct (states dt !! stateBase st); [apply storeKept_refl |].
    pose proof (isAdmin_kept cfg w) as Hk.
    destruct (isAdmin cfg w) as [[[] | e] w1]; exact Hk.
  - destruct (map_to_list (states dt)) as [| [k d] [| ? ?]];
      apply storeKept_refl.
Qed.

(** A requested state that is not the empty string, is no name inherited
    from [Object.prototype] and is no key of the [nextStates] of the current
    state makes [updateDoc] throw "Invalid next state" for a caller who is
    not an administrator, with every collection as it was. *)
Lemma updateDoc_invalid_transition
    cfg (ds : DocSpec) (args doc : Fields) (w w1 w2 : World)
    (S1 : DocState) (s2 : string) :
  _getDoc cfg ds None (updating ds args w) = (Ok doc, updating ds args w) ->
  getDocState cfg (ds_type ds) (obj_get "state" doc) (updating ds args w)
  = (Ok S1, w1) ->
  isAdmin cfg w1 = (Ok false, w2) ->
  obj_get "state" args = Some (JStr s2) ->
  s2 <> "" ->
  inheritedName s2 = false ->
  nextStates S1 !! s2 = None ->
  updateDoc cfg ds args w = (Throw (DocMgrError 500 "Invalid next state"), w2)
  /\ collections (mgr w2) = collections (mgr w)
  /\ userCollection (mgr w2) = userCollection (mgr w).
Proof.
  intros Hdoc Hst Hadm Hargs Hne _ Hnext. split; [| split].
  - unfold updateDoc.
    do 3 (rewrite (bind_ok _ _ _ _ _ (modifyCtx_run _ _));
          cbn [mgr ctx trace]).
    fold (updating ds args w).
    rewrite (bind_ok _ _ _ _ _ Hdoc), (bind_ok _ _ _ _ _ Hst),
      (bind_ok _ _ _ _ _ Hadm).
    rewrite Hargs. cbn [ifTruthy truthy].
    assert (Ht : negb (String.eqb s2 "") = true).
    { apply negb_true_iff, String.eqb_neq, Hne. }
    rewrite Ht. cbn [js_String]. rewrite Hnext. reflexivity.
  - pose proof (getDocState_kept cfg (ds_type ds) (obj_get "state" doc)
                  (updating ds args w)) as (A & _).
    pose proof (isAdmin_kept cfg w1) as (B & _).
    rewrite Hst in A. rewrite Hadm in B. cbn in A, B. congruence.
  - pose proof (getDocState_kept cfg (ds_type ds) (obj_get "state" doc)
                  (updating ds args w)) as (_ & A & _).
    pose proof (isAdmin_kept cfg w1) as (_ & B & _).
    rewrite Hst in A. rewrite Hadm in B. cbn in A, B. congruence.
Qed.

(** C1, where the code departs from it.  [doc1] is in state [requested],
    whose [nextStates] are [approved] and [closed]; [user1] is not an
    administrator.  An update whose payload is [{ state: "" }] is not taken
    for a change of state ([if (newState)] is false for the empty string), so
    that neither the transition nor any gate is checked; [toMongoUpdate]
    still writes the [state] of the payload: the update succeeds and the
    stored state of [doc1] becomes the empty string. *)
Theorem updateDoc_empty_state_is_not_checked :
  (getTestStates !! "requested" ≫= fun s1 => nextStates s1 !! "") = None
  /\ fst (isAdmin testConfig user1World) = Ok false
  /\ storedState (mgr user1World) "test.testDocType.doc" "0"
     = Some (JStr "requested")
  /\ isOk (fst blankStateUpdate) = true
  /\ storedState (mgr (snd blankStateUpdate)) "test.testDocType.doc" "0"
     = Some (JStr "").
Proof. repeat split; vm_compute; reflexivity. Qed.

(** ** Which computations call the entry hooks *)

Lemma quiet_ret {A} (a : A) : Quiet (ret a).
Proof. intros w. reflexivity. Qed.

Lemma quiet_throw {A} e : Quiet (@throw A e).
Proof. intros w. reflexivity. Qed.

Lemma quiet_throwErr {A} c msg : Quiet (@throwErr A c msg).
Proof. intros w. reflexivity. Qed.

Lemma quiet_bind {A B} (m : M A) (k : A -> M B) :
  Quiet m -> (forall a, Quiet (k a)) -> Quiet (bind m k).
Proof.
  intros Hm Hk w. unfold bind. specialize (Hm w).
  destruct (m w) as [[a | e] w1]; cbn in *; [| exact Hm].
  now rewrite Hk.
Qed.

Lemma quiet_tryCatch {A} (m : M A) (h : Error -> M A) :
  Quiet m -> (forall e, Quiet (h e)) -> Quiet (tryCatch m h).
Proof.
  intros Hm Hh w. unfold tryCatch. specialize (Hm w).
  destruct (m w) as [[a | e] w1]; cbn in *; [exact Hm |].
  now rewrite Hh.
Qed.

Lemma quiet_getMgr : Quiet getMgr.
Proof. intros w. reflexivity. Qed.

Lemma quiet_getCtx : Quiet getCtx.
Proof. intros w. reflexivity. Qed.

Lemma quiet_setMgr s : Quiet (setMgr s).
Proof. intros w. reflexivity. Qed.

Lemma quiet_setCtx c : Quiet (setCtx c).
Proof. intros w. reflexivity. Qed.

Lemma quiet_modifyCtx f : Quiet (modifyCtx f).
Proof. intros w. reflexivity. Qed.

Lemma quiet_callback {X} (cb : Callback X) type doc :
  Quiet (callback cb type doc).
Proof.
  intros w. unfold callback.
  destruct (cb _ _) as [r cs]. reflexivity.
Qed.

Lemma hookCalls_app k tr1 tr2 :
  hookCalls k (tr1 ++ tr2) = (hookCalls k tr1 + hookCalls k tr2)%nat.
Proof. unfold hookCalls. now rewrite List.filter_app, length_app. Qed.

Lemma quiet_logEvent e :
  isCall HOnEntry e = false -> isCall HOnReentry e = false ->
  Quiet (logEvent e).
Proof.
  intros H1 H2 w. unfold entryCalls, logEvent. cbn [snd trace].
  rewrite !hookCalls_app. unfold hookCalls at 2 4. cbn [List.filter].
  rewrite H1, H2. cbn [length]. now rewrite !Nat.add_0_r.
Qed.

Lemma quiet_runHook k hook type doc :
  k <> HOnEntry -> k <> HOnReentry -> Quiet (runHook k hook type doc).
Proof.
  intros H1 H2. unfold runHook. destruct hook as [cb |]; [| apply quiet_ret].
  apply quiet_bind; [| intros _; apply quiet_callback].
  apply quiet_logEvent; now destruct k.
Qed.

Create HintDb quiet.
#[local] Hint Resolve quiet_ret quiet_throw quiet_throwErr quiet_getMgr
  quiet_getCtx quiet_setMgr quiet_setCtx quiet_modifyCtx quiet_callback
  : quiet.

(** Breaks a goal [Quiet m] down along the structure of [m]. *)
Ltac quiet_step :=
  match goal with
  | |- Quiet (bind _ _) => apply quiet_bind; [| intros ?]
  | |- Quiet (tryCatch _ _) => apply quiet_tryCatch; [| intros ?]
  | |- Quiet (match ?x with _ => _ end) => destruct x
  | |- Quiet (if ?b then _ else _) => destruct b
  | |- Quiet (let _ := _ in _) => cbv zeta
  | |- Quiet _ => solve [auto with quiet]
  end.
Ltac quiet := repeat quiet_step.

Lemma quiet_lookupUserGroup i : Quiet (lookupUserGroup i).
Proof. unfold lookupUserGroup, findUserGroup. quiet. Qed.
#[local] Hint Resolve quiet_lookupUserGroup : quiet.

Lemma quiet__getMembers g doc : Quiet (_getMembers g doc).
Proof. unfold _getMembers. quiet. Qed.
#[local] Hint Resolve quiet__getMembers : quiet.

Lemma quiet_getMembers cfg g type doc : Quiet (getMembers cfg g type doc).
Proof. unfold getMembers. quiet. Qed.
#[local] Hint Resolve quiet_getMembers : quiet.

Lemma quiet_isInUserGroup cfg g type doc :
  Quiet (isInUserGroup cfg g type doc).
Proof.
  unfold isInUserGroup. apply quiet_bind; [now apply quiet_logEvent |].
  intros _. quiet.
Qed.
#[local] Hint Resolve quiet_isInUserGroup : quiet.

Lemma quiet_isInUserGroupsLoop cfg gs type doc :
  Quiet (isInUserGroupsLoop cfg gs type doc).
Proof. induction gs as [| g gs IH]; cbn [isInUserGroupsLoop]; quiet. Qed.
#[local] Hint Resolve quiet_isInUserGroupsLoop : quiet.

Lemma quiet_isAdmin cfg : Quiet (isAdmin cfg).
Proof. unfold isAdmin. quiet. Qed.
#[local] Hint Resolve quiet_isAdmin : quiet.

Lemma quiet_isInUserGroups cfg gs type doc b :
  Quiet (isInUserGroups cfg gs type doc b).
Proof. unfold isInUserGroups. quiet. Qed.
#[local] Hint Resolve quiet_isInUserGroups : quiet.

Lemma quiet_getInUserGroups arg type doc :
  Quiet (getInUserGroups arg type doc).
Proof. unfold getInUserGroups. quiet. Qed.
#[local] Hint Resolve quiet_getInUserGroups : quiet.

Lemma quiet_notAuthorized {A} : Quiet (@notAuthorized A).
Proof. unfold notAuthorized. quiet. Qed.
#[local] Hint Resolve @quiet_notAuthorized : quiet.

Lemma quiet_assertInUserGroups cfg arg type doc :
  Quiet (assertInUserGroups cfg arg type doc).
Proof. unfold assertInUserGroups. quiet. Qed.
#[local] Hint Resolve quiet_assertInUserGroups : quiet.

Lemma quiet_getDocType cfg type : Quiet (getDocType cfg type).
Proof. unfold getDocType. quiet. Qed.
#[local] Hint Resolve quiet_getDocType : quiet.

Lemma quiet_getDocState cfg type state : Quiet (getDocState cfg type state).
Proof. unfold getDocState. quiet. Qed.
#[local] Hint Resolve quiet_getDocState : quiet.

Lemma quiet_hasAccess cfg gate type doc : Quiet (hasAccess cfg gate type doc).
Proof. unfold hasAccess. quiet. Qed.
#[local] Hint Resolve quiet_hasAccess : quiet.

Lemma quiet_assertWriteAccess cfg type doc :
  Quiet (assertWriteAccess cfg type doc).
Proof.
  unfold assertWriteAccess, assertAccess, hasWriteAccess. quiet.
Qed.
#[local] Hint Resolve quiet_assertWriteAccess : quiet.

Lemma quiet_assertIfDeclared cfg gate type doc :
  Quiet (assertIfDeclared cfg gate type doc).
Proof. unfold assertIfDeclared. quiet. Qed.
#[local] Hint Resolve quiet_assertIfDeclared : quiet.

Lemma quiet_getDocCollection cfg type : Quiet (getDocCollection cfg type).
Proof. unfold getDocCollection, getDocCollectionName. quiet. Qed.
#[local] Hint Resolve quiet_getDocCollection : quiet.

Lemma quiet__getDoc cfg ds project : Quiet (_getDoc cfg ds project).
Proof. unfold _getDoc, findOne. quiet. Qed.
#[local] Hint Resolve quiet__getDoc : quiet.

Lemma quiet_cacheGroups key gate type doc args :
  Quiet (cacheGroups key gate type doc args).
Proof. unfold cacheGroups. quiet. Qed.
#[local] Hint Resolve quiet_cacheGroups : quiet.

Lemma quiet_updateOne cname k upd : Quiet (updateOne cname k upd).
Proof. unfold updateOne. quiet. Qed.
#[local] Hint Resolve quiet_updateOne : quiet.

Lemma quiet_bind_inv {A B} (m : M A) (k : A -> M B) w r w' :
  Quiet m ->
  bind m k w = (r, w') ->
  (isOk r = false /\ entryCalls w' = entryCalls w)
  \/ (exists a w1,
        m w = (Ok a, w1) /\ entryCalls w1 = entryCalls w
        /\ k a w1 = (r, w')).
Proof.
  intros Hq H. specialize (Hq w).
  apply bind_inv in H as [(e & Hm & ->) | (a & w1 & Hm & Hk)].
  - left. rewrite Hm in Hq. auto.
  - right. exists a, w1. rewrite Hm in Hq. auto.
Qed.

Lemma quiet_run {A} (m : M A) w r w' :
  Quiet m -> m w = (r, w') -> entryCalls w' = entryCalls w.
Proof. intros Hq H. specialize (Hq w). now rewrite H in Hq. Qed.

Lemma runHook_onEntry hook type doc w :
  entryCalls (snd (runHook HOnEntry hook type doc w))
  = ((fst (entryCalls w) + if declared hook then 1 else 0)%nat,
     snd (entryCalls w)).
Proof.
  unfold runHook. destruct hook as [cb |]; cbn [declared ret snd].
  - unfold bind, logEvent.
    match goal with |- context [callback cb type doc ?w0] =>
      rewrite (quiet_callback cb type doc w0) end.
    unfold entryCalls. cbn [trace fst snd]. rewrite !hookCalls_app.
    unfold hookCalls at 2 4. cbn. now rewrite Nat.add_0_r.
  - unfold entryCalls. cbn. now rewrite Nat.add_0_r.
Qed.

Lemma runHook_onReentry hook type doc w :
  entryCalls (snd (runHook HOnReentry hook type doc w))
  = (fst (entryCalls w),
     (snd (entryCalls w) + if declared hook then 1 else 0)%nat).
Proof.
  unfold runHook. destruct hook as [cb |]; cbn [declared ret snd].
  - unfold bind, logEvent.
    match goal with |- context [callback cb type doc ?w0] =>
      rewrite (quiet_callback cb type doc w0) end.
    unfold entryCalls. cbn [trace fst snd]. rewrite !hookCalls_app.
    unfold hookCalls at 2 4. cbn. now rewrite Nat.add_0_r.
  - unfold entryCalls. cbn. now rewrite Nat.add_0_r.
Qed.

(** The state [getDocState] answers with for a string: the declared state of
    the name before the first [$], or the stand-in without hooks it hands to
    an administrator. *)
Lemma getDocState_target cfg type st dt w nds w1 :
  documents cfg !! type = Some dt ->
  getDocState cfg type (Some (JStr st)) w = (Ok nds, w1) ->
  nds = default (noHooks "invalid" "") (states dt !! stateBase st).
Proof.
  intros Hdt. unfold getDocState. unfold bind at 1.
  rewrite getDocType_spec, Hdt.
  destruct (states dt !! stateBase st) as [T |]; cbn [default].
  - now intros [= <- _].
  - unfold bind. destruct (isAdmin cfg w) as [[[] | e] w2]; cbn;
      intros [= <- _] || discriminate. reflexivity.
Qed.

Lemma quiet_runHook_onWrite hook type doc :
  Quiet (runHook HOnWrite hook type doc).
Proof. now apply quiet_runHook. Qed.

Lemma quiet_runHook_action hook type doc :
  Quiet (runHook HTransitionAction hook type doc).
Proof. now apply quiet_runHook. Qed.

Lemma quiet_runHook_onRead hook type doc :
  Quiet (runHook HOnRead hook type doc).
Proof. now apply quiet_runHook. Qed.
#[local] Hint Resolve quiet_runHook_onWrite quiet_runHook_action
  quiet_runHook_onRead : quiet.

Lemma looseEq_same st : looseEq (Some (JStr st)) (JStr st) = true.
Proof. cbn. apply String.eqb_refl. Qed.

Lemma reentryOutcome_early target w w0 :
  entryCalls w0 = entryCalls w -> reentryOutcome target false w w0.
Proof.
  intros [= H1 H2]. exists 0%nat, 0%nat. rewrite H1, H2, !Nat.add_0_r.
  split; [reflexivity |]. split; [reflexivity |]. split; [lia |].
  split; intros _; (split; [reflexivity | discriminate]).
Qed.

Lemma reentryOutcome_weaken target ok w w' :
  reentryOutcome target ok w w' -> reentryOutcome target false w w'.
Proof.
  intros (onE & onR & H1 & H2 & H3 & H4 & H5). exists onE, onR.
  repeat split; try assumption; try discriminate.
  - now apply H4.
  - now apply H5.
Qed.

Lemma reentryOutcome_later target ok w w1 w2 :
  reentryOutcome target ok w w1 -> entryCalls w2 = entryCalls w1 ->
  reentryOutcome target ok w w2.
Proof.
  intros (onE & onR & H1 & H2 & H) [= E1 E2]. exists onE, onR.
  rewrite E1, E2. auto.
Qed.

Lemma declared_target {X} (f : DocState -> option X) target :
  f (noHooks "invalid" "") = None ->
  declared (f (default (noHooks "invalid" "") target))
  = declared (target ≫= f).
Proof. intros H. destruct target; cbn; [reflexivity | now rewrite H]. Qed.

(** The entry hooks of a state are called once the caller has passed every
    gate of the transition. *)
Lemma enterState_outcome
    type doc st (target : option DocState) (nds : DocState)
    (rest : M Fields) w0 w r w' :
  obj_get "state" doc = Some (JStr st) ->
  nds = default (noHooks "invalid" "") target ->
  entryCalls w = entryCalls w0 ->
  Quiet rest ->
  bind (if looseEq (obj_get "state" doc) (JStr st)
           && declared (onReentry nds)
        then runHook HOnReentry (onReentry nds) type (toInfo doc true)
        else runHook HOnEntry (onEntry nds) type (toInfo doc true))
       (fun _ => rest) w = (r, w') ->
  reentryOutcome target (isOk r) w0 w'.
Proof.
  intros Hds Hnds Hc Hq Hrun. rewrite Hds, looseEq_same in Hrun.
  cbn [andb] in Hrun.
  assert (HdR : declared (onReentry nds) = declared (target ≫= onReentry))
    by (subst nds; now apply declared_target).
  assert (HdE : declared (onEntry nds) = declared (target ≫= onEntry))
    by (subst nds; now apply declared_target).
  assert (Hhook : forall w1,
            entryCalls w1
            = (if declared (onReentry nds)
               then entryCalls (snd (runHook HOnReentry (onReentry nds) type
                                       (toInfo doc true) w))
               else entryCalls (snd (runHook HOnEntry (onEntry nds) type
                                       (toInfo doc true) w))) ->
            reentryOutcome target true w0 w1).
  { intros w1 Hw1. rewrite runHook_onReentry, runHook_onEntry in Hw1.
    rewrite Hc, HdE in Hw1. unfold entryCalls in Hw1. cbn [fst snd] in Hw1.
    rewrite HdR in Hw1.
    destruct (declared (target ≫= onReentry)) eqn:ER.
    - injection Hw1 as H1 H2. exists 0%nat, 1%nat.
      split; [lia |]. split; [lia |]. split; [lia |].
      split; [intros _; split; reflexivity | intros H; congruence].
    - injection Hw1 as H1 H2.
      exists (if declared (target ≫= onEntry) then 1%nat else 0%nat), 0%nat.
      split; [lia |]. split; [lia |].
      split; [destruct (declared (target ≫= onEntry)); lia |].
      split; [intros H; congruence | intros _; split; reflexivity]. }
  apply bind_inv in Hrun as [(e & Hh & ->) | (u & w1 & Hh & Hrest)].
  - apply (reentryOutcome_weaken _ true), Hhook.
    destruct (declared (onReentry nds)); now rewrite Hh.
  - assert (Hw1 : reentryOutcome target true w0 w1).
    { apply Hhook. destruct (declared (onReentry nds)); now rewrite Hh. }
    apply (quiet_run _ _ _ _ Hq) in Hrest.
    destruct (isOk r).
    + eapply reentryOutcome_later; eauto.
    + eapply reentryOutcome_weaken, reentryOutcome_later; eauto.
Qed.

(** X21. In an update whose requested state is the state the document is
    in, a name that is not the empty string, [onReentry] and [onEntry] of
    the target state are called at most once together, whatever the outcome.
    When the target state declares [onReentry], [onEntry] is not called, and
    [onReentry] is called exactly once if the update succeeds; when it does
    not, [onReentry] is not called, and [onEntry] is called exactly once if
    it is declared and the update succeeds. *)
Theorem updateDoc_reentry_hook_once
    cfg (ds : DocSpec) (args doc : Fields) (st : string) (dt : DocType)
    (w : World) (r : Result Fields) (w' : World) :
  documents cfg !! ds_type ds = Some dt ->
  fst (_getDoc cfg ds None (updating ds args w)) = Ok doc ->
  obj_get "state" doc = Some (JStr st) ->
  obj_get "state" args = Some (JStr st) ->
  st <> "" ->
  updateDoc cfg ds args w = (r, w') ->
  exists onE onR : nat,
    hookCalls HOnEntry (trace w') = (hookCalls HOnEntry (trace w) + onE)%nat
    /\ hookCalls HOnReentry (trace w')
       = (hookCalls HOnReentry (trace w) + onR)%nat
    /\ (onE + onR <= 1)%nat
    /\ (declared (states dt !! stateBase st ≫= onReentry) = true ->
        onE = 0%nat /\ (isOk r = true -> onR = 1%nat))
    /\ (declared (states dt !! stateBase st ≫= onReentry) = false ->
        onR = 0%nat
        /\ (isOk r = true ->
            onE = if declared (states dt !! stateBase st ≫= onEntry)
                  then 1%nat else 0%nat)).
Proof.
  intros Hdt Hdoc Hds Has Hne Hupd.
  change (reentryOutcome (states dt !! stateBase st) (isOk r) w w').
  set (target := states dt !! stateBase st).
  assert (Hearly : forall w0,
            isOk r = false -> entryCalls w0 = entryCalls w -> w0 = w' ->
            reentryOutcome target (isOk r) w w').
  { intros w0 -> Hc <-. now apply reentryOutcome_early. }
  unfold updateDoc in Hupd.
  do 3 (rewrite (bind_ok _ _ _ _ _ (modifyCtx_run _ _)) in Hupd;
        cbn [mgr ctx trace] in Hupd).
  fold (updating ds args w) in Hupd.
  destruct (_getDoc_spec cfg ds None (updating ds args w)) as [rd Hrd].
  rewrite Hrd in Hdoc. cbn in Hdoc. subst rd.
  rewrite (bind_ok _ _ _ _ _ Hrd) in Hupd.
  assert (Hc0 : entryCalls (updating ds args w) = entryCalls w)
    by reflexivity.
  apply quiet_bind_inv in Hupd as [[Hr Hc] | (S1 & w1 & _ & Hc1 & Hupd)];
    [eapply Hearly; [eassumption | | reflexivity]; congruence
    | | auto with quiet].
  apply quiet_bind_inv in Hupd as [[Hr Hc] | (adm & w2 & _ & Hc2 & Hupd)];
    [eapply Hearly; [eassumption | | reflexivity]; congruence
    | | auto with quiet].
  rewrite Has in Hupd. cbn [ifTruthy truthy] in Hupd.
  replace (negb (String.eqb st "")) with true in Hupd
    by (symmetry; apply negb_true_iff, String.eqb_neq, Hne).
  cbn [js_String] in Hupd.
  (* the transition block, then the write to the store *)
  assert (Hblock : forall (blk : M Fields) rb w3,
            blk w2 = (rb, w3) ->
            reentryOutcome target (isOk rb) w w3 ->
            forall store : Fields -> M Fields,
              (forall a, Quiet (store a)) ->
              bind blk store w2 = (r, w') ->
              reentryOutcome target (isOk r) w w').
  { intros blk rb w3 Hb Hout store Hq Hrun.
    apply bind_inv in Hrun as [(e & Hb' & ->) | (a & w4 & Hb' & Hs)];
      rewrite Hb in Hb'; injection Hb' as -> ->.
    - exact Hout.
    - apply (quiet_run _ _ _ _ (Hq a)) in Hs. cbn [isOk] in Hout.
      destruct (isOk r).
      + eapply reentryOutcome_later; eauto.
      + eapply reentryOutcome_weaken, reentryOutcome_later; eauto. }
  match type of Hupd with
  | bind ?blk ?store _ = _ =>
      destruct (blk w2) as [rb w3] eqn:Hb;
      refine (Hblock blk rb w3 Hb _ store _ Hupd)
  end.
  2: { intros a. unfold updateArgs. quiet. }
  clear Hupd Hblock Hearly.
  assert (Hearly : forall w0,
            isOk rb = false -> entryCalls w0 = entryCalls w -> w0 = w3 ->
            reentryOutcome target (isOk rb) w w3).
  { intros w0 -> Hc <-. now apply reentryOutcome_early. }
  apply quiet_bind_inv in Hb as [[Hr Hc] | (u1 & w4 & _ & Hc4 & Hb)];
    [eapply Hearly; [eassumption | | reflexivity]; congruence
    | | quiet].
  apply quiet_bind_inv in Hb as [[Hr Hc] | (u2 & w5 & _ & Hc5 & Hb)];
    [eapply Hearly; [eassumption | | reflexivity]; congruence
    | | auto with quiet].
  apply quiet_bind_inv in Hb as [[Hr Hc] | (nds & w6 & Hnds & Hc6 & Hb)];
    [eapply Hearly; [eassumption | | reflexivity]; congruence
    | | auto with quiet].
  apply (getDocState_target _ _ _ _ _ _ _ Hdt) in Hnds. fold target in Hnds.
  apply quiet_bind_inv in Hb as [[Hr Hc] | (u3 & w7 & _ & Hc7 & Hb)];
    [eapply Hearly; [eassumption | | reflexivity]; congruence
    | | quiet].
  apply quiet_bind_inv in Hb as [[Hr Hc] | (u4 & w8 & _ & Hc8 & Hb)];
    [eapply Hearly; [eassumption | | reflexivity]; congruence
    | | auto with quiet].
  apply quiet_bind_inv in Hb as [[Hr Hc] | (u5 & w9 & _ & Hc9 & Hb)];
    [eapply Hearly; [eassumption | | reflexivity]; congruence
    | | auto with quiet].
  eapply (enterState_outcome (ds_type ds) doc st target nds _ w w9 rb w3
            Hds Hnds); [congruence | | exact Hb].
  quiet.
Qed.

Lemma updateDoc_reentry_hook_once_witness :
  (exists onE onR : nat,
     hookCalls HOnEntry (trace (snd reopenTicket))
     = (hookCalls HOnEntry (trace ticketWorld) + onE)%nat
     /\ hookCalls HOnReentry (trace (snd reopenTicket))
        = (hookCalls HOnReentry (trace ticketWorld) + onR)%nat
     /\ (onE + onR <= 1)%nat
     /\ (declared (states ticketType !! stateBase "open" ≫= onReentry) = true ->
         onE = 0%nat /\ (isOk (fst reopenTicket) = true -> onR = 1%nat))
     /\ (declared (states ticketType !! stateBase "open" ≫= onReentry) = false ->
         onR = 0%nat
         /\ (isOk (fst reopenTicket) = true ->
             onE = if declared (states ticketType !! stateBase "open" ≫= onEntry)
                   then 1%nat else 0%nat)))
  /\ isOk (fst reopenTicket) = true
  /\ hookCalls HOnReentry (trace (snd reopenTicket)) = 1%nat
  /\ hookCalls HOnEntry (trace (snd reopenTicket)) = 0%nat.
Proof.
  split.
  - apply (updateDoc_reentry_hook_once ticketConfig ticketSpec
             [("state", JStr "open")]
             [("id", JStr "0"); ("state", JStr "open")] "open" ticketType
             ticketWorld (fst reopenTicket) (snd reopenTicket)).
    + reflexivity.
    + reflexivity.
    + reflexivity.
    + reflexivity.
    + discriminate.
    + apply surjective_pairing.
  - repeat split; reflexivity.
Defined.

(** C3, where the code departs from it.  The note is in the state named by
    the empty string, a state of its type that may be entered again from
    itself and declares [onReentry] and [onEntry]; [user1], who is in the
    group of the transition, asks for the note to be put into that state.
    The update succeeds and the note stays in its state, but the guard
    [if (newState)] has taken the empty name for no state at all: neither
    [onReentry] nor [onEntry] was called. *)
Theorem updateDoc_blank_reentry_calls_no_hook :
  storedState (mgr noteWorld) "app.note.doc" "0" = Some (JStr "")
  /\ states noteType !! "" = Some noteState
  /\ declared (onReentry noteState) = true
  /\ declared (onEntry noteState) = true
  /\ declared (nextStates noteState !! "") = true
  /\ isOk (fst reenterNote) = true
  /\ storedState (mgr (snd reenterNote)) "app.note.doc" "0" = Some (JStr "")
  /\ hookCalls HOnReentry (trace (snd reenterNote)) = 0%nat
  /\ hookCalls HOnEntry (trace (snd reenterNote)) = 0%nat.
Proof. repeat split; reflexivity. Qed.

(** ** The membership test *)

Lemma memberLoop_persons e l :
  forallb isObject l = true -> memberLoop e l = Ok (existsb (hasEmail e) l).
Proof.
  induction l as [| m l IH]; [reflexivity |].
  cbn [forallb existsb memberLoop]. intros [Hm Hl]%andb_true_iff.
  destruct m as [| | | | | o]; try discriminate. cbn [emailIs hasEmail].
  destruct (obj_get "email" o) as [[| | | e' | |] |]; cbn [orb]; auto.
  destruct (String.eqb e' e); cbn [orb]; auto.
Qed.

(** The membership test on members of the declared type: when the group
    resolves to an array of persons, the test is true exactly when the
    caller holds the group name as a role or has the email of one of them;
    the comparison of emails is the equality of strings. *)
Lemma isInUserGroup_persons cfg groupName type doc w :
  (includes (roles (user (ctx w))) groupName = true ->
   isInUserGroup cfg groupName type doc w
   = (Ok true, logged (MembershipTested groupName) w))
  /\ (forall l w1,
        includes (roles (user (ctx w))) groupName = false ->
        getMembers cfg groupName type doc
          (logged (MembershipTested groupName) w) = (Ok (JArr l), w1) ->
        forallb isObject l = true ->
        isInUserGroup cfg groupName type doc w
        = (Ok (existsb (hasEmail (email (user (ctx w)))) l), w1)).
Proof.
  split.
  - intros H. unfold isInUserGroup, bind, logEvent, getCtx. cbn [ctx].
    now rewrite H.
  - intros l w1 H Hm Hl. unfold isInUserGroup, bind, logEvent, getCtx.
    cbn [ctx]. rewrite H. fold (logged (MembershipTested groupName) w).
    rewrite Hm. cbn [truthy iterate]. now rewrite memberLoop_persons.
Qed.

Lemma memberLoop_true e l :
  memberLoop e l = Ok true -> existsb (hasEmail e) l = true.
Proof.
  induction l as [| m l IH]; [discriminate |]. cbn [memberLoop existsb].
  destruct m as [| | | | | o]; cbn [emailIs hasEmail orb]; auto;
    try discriminate.
  destruct (obj_get "email" o) as [[| | | e' | |] |]; cbn [orb]; auto.
  destruct (String.eqb e' e); cbn [orb]; auto.
Qed.

(** Whatever the group resolves to, the test only answers [true] to a caller
    who holds the group name as a role or has the email of one of the
    members the loop has visited. *)
Lemma isInUserGroup_true cfg groupName type doc w w' :
  isInUserGroup cfg groupName type doc w = (Ok true, w') ->
  includes (roles (user (ctx w))) groupName = true
  \/ exists ms l,
       getMembers cfg groupName type doc
         (logged (MembershipTested groupName) w) = (Ok ms, w')
       /\ iterate ms = Ok l
       /\ existsb (hasEmail (email (user (ctx w)))) l = true.
Proof.
  unfold isInUserGroup, bind, logEvent, getCtx. cbn [ctx].
  fold (logged (MembershipTested groupName) w).
  destruct (includes _ groupName); [now left |]. right.
  destruct (getMembers _ _ _ _ _) as [[ms | e] w1]; [| discriminate].
  destruct (truthy ms); [| discriminate].
  destruct (iterate ms) as [l | e] eqn:Hit; [| discriminate].
  destruct (memberLoop _ l) as [b | e] eqn:Hl; [| discriminate].
  injection H as -> <-. exists ms, l. auto using memberLoop_true.
Qed.

Lemma hasEmail_spec e m :
  hasEmail e m = true <->
  exists o, m = JObj o /\ obj_get "email" o = Some (JStr e).
Proof.
  split.
  - destruct m as [| | | | | o]; try discriminate. cbn [hasEmail].
    destruct (obj_get "email" o) as [[| | | e' | |] |] eqn:E;
      try discriminate.
    intros H. apply String.eqb_eq in H. subst e'. eauto.
  - intros (o & -> & H). cbn. rewrite H. apply String.eqb_refl.
Qed.

(** C5, where the code departs from it.  The group [owner] of a request
    resolves, through the field of that name, to the one person the field
    holds, and [user1] has the email of that person; the membership test
    does not answer [true]: it throws, because a single object cannot be
    iterated over.  With the same person in an array the test answers
    [true]. *)
Theorem isInUserGroup_single_person :
  fst (getMembers ownerConfig "owner" (Some "request")
         (Some (ownedBy user1Person)) user1World)
  = Ok user1Person
  /\ hasEmail (email (user (ctx user1World))) user1Person = true
  /\ fst (isInUserGroup ownerConfig "owner" (Some "request")
            (Some (ownedBy user1Person)) user1World)
     = Throw (TypeError "members is not iterable")
  /\ fst (isInUserGroup ownerConfig "owner" (Some "request")
            (Some (ownedBy (JArr [user1Person]))) user1World)
     = Ok true.
Proof. repeat split; reflexivity. Qed.

(** ** Queries *)

Lemma getDocCollection_spec cfg type dt w :
  documents cfg !! type = Some dt ->
  getDocCollection cfg type w = (Ok (docCollectionName cfg type dt), w).
Proof.
  intros H. unfold getDocCollection, getDocCollectionName, docCollectionName.
  rewrite H. destruct (collectionName dt) as [c |]; [| reflexivity].
  now destruct (nonempty c).
Qed.

Lemma tryCatch_bind_ok {A B} (m : M A) (k : A -> M B) h w a w1 :
  m w = (Ok a, w1) -> tryCatch (bind m k) h w = tryCatch (k a) h w1.
Proof. intros H. unfold tryCatch, bind. now rewrite H. Qed.

Lemma tryCatch_bind_throw {A B} (m : M A) (k : A -> M B) h w e w1 :
  m w = (Throw e, w1) -> tryCatch (bind m k) h w = h e w1.
Proof. intros H. unfold tryCatch, bind. now rewrite H. Qed.

Lemma tryCatch_swallow {A B X} (m : M A) (k : A -> M B) (x : X) w :
  tryCatch (bind m (fun a => bind (k a) (fun _ => ret x))) (fun _ => ret x) w
  = (Ok x, snd (bind m k w)).
Proof.
  unfold tryCatch, bind. destruct (m w) as [[a | e] w1]; [| reflexivity].
  now destruct (k a w1) as [[b | e] w2].
Qed.

(** One turn of the loop: the document joins the result exactly when its
    read check answers [true]; the turn never throws, and what it does to
    the world does not depend on the result so far. *)
Lemma getDocsStep_spec cfg type rtn d w :
  getDocsStep cfg type rtn d w
  = (Ok (rtn ++ if readGranted cfg type (toInfo d false)
                     (reading (toInfo d false) w)
                then [toInfo d false] else [])%list,
     snd (getDocsStep cfg type [] d w)).
Proof.
  unfold getDocsStep. cbv zeta.
  repeat (rewrite (bind_ok _ _ _ _ _ (modifyCtx_run _ _));
          cbn [mgr ctx trace]).
  fold (reading (toInfo d false) w). unfold readGranted.
  destruct (hasReadAccess cfg type (toInfo d false)
              (reading (toInfo d false) w)) as [[[] | e] w1] eqn:E;
    cbn [fst snd].
  - rewrite !(tryCatch_bind_ok _ _ _ _ _ _ E).
    unfold tryCatch at 1 3. now rewrite !tryCatch_swallow.
  - rewrite !(tryCatch_bind_ok _ _ _ _ _ _ E). now rewrite app_nil_r.
  - rewrite !(tryCatch_bind_throw _ _ _ _ _ _ E). now rewrite app_nil_r.
Qed.

Lemma getDocsLoop_spec cfg type found rtn w :
  exists w',
    getDocsLoop cfg type found rtn w
    = (Ok (rtn ++ readable cfg type found w)%list, w').
Proof.
  revert rtn w. induction found as [| d rest IH]; intros rtn w.
  - exists w. cbn. now rewrite app_nil_r.
  - cbn [getDocsLoop readable].
    rewrite (bind_ok _ _ _ _ _ (getDocsStep_spec cfg type rtn d w)).
    destruct (IH (rtn ++ if readGranted cfg type (toInfo d false)
                              (reading (toInfo d false) w)
                         then [toInfo d false] else [])%list
                 (snd (getDocsStep cfg type [] d w))) as [w' ->].
    exists w'. now rewrite <- app_assoc.
Qed.


(** When the outcome of the read check of a document is the same in every
    world, the query is a filter. *)
Lemma readable_stable cfg type (p : Fields -> bool) found w :
  (forall d w0,
      In d found ->
      readGranted cfg type (toInfo d false) (reading (toInfo d false) w0)
      = p d) ->
  readable cfg type found w
  = (fun d => toInfo d false) <$> List.filter p found.
Proof.
  revert w. induction found as [| d rest IH]; intros w Hp; [reflexivity |].
  cbn [readable List.filter]. rewrite (Hp d w (or_introl eq_refl)).
  rewrite IH by (intros d' w0 Hin; apply Hp; now right).
  now destruct (p d).
Qed.




(** ** Objects and the store *)

Section ObjectFacts.
Context {A : Type}.
Implicit Types (o : list (string * A)) (k : string) (v : A).

Lemma obj_get_set_eq k v o : obj_get k (obj_set k v o) = Some v.
Proof.
  induction o as [| [k' v'] o IH]; cbn.
  - now rewrite String.eqb_refl.
  - destruct (String.eqb k k') eqn:E; cbn; rewrite ?String.eqb_refl, ?E; auto.
Qed.

Lemma obj_get_set_ne k k' v o :
  k <> k' -> obj_get k (obj_set k' v o) = obj_get k o.
Proof.
  intros Hne. induction o as [| [k2 v2] o IH]; cbn.
  - now apply String.eqb_neq in Hne as ->.
  - destruct (String.eqb k' k2) eqn:E; cbn.
    + apply String.eqb_eq in E as <-.
      now apply String.eqb_neq in Hne as ->.
    + destruct (String.eqb k k2); auto.
Qed.

Lemma obj_get_del_eq k o : obj_get k (obj_del k o) = None.
Proof.
  induction o as [| [k' v'] o IH]; cbn; [reflexivity |].
  destruct (String.eqb k k') eqn:E; cbn; rewrite ?E; auto.
Qed.

Lemma obj_get_del_ne k k' o :
  k <> k' -> obj_get k (obj_del k' o) = obj_get k o.
Proof.
  intros Hne. induction o as [| [k2 v2] o IH]; cbn; [reflexivity |].
  destruct (String.eqb k' k2) eqn:E; cbn.
  - apply String.eqb_eq in E as <-.
    now apply String.eqb_neq in Hne as ->.
  - destruct (String.eqb k k2); auto.
Qed.

Lemma obj_get_cons_eq k v o : obj_get k ((k, v) :: o) = Some v.
Proof. cbn. now rewrite String.eqb_refl. Qed.

Lemma obj_get_cons_ne k k' v o :
  k <> k' -> obj_get k ((k', v) :: o) = obj_get k o.
Proof. intros Hne. cbn. now apply String.eqb_neq in Hne as ->. Qed.

Lemma obj_has_get k o : obj_has k o = declared (obj_get k o).
Proof. unfold obj_has. now destruct (obj_get k o). Qed.
End ObjectFacts.

Lemma collection_insert cname l c s :
  collection (withCollections (<[cname := l]> c) s) cname = l.
Proof. unfold collection. cbn. now rewrite lookup_insert_eq. Qed.

Lemma find_app_last {A} (p : A -> bool) l d :
  existsb p l = false -> p d = true ->
  List.find p (l ++ [d])%list = Some d.
Proof.
  intros Hl Hd. induction l as [| x l IH]; cbn in *.
  - now rewrite Hd.
  - apply orb_false_iff in Hl as [-> Hl]. auto.
Qed.

Lemma hasKey_spec k d : hasKey k d = true <-> obj_get "_id" d = Some (JStr k).
Proof.
  unfold hasKey. destruct (obj_get "_id" d) as [[| | | k' | |] |];
    try (split; discriminate).
  rewrite String.eqb_eq. split; [now intros -> | now intros [= ->]].
Qed.

Lemma find_freshKey coll k :
  freshKey coll = Some k -> existsb (hasKey k) coll = false.
Proof.
  unfold freshKey. intros H. apply find_some in H as [_ H].
  now apply negb_true_iff in H.
Qed.

(** [insertOne] stores the object last in its collection, under a key no
    other object of the collection has: the key the object carries, or a
    generated one. *)
Lemma insertOne_ok cname doc w k w' :
  insertOne cname doc w = (Ok k, w') ->
  let stored :=
    match obj_get "_id" doc with
    | Some _ => doc
    | None => ("_id", JStr k) :: doc
    end in
  collection (mgr w') cname = (collection (mgr w) cname ++ [stored])%list
  /\ existsb (hasKey k) (collection (mgr w) cname) = false
  /\ hasKey k stored = true
  /\ (forall v, obj_get "_id" doc = Some v -> v = JStr k)
  /\ ctx w' = ctx w /\ trace w' = trace w.
Proof.
  unfold insertOne, bind, getMgr. cbn [ret].
  destruct (obj_get "_id" doc) as [[| | | k0 | |] |] eqn:E;
    try discriminate.
  - destruct (existsb (hasKey k0) (collection (mgr w) cname)) eqn:Ex;
      [discriminate |].
    cbn. intros [= <- <-]. cbn [mgr ctx trace].
    rewrite collection_insert. repeat split; auto.
    + apply hasKey_spec, E.
    + now intros v [= <-].
  - destruct (freshKey (collection (mgr w) cname)) as [k0 |] eqn:F;
      [| discriminate].
    cbn. intros [= <- <-]. cbn [mgr ctx trace].
    rewrite collection_insert. repeat split; auto.
    + now apply find_freshKey.
    + unfold hasKey. cbn. now rewrite String.eqb_refl.
    + discriminate.
Qed.

Lemma _getDoc_ok cfg ds dt w r w' :
  documents cfg !! ds_type ds = Some dt ->
  _getDoc cfg ds None w = (Ok r, w') ->
  w' = w
  /\ exists d,
       List.find (hasKey (ds_id ds))
         (collection (mgr w) (docCollectionName cfg (ds_type ds) dt))
       = Some d
       /\ r = toInfo d false.
Proof.
  intros Hdt. unfold _getDoc.
  rewrite (bind_ok _ _ _ _ _ (getDocCollection_spec _ _ _ _ Hdt)).
  unfold findOne, bind, getMgr. cbn [ret default].
  destruct (List.find _ _) as [d |]; cbn; [| discriminate].
  intros [= <- <-]. split; [reflexivity |]. exists d.
  split; [reflexivity |]. now rewrite option_fmap_id' || reflexivity.
Qed.

(** ** Creation *)

Lemma getDocType_ok cfg type dt w :
  documents cfg !! type = Some dt -> getDocType cfg type w = (Ok dt, w).
Proof. intros H. now rewrite getDocType_spec, H. Qed.

(** What a creation that succeeds has done: the object, with the two cache
    fields, is stored under a key [k] no other object has, and the record
    returned is that stored object in its read-path form. *)
Lemma _createDoc_ok cfg type dt doc w r w' :
  documents cfg !! type = Some dt ->
  _createDoc cfg type doc w = (Ok r, w') ->
  exists k cr cw,
    let d0 := obj_set "curStateWrite" cw (obj_set "curStateRead" cr doc) in
    let d := match obj_get "_id" doc with
             | Some _ => d0
             | None => ("_id", JStr k) :: d0
             end in
    List.find (hasKey k) (collection (mgr w') (docCollectionName cfg type dt))
    = Some d
    /\ r = toInfo d false
    /\ (forall v, obj_get "_id" doc = Some v -> v = JStr k).
Proof.
  intros Hdt H. unfold _createDoc in H.
  apply bind_ok_inv in H as (_ & w1 & _ & H).
  apply bind_ok_inv in H as (_ & w2 & _ & H).
  apply bind_ok_inv in H as (docState & w3 & _ & H).
  apply bind_ok_inv in H as (_ & w4 & _ & H).
  apply bind_ok_inv in H as (r1 & w5 & _ & H).
  apply bind_ok_inv in H as (r2 & w6 & _ & H).
  rewrite (bind_ok _ _ _ _ _ (getDocCollection_spec _ _ _ _ Hdt)) in H.
  apply bind_ok_inv in H as (k & w7 & Hins & H).
  apply insertOne_ok in Hins as (Hcoll & Hfresh & Hkey & Hid & _).
  apply (_getDoc_ok _ _ dt) in H as [-> (d & Hfind & ->)]; [| exact Hdt].
  cbn [ds_id ds_type] in Hfind.
  exists k, (groupsJson (default [] r1)), (groupsJson (default [] r2)).
  cbv zeta. rewrite !obj_get_set_ne in Hcoll, Hkey, Hid by discriminate.
  rewrite Hcoll, (find_app_last _ _ _ Hfresh Hkey) in Hfind.
  injection Hfind as <-. rewrite Hcoll.
  split; [now apply find_app_last |]. split; [reflexivity | exact Hid].
Qed.

Lemma toInfo_no_key d copy : obj_has "_id" (toInfo d copy) = false.
Proof.
  unfold toInfo. rewrite obj_has_get.
  destruct (obj_has "id" d); [now rewrite obj_get_del_eq |].
  destruct (obj_get "_id" d); now rewrite obj_get_del_eq.
Qed.

(** C7, as the code has it.  A type that requires caller-supplied ids makes
    [createDoc] throw the client error 401, and a type that does not makes
    [createDocById] throw it; in both cases nothing has been done.  A
    creation that succeeds returns the stored object in its read-path
    form, without [_id]: after [createDoc] the [id] of the record is the
    key the store has generated; after [createDocById] it is the [id] of the
    payload when the payload has one, and the caller-supplied key
    otherwise. *)
Theorem createDoc_id_policy
    cfg (type : string) (dt : DocType) (i : string) (doc : Fields)
    (w : World) :
  documents cfg !! type = Some dt ->
  (document_id_required dt = Some true ->
   clientError (fst (createDoc cfg type doc w)) = true
   /\ scodeOf (fst (createDoc cfg type doc w)) = Some 401
   /\ snd (createDoc cfg type doc w) = w)
  /\ (document_id_required dt <> Some true ->
      clientError (fst (createDocById cfg type i doc w)) = true
      /\ scodeOf (fst (createDocById cfg type i doc w)) = Some 401
      /\ snd (createDocById cfg type i doc w) = w)
  /\ (forall r w',
        createDoc cfg type doc w = (Ok r, w') ->
        exists k d,
          List.find (hasKey k)
            (collection (mgr w') (docCollectionName cfg type dt)) = Some d
          /\ r = toInfo d false
          /\ obj_has "_id" r = false
          /\ obj_get "id" r = Some (JStr k))
  /\ (forall r w',
        createDocById cfg type i doc w = (Ok r, w') ->
        exists d,
          List.find (hasKey i)
            (collection (mgr w') (docCollectionName cfg type dt)) = Some d
          /\ r = toInfo d false
          /\ obj_has "_id" r = false
          /\ obj_get "id" r = Some (default (JStr i) (obj_get "id" doc))).
Proof.
  intros Hdt. split; [| split; [| split]].
  - intros Hreq. unfold createDoc.
    rewrite (bind_ok _ _ _ _ _ (getDocType_ok _ _ _ _ Hdt)), Hreq.
    repeat split; reflexivity.
  - intros Hreq. unfold createDocById.
    rewrite (bind_ok _ _ _ _ _ (getDocType_ok _ _ _ _ Hdt)).
    destruct (document_id_required dt) as [[] |]; try congruence;
      repeat split; reflexivity.
  - intros r w' H. unfold createDoc in H.
    rewrite (bind_ok _ _ _ _ _ (getDocType_ok _ _ _ _ Hdt)) in H.
    destruct (default false (document_id_required dt)); [discriminate |].
    apply (_createDoc_ok _ _ dt) in H as (k & cr & cw & H); [| exact Hdt].
    cbv zeta in H. rewrite obj_get_del_ne, obj_get_del_eq in H
      by discriminate.
    destruct H as (Hfind & -> & _). eexists k, _. split; [exact Hfind |].
    split; [reflexivity |]. split; [apply toInfo_no_key |].
    unfold toInfo. rewrite obj_has_get, obj_get_cons_ne by discriminate.
    rewrite !obj_get_set_ne, obj_get_del_eq by discriminate.
    cbn [declared js_String].
    rewrite obj_get_del_ne by discriminate. apply obj_get_cons_eq.
  - intros r w' H. unfold createDocById in H.
    rewrite (bind_ok _ _ _ _ _ (getDocType_ok _ _ _ _ Hdt)) in H.
    destruct (negb (default false (document_id_required dt)));
      [discriminate |].
    apply (_createDoc_ok _ _ dt) in H as (k & cr & cw & H); [| exact Hdt].
    cbv zeta in H. rewrite obj_get_set_eq in H.
    destruct H as (Hfind & -> & Hk). specialize (Hk _ eq_refl).
    injection Hk as <-. eexists. split; [exact Hfind |].
    split; [reflexivity |]. split; [apply toInfo_no_key |].
    unfold toInfo. rewrite !obj_has_get.
    rewrite !obj_get_set_ne, obj_get_set_eq by discriminate.
    destruct (obj_get "id" doc) as [v |] eqn:E; cbn [declared default].
    + rewrite obj_get_del_ne, !obj_get_set_ne by discriminate. exact E.
    + cbn [js_String]. rewrite obj_get_del_ne by discriminate.
      apply obj_get_cons_eq.
Qed.

Lemma createDoc_id_policy_witness :
  (clientError (fst (createDoc testConfig "profile" profilePayload
                       user1World)) = true
   /\ scodeOf (fst (createDoc testConfig "profile" profilePayload
                      user1World)) = Some 401
   /\ snd (createDoc testConfig "profile" profilePayload user1World)
      = user1World)
  /\ (clientError (fst (createDocById testConfig "testDocType" "k1"
                          purchasePayload user1World)) = true
      /\ scodeOf (fst (createDocById testConfig "testDocType" "k1"
                         purchasePayload user1World)) = Some 401
      /\ snd (createDocById testConfig "testDocType" "k1" purchasePayload
                user1World) = user1World)
  /\ (exists k d,
        List.find (hasKey k)
          (collection (mgr (snd createPurchase))
             (docCollectionName testConfig "testDocType" purchaseType))
        = Some d
        /\ purchaseRecord = toInfo d false
        /\ obj_has "_id" purchaseRecord = false
        /\ obj_get "id" purchaseRecord = Some (JStr k))
  /\ (exists d,
        List.find (hasKey "k1")
          (collection (mgr (snd createProfile))
             (docCollectionName testConfig "profile" profileType))
        = Some d
        /\ profileRecord = toInfo d false
        /\ obj_has "_id" profileRecord = false
        /\ obj_get "id" profileRecord
           = Some (default (JStr "k1") (obj_get "id" profilePayload))).
Proof.
  destruct (createDoc_id_policy testConfig "profile" profileType "k1"
              profilePayload user1World eq_refl) as (H1 & _ & _ & H4).
  destruct (createDoc_id_policy testConfig "testDocType" purchaseType "k1"
              purchasePayload user1World eq_refl) as (_ & H2 & H3 & _).
  split; [apply H1; reflexivity |].
  split; [apply H2; discriminate |].
  split; [apply (H3 purchaseRecord (snd createPurchase)); reflexivity |].
  apply (H4 profileRecord (snd createProfile)); reflexivity.
Defined.

(** C7 fails as stated: the profile [user1] creates under the key [k1] from
    a payload with the [id] [user1] is returned with that [id], which is not
    the key it is stored under; no document is stored under [user1]. *)
Lemma createDoc_id_policy_counterexample :
  fst createProfile = Ok profileRecord
  /\ List.map (obj_get "_id")
       (collection (mgr (snd createProfile)) "test.profile.doc")
     = [Some (JStr "k1")]
  /\ obj_get "id" profileRecord = Some (JStr "user1")
  /\ obj_get "id" profileRecord <> Some (JStr "k1").
Proof. repeat split; try reflexivity. discriminate. Qed.

(** ** State names and the [$] sign *)

Lemma split_nonempty c s : split c s <> [].
Proof.
  destruct s as [| a r]; cbn; [discriminate |].
  destruct (Ascii.eqb a c); [discriminate |].
  now destruct (split c r).
Qed.

Lemma stateBase_cons a r :
  stateBase (String a r)
  = if Ascii.eqb a dollar then EmptyString else String a (stateBase r).
Proof.
  unfold stateBase. cbn [split]. destruct (Ascii.eqb a dollar); [reflexivity |].
  pose proof (split_nonempty dollar r). now destruct (split dollar r).
Qed.

Lemma stateBase_no_dollar s : contains dollar (stateBase s) = false.
Proof.
  induction s as [| a r IH]; [reflexivity |].
  rewrite stateBase_cons. destruct (Ascii.eqb a dollar) eqn:E; [reflexivity |].
  cbn [contains]. now rewrite E.
Qed.

Lemma stateBase_idem s : stateBase (stateBase s) = stateBase s.
Proof.
  induction s as [| a r IH]; [reflexivity |].
  rewrite stateBase_cons. destruct (Ascii.eqb a dollar) eqn:E; [reflexivity |].
  now rewrite stateBase_cons, E, IH.
Qed.

Lemma getDocState_base cfg type st w :
  getDocState cfg type (Some (JStr st)) w
  = getDocState cfg type (Some (JStr (stateBase st))) w.
Proof. unfold getDocState. now rewrite stateBase_idem. Qed.

(** ** What [toMongoUpdate] makes of a plain payload *)

Lemma keys_obj_set {A} (o : list (string * A)) k v :
  keys (obj_set k v o)
  = if includes (keys o) k then keys o else (keys o ++ [k])%list.
Proof.
  induction o as [| [k' v'] o IH]; [reflexivity |]. cbn.
  destruct (String.eqb k k') eqn:E; cbn.
  - apply String.eqb_eq in E as ->. reflexivity.
  - fold (keys o). fold (keys (obj_set k v o)). rewrite IH.
    unfold includes. now destruct (existsb (String.eqb k) (keys o)).
Qed.

Lemma includes_app l1 l2 k :
  includes (l1 ++ l2) k = includes l1 k || includes l2 k.
Proof. apply existsb_app. Qed.

Lemma distinct_app_one l k :
  distinct l = true -> includes l k = false ->
  distinct (l ++ [k]) = true.
Proof.
  induction l as [| x l IH]; [reflexivity |]. cbn [distinct includes existsb app].
  intros [Hx Hl]%andb_true_iff [Hk Hlk]%orb_false_iff.
  apply andb_true_iff. split; [| now apply IH].
  apply negb_true_iff. fold (includes (l ++ [k]) x). rewrite includes_app.
  apply negb_true_iff in Hx. unfold includes in Hx |- *. rewrite Hx. cbn.
  rewrite String.eqb_sym, Hk. reflexivity.
Qed.

Lemma distinct_obj_set {A} (o : list (string * A)) k v :
  distinct (keys o) = true -> distinct (keys (obj_set k v o)) = true.
Proof.
  intros H. rewrite keys_obj_set.
  destruct (includes (keys o) k) eqn:E; [exact H |].
  now apply distinct_app_one.
Qed.

Lemma fold_toMongoUpdateStep_throw l e :
  fold_left toMongoUpdateStep l (Throw e) = Throw e.
Proof. induction l as [| kv l IH]; [reflexivity | exact IH]. Qed.

(** The keys of a plain payload all go to [$set], the state cut at the
    first [$]. *)
Lemma toMongoUpdate_fold_plain args :
  forallb (fun k => negb (startsWithDollar k)) (keys args) = true ->
  forall setObj res r,
    fold_left toMongoUpdateStep args (Ok (setObj, res, true)) = Ok r ->
    exists S,
      r = (S, res, true)
      /\ (distinct (keys setObj) = true -> distinct (keys S) = true)
      /\ (forall k, includes (keys args) k = false ->
                    obj_get k S = obj_get k setObj)
      /\ (forall st,
            distinct (keys args) = true ->
            obj_get "state" args = Some (JStr st) ->
            obj_get "state" S = Some (JStr (stateBase st))).
Proof.
  induction args as [| [k v] rest IH]; intros Hplain setObj res r Hfold.
  - cbn in Hfold. injection Hfold as <-. exists setObj.
    repeat split; auto. discriminate.
  - cbn [keys List.map forallb fst] in Hplain.
    apply andb_true_iff in Hplain as [Hk Hrest].
    apply negb_true_iff in Hk. cbn [fold_left toMongoUpdateStep] in Hfold.
    rewrite Hk in Hfold.
    assert (Hstep : exists v',
               (if String.eqb k "state"
                then match v with
                     | JStr s => Ok (obj_set k (JStr (stateBase s)) setObj,
                                     res, true)
                     | _ => Throw (TypeError "val.split is not a function")
                     end
                else Ok (obj_set k v setObj, res, true))
               = Ok (obj_set k v' setObj, res, true)
               /\ (k = "state" -> exists s, v = JStr s /\ v' = JStr (stateBase s))).
    { destruct (String.eqb k "state") eqn:E.
      - destruct v as [| | | s | |];
          try (rewrite fold_toMongoUpdateStep_throw in Hfold; discriminate).
        exists (JStr (stateBase s)). split; [reflexivity | eauto].
      - exists v. split; [reflexivity |]. intros ->. discriminate. }
    destruct Hstep as (v' & Hstep & Hstate). rewrite Hstep in Hfold.
    destruct (IH Hrest _ _ _ Hfold) as (S & -> & Hd & Hother & Hst).
    exists S. split; [reflexivity |]. split; [| split].
    + intros H. now apply Hd, distinct_obj_set.
    + intros k0 Hk0. cbn [keys List.map includes existsb fst] in Hk0.
      apply orb_false_iff in Hk0 as [Hne Hk0].
      rewrite (Hother _ Hk0). apply obj_get_set_ne.
      now apply String.eqb_neq.
    + intros st Hdist Hget. cbn [keys List.map distinct fst] in Hdist.
      apply andb_true_iff in Hdist as [Hfresh Hdist].
      apply negb_true_iff in Hfresh. cbn [obj_get] in Hget.
      destruct (String.eqb "state" k) eqn:E.
      * apply String.eqb_eq in E as <-. injection Hget as ->.
        destruct (Hstate eq_refl) as (s & [= <-] & ->).
        rewrite (Hother _ Hfresh). apply obj_get_set_eq.
      * now apply Hst.
Qed.

Lemma toMongoUpdate_plain args upd :
  plainPayload args = true ->
  toMongoUpdate args = Ok upd ->
  exists S,
    upd = [("$set", S)]
    /\ distinct (keys S) = true
    /\ (forall st, obj_get "state" args = Some (JStr st) ->
                   obj_get "state" S = Some (JStr (stateBase st))).
Proof.
  unfold plainPayload, toMongoUpdate. intros [Hd Hp]%andb_true_iff.
  destruct (fold_left _ _ _) as [[[S res] linked] | e] eqn:E; [| discriminate].
  destruct (toMongoUpdate_fold_plain args Hp _ _ _ E)
    as (S' & [= -> -> ->] & HdS & _ & Hst).
  intros [= <-]. exists S'. repeat split; auto.
Qed.

(** ** What [updateOne] does with [$set] *)

Lemma fold_assignField_throw S e : fold_left assignField S (Throw e) = Throw e.
Proof. induction S as [| kv S IH]; [reflexivity | exact IH]. Qed.

Lemma assignFields_spec S d d' :
  fold_left assignField S (Ok d) = Ok d' ->
  obj_get "_id" d' = obj_get "_id" d
  /\ (forall k, includes (keys S) k = false -> obj_get k d' = obj_get k d)
  /\ (forall k v,
        k <> "_id" -> distinct (keys S) = true -> obj_get k S = Some v ->
        obj_get k d' = Some v).
Proof.
  revert d. induction S as [| [k0 v0] rest IH]; intros d Hfold.
  - cbn in Hfold. injection Hfold as <-. repeat split; auto. discriminate.
  - cbn [fold_left assignField fst snd] in Hfold.
    assert (Hstep : exists d1,
               (if String.eqb k0 "_id"
                then match obj_get "_id" d, v0 with
                     | Some (JStr a), JStr b =>
                         if String.eqb a b then Ok d
                         else Throw (StorageError "_id is immutable")
                     | _, _ => Throw (StorageError "_id is immutable")
                     end
                else Ok (obj_set k0 v0 d)) = Ok d1
               /\ obj_get "_id" d1 = obj_get "_id" d
               /\ (forall k, k <> k0 -> obj_get k d1 = obj_get k d)
               /\ (k0 <> "_id" -> obj_get k0 d1 = Some v0)).
    { destruct (String.eqb k0 "_id") eqn:E.
      - match type of Hfold with fold_left _ _ ?x = _ =>
          destruct x as [d1 |] eqn:Ex;
            [| rewrite fold_assignField_throw in Hfold; discriminate] end.
        exists d1. split; [reflexivity |].
        assert (d1 = d) as ->.
        { destruct (obj_get "_id" d) as [[| | | a | |] |]; try discriminate.
          destruct v0 as [| | | b | |]; try discriminate.
          destruct (String.eqb a b); [congruence | discriminate]. }
        apply String.eqb_eq in E. repeat split; auto. congruence.
      - apply String.eqb_neq in E. exists (obj_set k0 v0 d).
        split; [reflexivity |]. split; [now apply obj_get_set_ne |].
        split; [intros k Hk; now apply obj_get_set_ne |].
        intros _. apply obj_get_set_eq. }
    destruct Hstep as (d1 & Hstep & Hid & Hother & Hset).
    rewrite Hstep in Hfold. destruct (IH _ Hfold) as (Hid' & Hkeep & Hget).
    split; [congruence |]. split.
    + intros k Hk. cbn [keys List.map includes existsb fst] in Hk.
      apply orb_false_iff in Hk as [Hne Hk]. rewrite (Hkeep _ Hk).
      apply Hother. now apply String.eqb_neq.
    + intros k v Hk Hdist Hkv. cbn [keys List.map distinct fst] in Hdist.
      apply andb_true_iff in Hdist as [Hfresh Hdist].
      apply negb_true_iff in Hfresh. cbn [obj_get] in Hkv.
      destruct (String.eqb k k0) eqn:E.
      * apply String.eqb_eq in E as ->. injection Hkv as ->.
        rewrite (Hkeep _ Hfresh). now apply Hset.
      * now apply Hget.
Qed.

Lemma hasKey_assignFields S d d' k :
  fold_left assignField S (Ok d) = Ok d' -> hasKey k d' = hasKey k d.
Proof.
  intros H. apply assignFields_spec in H as (Hid & _). unfold hasKey.
  now rewrite Hid.
Qed.

Lemma updateFirst_set k S coll coll' d' :
  updateFirst k [("$set", S)] coll = Ok coll' ->
  List.find (hasKey k) coll' = Some d' ->
  exists d,
    List.find (hasKey k) coll = Some d
    /\ fold_left assignField S (Ok d) = Ok d'.
Proof.
  revert coll'. induction coll as [| d0 rest IH]; intros coll' Hupd Hfind.
  - cbn in Hupd. injection Hupd as <-. discriminate.
  - cbn [updateFirst] in Hupd. cbn [List.find].
    destruct (hasKey k d0) eqn:Hk.
    + cbn [fold_left applyOperator fst snd] in Hupd.
      change (String.eqb "$set" "$set") with true in Hupd. cbn match in Hupd.
      destruct (fold_left assignField S (Ok d0)) as [d0' |] eqn:Hset;
        [| discriminate].
      injection Hupd as <-. cbn [List.find] in Hfind.
      rewrite (hasKey_assignFields _ _ _ _ Hset), Hk in Hfind.
      injection Hfind as <-. eauto.
    + destruct (updateFirst k [("$set", S)] rest) as [rest' |] eqn:Hrest;
        [| discriminate].
      injection Hupd as <-. cbn [List.find] in Hfind. rewrite Hk in Hfind.
      eauto.
Qed.

Lemma updateFirst_nomatch k upd coll :
  existsb (hasKey k) coll = false -> updateFirst k upd coll = Ok coll.
Proof.
  induction coll as [| d rest IH]; [reflexivity |]. cbn.
  intros [-> H]%orb_false_iff. now rewrite IH.
Qed.

Lemma updateOne_ok cname k upd w w' :
  updateOne cname k upd w = (Ok tt, w') ->
  exists coll',
    updateFirst k upd (collection (mgr w) cname) = Ok coll'
    /\ collection (mgr w') cname = coll'.
Proof.
  unfold updateOne, bind, getMgr. cbn [ret].
  destruct (updateFirst k upd (collection (mgr w) cname)) as [coll' |] eqn:E;
    [| discriminate].
  destruct (existsb (hasKey k) (collection (mgr w) cname)) eqn:Ex.
  - cbn. intros [= <-]. exists coll'. split; [reflexivity |].
    cbn [mgr]. apply collection_insert.
  - cbn. intros [= <-]. exists coll'. split; [reflexivity |].
    rewrite updateFirst_nomatch in E by exact Ex. congruence.
Qed.

Lemma cacheGroups_ok key gate type doc args w a w' :
  cacheGroups key gate type doc args w = (Ok a, w') ->
  exists gs, a = obj_set key (groupsJson gs) args.
Proof.
  unfold cacheGroups. intros H.
  apply bind_ok_inv in H as (gs & w1 & _ & H).
  apply bind_ok_inv in H as (_ & w2 & _ & H).
  injection H as <- _. eauto.
Qed.

Lemma plainPayload_obj_set args k v :
  startsWithDollar k = false ->
  plainPayload args = true -> plainPayload (obj_set k v args) = true.
Proof.
  unfold plainPayload. intros Hk [Hd Hp]%andb_true_iff.
  apply andb_true_iff. split; [now apply distinct_obj_set |].
  rewrite keys_obj_set. destruct (includes (keys args) k); [exact Hp |].
  rewrite forallb_app, Hp. cbn. now rewrite Hk.
Qed.

(** The payload [updateDoc] hands to [toMongoUpdate] is the payload of the
    caller, with or without the two cache fields. *)
Lemma updateDoc_payload args a :
  (a = args
   \/ exists cr cw,
        a = obj_set "curStateWrite" cw (obj_set "curStateRead" cr args)) ->
  forall st,
    plainPayload args = true ->
    obj_get "state" args = Some (JStr st) ->
    plainPayload a = true /\ obj_get "state" a = Some (JStr st).
Proof.
  intros [-> | (cr & cw & ->)] st Hp Hst; [auto |].
  split.
  - do 2 (apply plainPayload_obj_set; [reflexivity |]). exact Hp.
  - now rewrite !obj_get_set_ne by discriminate.
Qed.

(** An update that succeeds with a plain payload carrying the state [st]
    leaves the document with the state [st] cut at the first [$], in the
    store and in the record returned. *)
Lemma updateDoc_persists_state cfg ds dt args st w r w' :
  documents cfg !! ds_type ds = Some dt ->
  plainPayload args = true ->
  obj_get "state" args = Some (JStr st) ->
  updateDoc cfg ds args w = (Ok r, w') ->
  obj_get "state" r = Some (JStr (stateBase st))
  /\ storedState (mgr w') (docCollectionName cfg (ds_type ds) dt) (ds_id ds)
     = Some (JStr (stateBase st)).
Proof.
  intros Hdt Hplain Hst H. unfold updateDoc in H.
  do 3 apply bind_ok_inv in H as (_ & ? & _ & H).
  apply bind_ok_inv in H as (doc & w1 & _ & H).
  apply bind_ok_inv in H as (S1 & w2 & _ & H).
  apply bind_ok_inv in H as (adm & w3 & _ & H).
  apply bind_ok_inv in H as (a & w4 & Hblock & H).
  assert (Ha : a = args
               \/ exists cr cw,
                    a = obj_set "curStateWrite" cw
                          (obj_set "curStateRead" cr args)).
  { cbv zeta in Hblock.
    destruct (ifTruthy (obj_get "state" args)) as [newState |].
    - do 7 apply bind_ok_inv in Hblock as (? & ? & _ & Hblock).
      apply bind_ok_inv in Hblock as (a1 & w5 & Hc1 & Hc2).
      apply cacheGroups_ok in Hc1 as (cr & ->).
      apply cacheGroups_ok in Hc2 as (cw & ->). right. eauto.
    - destruct (hasNonStateKey args).
      + do 2 apply bind_ok_inv in Hblock as (? & ? & _ & Hblock).
        apply bind_ok_inv in Hblock as (a1 & w5 & Hc1 & Hc2).
        apply cacheGroups_ok in Hc1 as (cr & ->).
        apply cacheGroups_ok in Hc2 as (cw & ->). right. eauto.
      + injection Hblock as <- _. now left. }
  destruct (updateDoc_payload args a Ha st Hplain Hst) as [Hpa Hsa].
  rewrite (bind_ok _ _ _ _ _ (getDocCollection_spec _ _ _ _ Hdt)) in H.
  apply bind_ok_inv in H as (newArgs & w4' & Hua & H).
  injection Hua as <- <-.
  destruct (toMongoUpdate a) as [upd |] eqn:Hupd; [| discriminate].
  destruct (toMongoUpdate_plain _ _ Hpa Hupd) as (S & -> & HdS & HS).
  specialize (HS _ Hsa).
  apply bind_ok_inv in H as ([] & w5 & Hone & H).
  apply updateOne_ok in Hone as (coll' & Hfirst & Hcoll).
  apply (_getDoc_ok _ _ dt) in H as [-> (d' & Hfind & ->)]; [| exact Hdt].
  rewrite Hcoll in Hfind.
  destruct (updateFirst_set _ _ _ _ _ Hfirst Hfind) as (d & _ & Hset).
  apply assignFields_spec in Hset as (_ & _ & Hget).
  assert (Hd' : obj_get "state" d' = Some (JStr (stateBase st))).
  { apply Hget; [discriminate | exact HdS | exact HS]. }
  split.
  - unfold toInfo. rewrite obj_get_del_ne by discriminate.
    destruct (obj_has "id" d'); [exact Hd' |].
    destruct (obj_get "_id" d'); [| exact Hd'].
    now rewrite obj_get_cons_ne by discriminate.
  - unfold storedState. rewrite Hcoll, Hfind. exact Hd'.
Qed.

(** C10, as the code has it.  [getDocState] looks a state up under its name
    cut at the first [$]; an update that succeeds with a plain payload
    carrying a state stores that state cut at the first [$], so that the
    stored state has no [$].  The transition itself is looked up under the
    full requested name: a name that is not a key of [nextStates] (and is
    not empty, nor a name every object inherits) is refused to a caller who
    is not an administrator, whatever its part before the [$]. *)
Theorem state_cut_at_dollar cfg :
  (forall type st w,
      getDocState cfg type (Some (JStr st)) w
      = getDocState cfg type (Some (JStr (stateBase st))) w)
  /\ (forall ds dt args st w r w',
        documents cfg !! ds_type ds = Some dt ->
        plainPayload args = true ->
        obj_get "state" args = Some (JStr st) ->
        updateDoc cfg ds args w = (Ok r, w') ->
        obj_get "state" r = Some (JStr (stateBase st))
        /\ storedState (mgr w') (docCollectionName cfg (ds_type ds) dt)
             (ds_id ds)
           = Some (JStr (stateBase st))
        /\ contains dollar (stateBase st) = false)
  /\ (forall ds args doc w w1 w2 S1 st,
        _getDoc cfg ds None (updating ds args w)
        = (Ok doc, updating ds args w) ->
        getDocState cfg (ds_type ds) (obj_get "state" doc)
          (updating ds args w) = (Ok S1, w1) ->
        isAdmin cfg w1 = (Ok false, w2) ->
        obj_get "state" args = Some (JStr st) ->
        st <> "" ->
        inheritedName st = false ->
        nextStates S1 !! st = None ->
        updateDoc cfg ds args w
        = (Throw (DocMgrError 500 "Invalid next state"), w2)).
Proof.
  split; [| split].
  - intros. apply getDocState_base.
  - intros ds dt args st w r w' Hdt Hp Hst H.
    destruct (updateDoc_persists_state _ _ _ _ _ _ _ _ Hdt Hp Hst H).
    auto using stateBase_no_dollar.
  - intros ds args doc w w1 w2 S1 st Hdoc HS1 Hadm Hst Hne Hown Hnext.
    now apply (updateDoc_invalid_transition cfg ds args doc w w1 w2 S1 st).
Qed.

Lemma state_cut_at_dollar_witness :
  getDocState testConfig "testDocType" (Some (JStr "approved$x")) user1World
  = getDocState testConfig "testDocType"
      (Some (JStr (stateBase "approved$x"))) user1World
  /\ (obj_get "state" (toInfo
                         [("_id", JStr "0");
                          ("purchase", JStr "video monitor");
                          ("state", JStr "approved");
                          ("curStateRead",
                           groupsJson ["Employee"; "procurement"; "management"]);
                          ("curStateWrite", groupsJson ["management"])] false)
      = Some (JStr (stateBase "approved$x"))
      /\ storedState (mgr (snd adminApprove))
           (docCollectionName testConfig (ds_type ds1) purchaseType)
           (ds_id ds1)
         = Some (JStr (stateBase "approved$x"))
      /\ contains dollar (stateBase "approved$x") = false)
  /\ fst (approve "approved$x")
     = Throw (DocMgrError 500 "Invalid next state").
Proof.
  destruct (state_cut_at_dollar testConfig) as (H1 & H2 & H3).
  split; [apply H1 |]. split.
  - apply (H2 ds1 purchaseType [("state", JStr "approved$x")] "approved$x"
             admin1World _ (snd adminApprove)); reflexivity.
  - unfold approve. erewrite H3; [reflexivity | reflexivity | reflexivity
                                 | reflexivity | reflexivity | discriminate
                                 | reflexivity | reflexivity].
Defined.

(** C10 fails as stated.  [approved$x] and [approved] have the same part
    before the [$], yet [manager1], who may move [doc1] to [approved], is
    refused the move to [approved$x], which is no key of [nextStates].  And
    the state of a document created as [requested$urgent] still has its
    [$] after an update that carries no state. *)
Lemma state_cut_at_dollar_counterexample :
  stateBase "approved$x" = stateBase "approved"
  /\ isOk (fst (approve "approved")) = true
  /\ fst (approve "approved$x")
     = Throw (DocMgrError 500 "Invalid next state")
  /\ isOk (fst editSuffixed) = true
  /\ storedState (mgr (snd editSuffixed)) "test.testDocType.doc" "1"
     = Some (JStr "requested$urgent")
  /\ contains dollar "requested$urgent" = true.
Proof. repeat split; reflexivity. Qed.

(** * Further properties of the engine *)

(** ** The helpers: [getField], [toInfo], [toMongoUpdate] *)

Lemma split_sep c p q :
  split c (p ++ String c q) = (split c p ++ split c q)%list.
Proof.
  induction p as [| a r IH].
  - change (split c (String c q) = "" :: split c q). cbn [split].
    now rewrite Ascii.eqb_refl.
  - change (split c (String a (r ++ String c q))
            = (split c (String a r) ++ split c q)%list).
    cbn [split]. rewrite IH.
    destruct (Ascii.eqb a c); [reflexivity |].
    destruct (split c r) as [| h t] eqn:E; [| reflexivity].
    now apply split_nonempty in E.
Qed.

Lemma getFieldFrom_app l1 l2 obj :
  getFieldFrom (l1 ++ l2) obj
  = match getFieldFrom l1 obj with
    | Ok v => getFieldFrom l2 v
    | Throw e => Throw e
    end.
Proof.
  revert obj. induction l1 as [| part rest IH]; intros obj; [reflexivity |].
  cbn [app getFieldFrom]. destruct (js_in part obj) as [[] | e]; try reflexivity.
  destruct (js_prop part obj); [apply IH | reflexivity].
Qed.

(** X1. Paths compose: reading the path [p.q] off a value is reading [p] off
    it and then [q] off what was found; an error met on the way along [p] is
    the error of the whole. *)
Theorem getField_path (p q : string) (obj : json) :
  getField (p ++ "." ++ q) obj
  = match getField p obj with
    | Ok v => getField q v
    | Throw e => Throw e
    end.
Proof.
  unfold getField. change ("." ++ q) with (String dot q).
  rewrite split_sep. apply getFieldFrom_app.
Qed.

Lemma fold_toMongoUpdateStep_app l1 l2 st :
  fold_left toMongoUpdateStep (l1 ++ l2) st
  = fold_left toMongoUpdateStep l2 (fold_left toMongoUpdateStep l1 st).
Proof. apply fold_left_app. Qed.

(** Once [result.$set] is no longer the object the plain keys are written
    to, plain keys leave [result] as it is. *)
Lemma fold_toMongoUpdateStep_unlinked post setObj res :
  noOperator post = true -> stringStates post = true ->
  exists S,
    fold_left toMongoUpdateStep post (Ok (setObj, res, false))
    = Ok (S, res, false).
Proof.
  revert setObj. induction post as [| [k v] rest IH]; intros setObj Hn Hs.
  - exists setObj. reflexivity.
  - unfold noOperator in Hn. cbn [keys List.map forallb fst] in Hn.
    apply andb_true_iff in Hn as [Hk Hn]. apply negb_true_iff in Hk.
    cbn [stringStates forallb fst snd] in Hs.
    apply andb_true_iff in Hs as [Hv Hs]. rewrite Hk in Hv. cbn [orb] in Hv.
    cbn [fold_left toMongoUpdateStep]. rewrite Hk.
    destruct (String.eqb k "state").
    + destruct v; try discriminate. now apply IH.
    + now apply IH.
Qed.

(** X2. The properties of an update that come after its [$set] are lost:
    [toMongoUpdate] answers as if the update ended with [$set].  The plain
    properties that come before [$set] are kept, merged with what [$set]
    holds. *)
Theorem toMongoUpdate_drops_after_set (pre post : Fields) (v : json) :
  noOperator post = true ->
  stringStates post = true ->
  toMongoUpdate (pre ++ ("$set", v) :: post)
  = toMongoUpdate (pre ++ [("$set", v)])
  /\ forall S,
       noOperator pre = true ->
       toMongoUpdate pre = Ok [("$set", S)] ->
       toMongoUpdate (pre ++ ("$set", v) :: post)
       = Ok [("$set", obj_spread S (spreadOf v))].
Proof.
  intros Hn Hs.
  assert (Hsame : toMongoUpdate (pre ++ ("$set", v) :: post)
                  = toMongoUpdate (pre ++ [("$set", v)])).
  { unfold toMongoUpdate. rewrite !fold_toMongoUpdateStep_app.
    destruct (fold_left toMongoUpdateStep pre _) as [[[s r] l] | e].
    - cbn [fold_left toMongoUpdateStep startsWithDollar]. cbn.
      destruct (fold_toMongoUpdateStep_unlinked post s
                  (obj_set "$set"
                     (obj_spread (if l then s else default [] (obj_get "$set" r))
                        (spreadOf v)) r) Hn Hs) as (S & HS).
      destruct l; cbn in HS |- *; now rewrite HS.
    - cbn [fold_left toMongoUpdateStep].
      now rewrite fold_toMongoUpdateStep_throw. }
  split; [exact Hsame |].
  intros S Hpre HS. rewrite Hsame. unfold toMongoUpdate in *.
  rewrite fold_toMongoUpdateStep_app.
  destruct (fold_left toMongoUpdateStep pre _) as [[[s r] l] | e] eqn:E;
    [| discriminate].
  destruct (toMongoUpdate_fold_plain pre Hpre _ _ _ E)
    as (S' & [= -> -> ->] & _).
  cbn in HS. injection HS as <-. reflexivity.
Qed.

Lemma toMongoUpdate_drops_after_set_witness :
  toMongoUpdate
    [("a", JNum 1); ("$set", JObj [("b", JNum 2)]); ("state", JStr "x$y");
     ("c", JNum 3)]
  = Ok [("$set", [("a", JNum 1); ("b", JNum 2)])].
Proof.
  refine (proj2 (toMongoUpdate_drops_after_set
                   [("a", JNum 1)] [("state", JStr "x$y"); ("c", JNum 3)]
                   (JObj [("b", JNum 2)]) eq_refl eq_refl)
                [("a", JNum 1)] eq_refl eq_refl).
Defined.

Lemma fold_toMongoUpdateStep_isOk obj st :
  isOk (fold_left toMongoUpdateStep obj (Ok st)) = stringStates obj.
Proof.
  revert st. induction obj as [| [k v] rest IH]; intros [[s r] l];
    [reflexivity |].
  cbn [fold_left toMongoUpdateStep stringStates forallb fst snd].
  destruct (startsWithDollar k); cbn [orb andb]; [apply IH |].
  destruct (String.eqb k "state"); cbn [negb orb]; [| apply IH].
  destruct v; cbn [isStr andb];
    rewrite ?fold_toMongoUpdateStep_throw; try reflexivity.
  apply IH.
Qed.

(** X3. [toMongoUpdate] throws exactly when the update holds, under a name
    that is no operator, a [state] that is not a string; every other update
    is turned into an update of the store. *)
Theorem toMongoUpdate_throws_iff (obj : Fields) :
  isOk (toMongoUpdate obj) = stringStates obj.
Proof.
  unfold toMongoUpdate.
  rewrite <- (fold_toMongoUpdateStep_isOk obj ([], [("$set", [])], true)).
  now destruct (fold_left toMongoUpdateStep obj _) as [[[s r] l] | e].
Qed.

(** ** The admin status *)

(** X4. The admin status is decided once for a context: once [isAdmin] has
    answered, it gives the same answer whatever has become of the store
    since (the caller taken out of, or put into, the admin groups), without
    looking a group up or testing a membership. *)
Theorem isAdmin_decided_once cfg (w w1 : World) (b : bool) :
  isAdmin cfg w = (Ok b, w1) ->
  forall s tr,
    isAdmin cfg (withStore s tr w1) = (Ok b, withStore s tr w1).
Proof.
  intros H s tr. apply isAdmin_memoised. cbn [withStore ctx].
  exact (isAdmin_memo _ _ _ _ H).
Qed.

(** ** Computations that do not write the store *)

Lemma keeps_ret {A} (a : A) : Keeps (ret a).
Proof. intros w. apply storeKept_refl. Qed.

Lemma keeps_throw {A} e : Keeps (@throw A e).
Proof. intros w. apply storeKept_refl. Qed.

Lemma keeps_throwErr {A} c msg : Keeps (@throwErr A c msg).
Proof. intros w. apply storeKept_refl. Qed.

Lemma keeps_bind_with {A B} (P : A -> Prop) (m : M A) (k : A -> M B) :
  Keeps m ->
  (forall w a w1, m w = (Ok a, w1) -> P a) ->
  (forall a, P a -> Keeps (k a)) ->
  Keeps (bind m k).
Proof.
  intros Hm HP Hk w. unfold bind. specialize (Hm w). specialize (HP w).
  destruct (m w) as [[a | e] w1]; cbn in *; [| exact Hm].
  eapply storeKept_trans; [exact Hm |]. apply Hk. eauto.
Qed.

Lemma keeps_bind {A B} (m : M A) (k : A -> M B) :
  Keeps m -> (forall a, Keeps (k a)) -> Keeps (bind m k).
Proof.
  intros Hm Hk. apply (keeps_bind_with (fun _ => True)); auto.
Qed.

Lemma keeps_tryCatch {A} (m : M A) (h : Error -> M A) :
  Keeps m -> (forall e, Keeps (h e)) -> Keeps (tryCatch m h).
Proof.
  intros Hm Hh w. unfold tryCatch. specialize (Hm w).
  destruct (m w) as [[a | e] w1]; cbn in *; [exact Hm |].
  eapply storeKept_trans; [exact Hm | apply Hh].
Qed.

Lemma keeps_getMgr : Keeps getMgr.
Proof. intros w. apply storeKept_refl. Qed.

Lemma keeps_getCtx : Keeps getCtx.
Proof. intros w. apply storeKept_refl. Qed.

Lemma keeps_setCtx c : Keeps (setCtx c).
Proof. intros w. now apply storeKept_same_mgr. Qed.

Lemma keeps_modifyCtx f : Keeps (modifyCtx f).
Proof. intros w. now apply storeKept_same_mgr. Qed.

Lemma keeps_logEvent e : Keeps (logEvent e).
Proof. intros w. now apply storeKept_same_mgr. Qed.

Lemma keeps_callback {X} (cb : Callback X) type doc :
  readOnly cb -> Keeps (callback cb type doc).
Proof.
  intros Hcb w. unfold callback.
  specialize (Hcb {| cb_ctx := ctx w; cb_type := type; cb_document := doc |}
                  {| cs_mgr := mgr w; cs_isAdmin := isAdmin_ (ctx w) |}).
  destruct (cb _ _) as [r cs]. exact Hcb.
Qed.

Lemma keeps_lookupUserGroup i : Keeps (lookupUserGroup i).
Proof.
  intros w. destruct (lookupUserGroup_spec i w) as (w' & -> & H & _).
  exact H.
Qed.

Lemma keeps_isAdmin cfg : Keeps (isAdmin cfg).
Proof. intros w. apply isAdmin_kept. Qed.

Lemma keeps_getDocState cfg type state : Keeps (getDocState cfg type state).
Proof. intros w. apply getDocState_kept. Qed.

Create HintDb keeps.
#[local] Hint Resolve keeps_ret keeps_throw keeps_throwErr keeps_getMgr
  keeps_getCtx keeps_setCtx keeps_modifyCtx keeps_logEvent
  keeps_lookupUserGroup keeps_isAdmin keeps_getDocState : keeps.

(** Breaks a goal [Keeps m] down along the structure of [m]. *)
Ltac keeps_step :=
  match goal with
  | |- Keeps (bind _ _) => apply keeps_bind; [| intros ?]
  | |- Keeps (tryCatch _ _) => apply keeps_tryCatch; [| intros ?]
  | |- Keeps (match ?x with _ => _ end) => destruct x
  | |- Keeps (if ?b then _ else _) => destruct b
  | |- Keeps (let _ := _ in _) => cbv zeta
  | |- Keeps _ => solve [auto with keeps]
  end.
Ltac keeps := repeat keeps_step.

Lemma keeps__getMembers g doc : Keeps (_getMembers g doc).
Proof. unfold _getMembers. keeps. Qed.
#[local] Hint Resolve keeps__getMembers : keeps.

Lemma readOnly_role cfg type g role :
  readOnlyConfig cfg ->
  getDocRoles cfg type !! g = Some role -> readOnlyRole role.
Proof.
  intros Hcfg. unfold getDocRoles.
  destruct type as [t |]; [| now rewrite lookup_empty].
  destruct (nonempty t); [| now rewrite lookup_empty].
  destruct (documents cfg !! t) as [dt |] eqn:E; [| now rewrite lookup_empty].
  intros H. apply Hcfg in E as [_ Hr]. exact (Hr _ _ H).
Qed.




(** ** What the writes of the store change *)







Lemma deleteOne_spec cname k w :
  deleteOne cname k w
  = (Ok tt,
     if existsb (hasKey k) (collection (mgr w) cname)
     then {| mgr := withCollections
                      (<[cname := removeFirst (hasKey k)
                                    (collection (mgr w) cname)]>
                         (collections (mgr w))) (mgr w);
             ctx := ctx w; trace := trace w |}
     else w).
Proof.
  unfold deleteOne, bind, getMgr.
  now destruct (existsb (hasKey k) (collection (mgr w) cname)).
Qed.



Section ReadOnly.
Variable cfg : DocMgrConfig.
Hypothesis Hcfg : readOnlyConfig cfg.

Lemma keeps_getMembers g type doc : Keeps (getMembers cfg g type doc).
Proof.
  unfold getMembers.
  destruct (getDocRoles cfg type !! g) as [role |] eqn:E; [| keeps].
  apply (readOnly_role _ _ _ _ Hcfg) in E. unfold readOnlyRole in E.
  destruct (getMembers_ role) as [m | cb]; [keeps |].
  destruct doc as [d |], type as [t |]; keeps.
  now apply keeps_callback.
Qed.
Hint Resolve keeps_getMembers : keeps.

Lemma keeps_isInUserGroup g type doc : Keeps (isInUserGroup cfg g type doc).
Proof. unfold isInUserGroup. keeps. Qed.
Hint Resolve keeps_isInUserGroup : keeps.

Lemma keeps_isInUserGroupsLoop gs type doc :
  Keeps (isInUserGroupsLoop cfg gs type doc).
Proof. induction gs as [| g gs IH]; cbn [isInUserGroupsLoop]; keeps. Qed.
Hint Resolve keeps_isInUserGroupsLoop : keeps.

Lemma keeps_isInUserGroups gs type doc b :
  Keeps (isInUserGroups cfg gs type doc b).
Proof. unfold isInUserGroups. keeps. Qed.
Hint Resolve keeps_isInUserGroups : keeps.

Lemma keeps_getInUserGroups arg type doc :
  readOnlyGate arg -> Keeps (getInUserGroups arg type doc).
Proof.
  intros H. unfold getInUserGroups. destruct arg as [[gs | cb] |]; keeps.
  now apply keeps_callback.
Qed.

Lemma keeps_notAuthorized {A} : Keeps (@notAuthorized A).
Proof. unfold notAuthorized. keeps. Qed.
Hint Resolve @keeps_notAuthorized : keeps.

Lemma keeps_assertInUserGroups arg type doc :
  readOnlyGate arg -> Keeps (assertInUserGroups cfg arg type doc).
Proof.
  intros H. unfold assertInUserGroups. destruct arg as [g |]; [| keeps].
  apply keeps_bind; [now apply keeps_getInUserGroups |]. intros gs. keeps.
Qed.

Lemma readOnlyState_noHooks l d : readOnlyState (noHooks l d).
Proof.
  unfold readOnlyState, noHooks. cbn. repeat split. apply map_Forall_empty.
Qed.

Lemma getDocState_readOnly type state w S w1 :
  getDocState cfg type state w = (Ok S, w1) -> readOnlyState S.
Proof.
  unfold getDocState. unfold bind at 1. rewrite getDocType_spec.
  destruct (documents cfg !! type) as [dt |] eqn:E; [| discriminate].
  apply Hcfg in E as [Hst _].
  destruct state as [[| | | st | |] |]; try discriminate.
  - destruct (states dt !! stateBase st) as [T |] eqn:F.
    + intros [= <- <-]. exact (Hst _ _ F).
    + unfold bind. destruct (isAdmin cfg w) as [[[] | e] w2]; try discriminate.
      intros [= <- <-]. apply readOnlyState_noHooks.
  - destruct (map_to_list (states dt)) as [| [k d] [| ? ?]] eqn:F;
      try discriminate.
    intros [= <- <-]. apply (Hst k).
    apply elem_of_map_to_list. rewrite F. apply list_elem_of_here.
Qed.

Lemma keeps_hasAccess gate type doc :
  (forall S, readOnlyState S -> readOnlyGate (gate S)) ->
  Keeps (hasAccess cfg gate type doc).
Proof.
  intros Hg. unfold hasAccess.
  apply (keeps_bind_with readOnlyState); [auto with keeps | |].
  - intros w a w1. apply getDocState_readOnly.
  - intros S HS. apply keeps_tryCatch; [| intros e; keeps].
    apply keeps_bind; [| intros _; keeps].
    now apply keeps_assertInUserGroups, Hg.
Qed.

Lemma keeps_hasReadAccess type doc : Keeps (hasReadAccess cfg type doc).
Proof. apply keeps_hasAccess. now intros S (_ & H & _). Qed.

Lemma keeps_hasWriteAccess type doc : Keeps (hasWriteAccess cfg type doc).
Proof. apply keeps_hasAccess. now intros S (_ & _ & H & _). Qed.

Lemma keeps_hasEntryAccess type doc : Keeps (hasEntryAccess cfg type doc).
Proof. apply keeps_hasAccess. now intros S (H & _). Qed.

Lemma keeps_hasDeleteAccess type doc : Keeps (hasDeleteAccess cfg type doc).
Proof. apply keeps_hasAccess. now intros S (_ & _ & _ & _ & H & _). Qed.
Hint Resolve keeps_hasReadAccess keeps_hasWriteAccess keeps_hasEntryAccess
  keeps_hasDeleteAccess : keeps.

Lemma keeps_assertAccess has msg type doc :
  Keeps (has type doc) -> Keeps (assertAccess has msg type doc).
Proof. intros H. unfold assertAccess. keeps. Qed.

Lemma keeps_assertReadAccess type doc : Keeps (assertReadAccess cfg type doc).
Proof. apply keeps_assertAccess. auto with keeps. Qed.

Lemma keeps_assertWriteAccess type doc :
  Keeps (assertWriteAccess cfg type doc).
Proof. apply keeps_assertAccess. auto with keeps. Qed.

Lemma keeps_assertEntryAccess type doc :
  Keeps (assertEntryAccess cfg type doc).
Proof. apply keeps_assertAccess. auto with keeps. Qed.

Lemma keeps_assertDeleteAccess type doc :
  Keeps (assertDeleteAccess cfg type doc).
Proof. apply keeps_assertAccess. auto with keeps. Qed.
Hint Resolve keeps_assertReadAccess keeps_assertWriteAccess
  keeps_assertEntryAccess keeps_assertDeleteAccess : keeps.

Lemma keeps__getDoc ds project : Keeps (_getDoc cfg ds project).
Proof.
  intros w. destruct (_getDoc_spec cfg ds project w) as (r & ->).
  apply storeKept_refl.
Qed.
Hint Resolve keeps__getDoc : keeps.

Lemma keeps_getDocCollection type : Keeps (getDocCollection cfg type).
Proof. unfold getDocCollection, getDocCollectionName. keeps. Qed.
Hint Resolve keeps_getDocCollection : keeps.

Lemma keeps_runHook k hook type doc :
  readOnlyHook hook -> Keeps (runHook k hook type doc).
Proof.
  intros H. unfold runHook. destruct hook as [cb |]; keeps.
  now apply keeps_callback.
Qed.




Lemma keeps_find cname matching projection :
  Keeps (find cname matching projection).
Proof. unfold find. keeps. Qed.
Hint Resolve keeps_find : keeps.

Lemma keeps_onRead type doc :
  Keeps (let! docState := getDocState cfg type (obj_get "state" doc) in
         runHook HOnRead (onRead docState) type (toInfo doc true)).
Proof.
  apply (keeps_bind_with readOnlyState); [auto with keeps | |].
  - intros w a w1. apply getDocState_readOnly.
  - intros S HS. apply keeps_runHook. apply HS.
Qed.

Lemma keeps_getDoc ds projection : Keeps (getDoc cfg ds projection).
Proof.
  unfold getDoc. do 4 (apply keeps_bind; [auto with keeps | intros ?]).
  apply (keeps_bind_with readOnlyState); [auto with keeps | |].
  - intros w S w1. apply getDocState_readOnly.
  - intros S HS. apply keeps_bind; [apply keeps_runHook, HS | intros _].
    keeps.
Qed.

Lemma keeps_getDocsStep type rtn doc : Keeps (getDocsStep cfg type rtn doc).
Proof.
  unfold getDocsStep. cbv zeta.
  do 2 (apply keeps_bind; [auto with keeps | intros _]).
  apply keeps_tryCatch; [| intros e; keeps].
  apply keeps_bind; [auto with keeps | intros ok].
  destruct ok; [| keeps].
  apply keeps_tryCatch; [| intros e; keeps].
  apply (keeps_bind_with readOnlyState); [auto with keeps | |].
  - intros w S w1. apply getDocState_readOnly.
  - intros S HS. apply keeps_bind; [apply keeps_runHook, HS | intros _].
    keeps.
Qed.

Lemma keeps_getDocsLoop type docs rtn : Keeps (getDocsLoop cfg type docs rtn).
Proof.
  revert rtn. induction docs as [| d rest IH]; intros rtn;
    cbn [getDocsLoop]; [keeps |].
  apply keeps_bind; [apply keeps_getDocsStep | intros rtn'; apply IH].
Qed.

(** X5. Reading does not write.  When no callback of the configuration
    writes the store, [getDoc] and [getDocs] leave every collection and the
    user groups as they are, whether they return or throw; the group cache
    may have grown, and stays coherent with the stored groups. *)
Theorem reads_keep_the_store
    (ds : DocSpec) (type : string) (matching : Fields -> bool)
    (projection : option (Fields -> Fields)) (w : World) :
  storeKept w (snd (getDoc cfg ds projection w))
  /\ storeKept w (snd (getDocs cfg type matching projection w)).
Proof.
  split; [apply keeps_getDoc |].
  unfold getDocs.
  assert (H : Keeps (let! pc := getDocCollection cfg type in
                     let! docs := find pc matching projection in
                     getDocsLoop cfg type docs [])).
  { apply keeps_bind; [auto with keeps | intros pc].
    apply keeps_bind; [auto with keeps | intros docs].
    apply keeps_getDocsLoop. }
  apply H.
Qed.











End ReadOnly.

(** ** The configurations of the examples write nothing *)

Lemma map_Forall_list_to_map {A} (P : string -> A -> Prop)
    (l : list (string * A)) :
  Forall (fun kv => P (fst kv) (snd kv)) l ->
  map_Forall P (list_to_map l : gmap string A).
Proof.
  intros H k x Hl. apply elem_of_list_to_map_2 in Hl.
  rewrite Forall_forall in H. exact (H _ Hl).
Qed.

(** A callback that hands back the state it was given. *)
Lemma readOnly_pure {X} (cb : Callback X) :
  (forall scc cs, snd (cb scc cs) = cs) -> readOnly cb.
Proof. intros H scc cs. rewrite H. auto. Qed.

Lemma readOnly_profileACL : readOnly profileACL.
Proof.
  apply readOnly_pure. intros scc cs. unfold profileACL.
  destruct (obj_get "id" (cb_document scc)) as [[| | | i | |] |];
    try reflexivity.
  now destruct (String.eqb _ i).
Qed.

Ltac read_only :=
  repeat first
    [ exact I
    | apply map_Forall_empty
    | apply map_Forall_singleton
    | apply map_Forall_list_to_map
    | apply map_Forall_insert_2
    | apply Forall_nil
    | apply Forall_cons
    | apply readOnly_profileACL
    | (apply readOnly_pure; intros ? ?; reflexivity)
    | progress (unfold readOnlyType, readOnlyState, readOnlyRole,
                  readOnlyGate, readOnlyHook; cbn)
    | lazymatch goal with
      | |- readOnly _ => fail 1
      | |- map_Forall _ _ => fail 1
      | |- _ => split
      end ].

Lemma readOnlyConfig_testConfig : readOnlyConfig testConfig.
Proof. unfold readOnlyConfig, testConfig. cbn [documents]. read_only. Qed.

Lemma readOnlyConfig_ticketConfig : readOnlyConfig ticketConfig.
Proof. unfold readOnlyConfig, ticketConfig. cbn [documents]. read_only. Qed.

Lemma readOnlyConfig_ownerConfig : readOnlyConfig ownerConfig.
Proof.
  unfold readOnlyConfig, ownerConfig. cbn [documents]. read_only.
  apply readOnly_pure. intros scc cs.
  now destruct (obj_get "owner" (cb_document scc)).
Qed.

Lemma isAdmin_decided_once_witness :
  fst (isAdmin testConfig (withStore emptyStore [] user1AdminWorld))
  = Ok false
  /\ isAdmin testConfig
       (withStore emptyStore [] (snd (isAdmin testConfig user1AdminWorld)))
     = (Ok true,
        withStore emptyStore [] (snd (isAdmin testConfig user1AdminWorld))).
Proof.
  split; [reflexivity |].
  apply (isAdmin_decided_once testConfig user1AdminWorld). reflexivity.
Defined.

Lemma reads_keep_the_store_witness :
  storeKept user1World (snd (getDoc testConfig ds1 None user1World))
  /\ storeKept user1World
       (snd (getDocs testConfig "testDocType" everyDoc None user1World)).
Proof.
  exact (reads_keep_the_store testConfig readOnlyConfig_testConfig ds1
           "testDocType" everyDoc None user1World).
Defined.




(** ** The user groups *)

Lemma hasGroupId_spec i g : hasGroupId i g = true <-> ug_id g = i.
Proof. unfold hasGroupId. apply String.eqb_eq. Qed.

Lemma find_none_existsb {A} (p : A -> bool) l :
  List.find p l = None -> existsb p l = false.
Proof.
  induction l as [| x l IH]; [reflexivity |]. cbn.
  destruct (p x); [discriminate | exact IH].
Qed.

Lemma find_app_first {A} (p : A -> bool) l l' x :
  List.find p l = Some x -> List.find p (l ++ l')%list = Some x.
Proof.
  induction l as [| y l IH]; [discriminate |]. cbn.
  destruct (p y); auto.
Qed.

Lemma find_app_other {A} (p : A -> bool) l x :
  p x = false -> List.find p (l ++ [x])%list = List.find p l.
Proof.
  intros Hx. induction l as [| y l IH]; cbn; [now rewrite Hx |].
  destruct (p y); auto.
Qed.

Lemma find_removeFirst_other i j l :
  j <> i ->
  List.find (hasGroupId j) (removeFirst (hasGroupId i) l)
  = List.find (hasGroupId j) l.
Proof.
  intros Hne. induction l as [| g l IH]; [reflexivity |].
  cbn [removeFirst List.find]. destruct (hasGroupId i g) eqn:E.
  - apply hasGroupId_spec in E.
    destruct (hasGroupId j g) eqn:F; [| reflexivity].
    apply hasGroupId_spec in F. congruence.
  - cbn [List.find]. destruct (hasGroupId j g); auto.
Qed.

Lemma removeFirst_ids i l :
  NoDup (List.map ug_id l) ->
  NoDup (List.map ug_id (removeFirst (hasGroupId i) l))
  /\ List.find (hasGroupId i) (removeFirst (hasGroupId i) l) = None.
Proof.
  induction l as [| g l IH]; intros Hnd; [split; [constructor | reflexivity] |].
  cbn [List.map] in Hnd. apply NoDup_cons in Hnd as [Hnotin Hnd].
  cbn [removeFirst]. destruct (hasGroupId i g) eqn:E.
  - split; [exact Hnd |]. apply hasGroupId_spec in E.
    destruct (List.find (hasGroupId i) l) as [x |] eqn:F; [| reflexivity].
    apply find_some in F as [Hin Hx]. apply hasGroupId_spec in Hx.
    exfalso. apply Hnotin. rewrite E, <- Hx.
    apply list_elem_of_In, in_map, Hin.
  - destruct (IH Hnd) as [IH1 IH2]. split.
    + cbn [List.map]. apply NoDup_cons. split; [| exact IH1].
      intros Hin. apply Hnotin. clear - Hin.
      induction l as [| x l IHl]; cbn in *; [exact Hin |].
      destruct (hasGroupId i x); [now right |].
      cbn in Hin. apply elem_of_cons in Hin as [-> | Hin];
        [now left | right; auto].
    + cbn [List.find]. now rewrite E.
Qed.

(** What the update [{ members: ms }] does to the stored groups: the first
    group under the id gets the members, nothing else changes. *)
Lemma updateFirstGroup_members i ms l :
  exists l',
    updateFirstGroup i [("$set", [("members", ms)])] l = Ok l'
    /\ List.map ug_id l' = List.map ug_id l
    /\ List.find (hasGroupId i) l'
       = withMembers ms <$> List.find (hasGroupId i) l
    /\ (forall j, j <> i ->
                  List.find (hasGroupId j) l' = List.find (hasGroupId j) l)
    /\ (List.find (hasGroupId i) l = None -> l' = l).
Proof.
  induction l as [| g l (l' & IH & Hids & Hi & Hj & Hn)].
  - exists []. auto.
  - cbn [updateFirstGroup]. destruct (hasGroupId i g) eqn:E.
    + exists (withMembers ms g :: l). cbn. rewrite E. repeat split.
      * unfold hasGroupId in *. cbn. now rewrite E.
      * intros j Hne. unfold hasGroupId in *. cbn.
        apply String.eqb_eq in E. rewrite E.
        apply not_eq_sym, String.eqb_neq in Hne. now rewrite Hne.
      * discriminate.
    + rewrite IH. exists (g :: l'). cbn [List.map List.find].
      rewrite Hids, E, Hi. repeat split.
      * intros j Hne. now rewrite (Hj j Hne).
      * intros H. now rewrite (Hn H).
Qed.

Lemma lookupUserGroup_run i w :
  lookupUserGroup i w
  = match userGroupCache (mgr w) !! i with
    | Some g => (Ok (Some g), w)
    | None =>
        match List.find (hasGroupId i) (userCollection (mgr w)) with
        | Some g =>
            (Ok (Some g),
             {| mgr := withUserGroupCache (<[i := g]> (userGroupCache (mgr w)))
                         (mgr w);
                ctx := ctx w; trace := trace w |})
        | None => (Ok None, w)
        end
    end.
Proof.
  unfold lookupUserGroup, bind, getMgr, findUserGroup. cbn [ret].
  destruct (userGroupCache (mgr w) !! i); [reflexivity |].
  cbn. destruct (List.find (hasGroupId i) (userCollection (mgr w)));
    reflexivity.
Qed.

Lemma assertAdmin_run cfg w :
  exists w1,
    storeKept w w1
    /\ assertAdmin cfg w
       = (match fst (isAdmin cfg w) with
          | Ok true => Ok tt
          | Ok false => Throw (DocMgrError 401 "Caller is not admin")
          | Throw e => Throw e
          end, w1).
Proof.
  unfold assertAdmin, bind. pose proof (isAdmin_kept cfg w) as Hk.
  destruct (isAdmin cfg w) as [[[] | e] w1]; cbn [fst snd] in *;
    exists w1; (split; [exact Hk | reflexivity]).
Qed.

Lemma createUserGroup_run cfg args defaultMembers w :
  exists w1,
    storeKept w w1
    /\ createUserGroup cfg args defaultMembers w
       = match fst (isAdmin cfg w) with
         | Ok true =>
             match List.find (hasGroupId (uc_id args))
                     (userCollection (mgr w)) with
             | Some _ =>
                 (Throw (DocMgrError 400
                           ("User group '" ++ uc_id args
                              ++ "' already exists")), w1)
             | None =>
                 getUserGroup (uc_id args)
                   {| mgr := withUserCollection
                               (userCollection (mgr w)
                                  ++ [createdGroup args defaultMembers])%list
                               (mgr w1);
                      ctx := ctx w1; trace := trace w1 |}
             end
         | Ok false => (Throw (DocMgrError 401 "Caller is not admin"), w1)
         | Throw e => (Throw e, w1)
         end.
Proof.
  destruct (assertAdmin_run cfg w) as (w1 & Hk & Hrun). exists w1.
  split; [exact Hk |]. unfold createUserGroup, bind at 1. rewrite Hrun.
  destruct (fst (isAdmin cfg w)) as [[] | e]; try reflexivity.
  unfold bind at 1, findUserGroup at 1, bind at 1, getMgr. cbn [ret].
  destruct Hk as (_ & Hu & _). rewrite Hu.
  destruct (List.find _ (userCollection (mgr w))); [reflexivity |].
  unfold bind at 1, insertUserGroup, bind, getMgr, setMgr. cbn [ret mgr].
  now rewrite Hu.
Qed.

(** X9. Creating a user group.  A caller who is no administrator is
    refused with the 401 error; an administrator who names the id of a
    stored group is refused with the 400 error; in both cases the stored
    groups are as before.  Otherwise, the cache being coherent and the id
    being no name every object inherits, the group is stored last, with no
    members and not deletable unless the arguments (or the default members)
    say otherwise, and it is returned and cached. *)
Theorem createUserGroup_outcome
    cfg (args : UserGroupCreate) (defaultMembers : option json) (w : World) :
  let run := createUserGroup cfg args defaultMembers w in
  (fst (isAdmin cfg w) = Ok false ->
   fst run = Throw (DocMgrError 401 "Caller is not admin")
   /\ userCollection (mgr (snd run)) = userCollection (mgr w))
  /\ (fst (isAdmin cfg w) = Ok true ->
      (forall g,
         List.find (hasGroupId (uc_id args)) (userCollection (mgr w)) = Some g ->
         fst run
         = Throw (DocMgrError 400
                    ("User group '" ++ uc_id args ++ "' already exists"))
         /\ userCollection (mgr (snd run)) = userCollection (mgr w))
      /\ (List.find (hasGroupId (uc_id args)) (userCollection (mgr w)) = None ->
          cacheCoherent (mgr w) ->
          inheritedName (uc_id args) = false ->
          fst run = Ok (createdGroup args defaultMembers)
          /\ userCollection (mgr (snd run))
             = (userCollection (mgr w)
                  ++ [createdGroup args defaultMembers])%list
          /\ userGroupCache (mgr (snd run)) !! uc_id args
             = Some (createdGroup args defaultMembers))).
Proof.
  intros run.
  destruct (createUserGroup_run cfg args defaultMembers w)
    as (w1 & (Hc & Hu & Hcoh) & Hrun).
  subst run. rewrite Hrun. clear Hrun. split.
  - intros ->. auto.
  - intros ->. split.
    + intros g ->. auto.
    + intros Hnone Hcoherent _. rewrite Hnone.
      set (g := createdGroup args defaultMembers).
      unfold getUserGroup, bind. rewrite lookupUserGroup_run.
      cbn [mgr withUserCollection userGroupCache userCollection].
      assert (Hcache : userGroupCache (mgr w1) !! uc_id args = None).
      { destruct (userGroupCache (mgr w1) !! uc_id args) as [g' |] eqn:E;
          [| reflexivity].
        apply (Hcoh Hcoherent) in E. congruence. }
      rewrite Hcache.
      rewrite (find_app_last _ _ g (find_none_existsb _ _ Hnone))
        by (apply hasGroupId_spec; reflexivity).
      cbn. rewrite lookup_insert_eq. auto.
Qed.

Lemma createUserGroup_outcome_witness :
  fst (createUserGroup testConfig reviewersArgs None user1World)
  = Throw (DocMgrError 401 "Caller is not admin")
  /\ fst (createUserGroup testConfig
            {| uc_id := "management"; uc_members := None;
               uc_deletable := None |} None admin1World)
     = Throw (DocMgrError 400 "User group 'management' already exists")
  /\ fst createReviewers
     = Ok {| ug_id := "reviewers"; members := JArr []; deletable := true |}.
Proof.
  split; [| split].
  - destruct (createUserGroup_outcome testConfig reviewersArgs None
                user1World) as [H _].
    now apply H.
  - destruct (createUserGroup_outcome testConfig
                {| uc_id := "management"; uc_members := None;
                   uc_deletable := None |} None admin1World) as [_ H].
    destruct (H eq_refl) as [H2 _]. now apply (H2 managementGroup).
  - destruct (createUserGroup_outcome testConfig reviewersArgs None
                admin1World) as [_ H].
    destruct (H eq_refl) as [_ H3]. apply H3; [reflexivity | | reflexivity].
    apply cacheCoherent_empty. reflexivity.
Defined.

(** The world once the cache entry of a group has been dropped. *)
Lemma invalidate_run i (k : M UserGroupInfo) w :
  exists w0,
    (let! s := getMgr in
     do! (match userGroupCache s !! i with
          | Some _ =>
              setMgr (withUserGroupCache (base.delete i (userGroupCache s)) s)
          | None => ret tt
          end) in k) w = k w0
    /\ collections (mgr w0) = collections (mgr w)
    /\ userCollection (mgr w0) = userCollection (mgr w)
    /\ userGroupCache (mgr w0) = base.delete i (userGroupCache (mgr w))
    /\ ctx w0 = ctx w /\ trace w0 = trace w.
Proof.
  unfold bind, getMgr. cbn [ret].
  destruct (userGroupCache (mgr w) !! i) as [g |] eqn:E.
  - eexists. split; [reflexivity |]. cbn. auto 10.
  - exists w. rewrite (delete_id _ _ E). cbn. auto 10.
Qed.

Lemma updateUserGroup_members_run cfg i ms w :
  fst (isAdmin cfg w) = Ok true ->
  exists w',
    updateUserGroup cfg i [("members", ms)] w
    = (match List.find (hasGroupId i) (userCollection (mgr w)) with
       | Some g => Ok (withMembers ms g)
       | None =>
           Throw (DocMgrError 404 ("user group '" ++ i ++ "' was not found"))
       end, w')
    /\ collections (mgr w') = collections (mgr w)
    /\ List.map ug_id (userCollection (mgr w'))
       = List.map ug_id (userCollection (mgr w))
    /\ List.find (hasGroupId i) (userCollection (mgr w'))
       = withMembers ms <$> List.find (hasGroupId i) (userCollection (mgr w))
    /\ (forall j, j <> i ->
          List.find (hasGroupId j) (userCollection (mgr w'))
          = List.find (hasGroupId j) (userCollection (mgr w)))
    /\ (List.find (hasGroupId i) (userCollection (mgr w)) = None ->
        userCollection (mgr w') = userCollection (mgr w))
    /\ userGroupCache (mgr w') !! i
       = List.find (hasGroupId i) (userCollection (mgr w'))
    /\ (forall j, j <> i ->
          cacheCoherent (mgr w) ->
          forall g, userGroupCache (mgr w') !! j = Some g ->
                    List.find (hasGroupId j) (userCollection (mgr w)) = Some g).
Proof.
  intros Hadm. destruct (assertAdmin_run cfg w) as (w1 & (Hc & Hu & Hcoh) & Hrun).
  rewrite Hadm in Hrun. unfold updateUserGroup, bind at 1. rewrite Hrun.
  change (toMongoUpdate [("members", ms)])
    with (Ok [("$set", [("members", ms)])] : Result MongoUpdate).
  cbv iota.
  destruct (updateFirstGroup_members i ms (userCollection (mgr w)))
    as (l' & Hl & Hids & Hi & Hj & Hn).
  unfold bind at 1, updateUserGroupRecord, bind at 1. unfold getMgr at 1.
  rewrite Hu, Hl. unfold setMgr at 1.
  match goal with |- context [bind getMgr ?f ?w0] =>
    destruct (invalidate_run i (getUserGroup i) w0)
      as (w2 & -> & Hc2 & Hu2 & Hcache2 & _)
  end.
  cbn [mgr withUserCollection collections userCollection userGroupCache]
    in Hc2, Hu2, Hcache2.
  unfold getUserGroup, bind. rewrite lookupUserGroup_run.
  rewrite Hcache2, lookup_delete_eq, Hu2, Hi.
  destruct (List.find (hasGroupId i) (userCollection (mgr w))) as [g |] eqn:F;
    cbn [fmap option_fmap option_map].
  - eexists. split; [reflexivity |].
    cbn [mgr withUserGroupCache collections userCollection userGroupCache].
    rewrite Hu2, Hc2, Hc, Hi, lookup_insert_eq.
    repeat split; auto; try discriminate.
    intros j Hne Hcoherent g' Hg'.
    rewrite lookup_insert_ne in Hg' by congruence.
    rewrite lookup_delete_ne in Hg' by congruence.
    rewrite <- Hu. now apply (Hcoh Hcoherent).
  - exists w2. split; [reflexivity |].
    rewrite Hu2, Hc2, Hc, Hi, Hcache2, lookup_delete_eq.
    repeat split; auto.
    intros j Hne Hcoherent g' Hg'.
    rewrite lookup_delete_ne in Hg' by congruence.
    rewrite <- Hu. now apply (Hcoh Hcoherent).
Qed.

(** X10. Updating the members of a user group under an id that is no name
    every object inherits.  For an administrator and
    a stored group, whatever the cache holds: the group is returned with
    the new members, it is what is stored under the id, and it is what the
    next lookup of the id answers, the cache entry having been dropped and
    read again.  When no group is stored under the id the update fails with
    the 404 error and the stored groups are as before. *)
Theorem updateUserGroup_refreshes cfg (i : string) (ms : json) (w : World) :
  fst (isAdmin cfg w) = Ok true ->
  inheritedName i = false ->
  let run := updateUserGroup cfg i [("members", ms)] w in
  (forall g,
     List.find (hasGroupId i) (userCollection (mgr w)) = Some g ->
     fst run = Ok (withMembers ms g)
     /\ List.find (hasGroupId i) (userCollection (mgr (snd run)))
        = Some (withMembers ms g)
     /\ fst (lookupUserGroup i (snd run)) = Ok (Some (withMembers ms g)))
  /\ (List.find (hasGroupId i) (userCollection (mgr w)) = None ->
      fst run
      = Throw (DocMgrError 404 ("user group '" ++ i ++ "' was not found"))
      /\ userCollection (mgr (snd run)) = userCollection (mgr w)).
Proof.
  intros Hadm _ run.
  destruct (updateUserGroup_members_run cfg i ms w Hadm)
    as (w' & Hrun & _ & _ & Hi & _ & Hn & Hcache & _).
  subst run. rewrite Hrun. cbn [fst snd]. split.
  - intros g Hg. rewrite Hg in *. cbn in Hi. split; [reflexivity |].
    split; [exact Hi |].
    rewrite lookupUserGroup_run, Hcache, Hi. reflexivity.
  - intros Hnone. rewrite Hnone. auto.
Qed.

Lemma updateUserGroup_refreshes_witness :
  fst fillReviewers
  = Ok {| ug_id := "reviewers"; members := JArr [user1Person];
          deletable := true |}
  /\ fst (lookupUserGroup "reviewers" (snd fillReviewers))
     = Ok (Some {| ug_id := "reviewers"; members := JArr [user1Person];
                   deletable := true |})
  /\ fst (updateUserGroup testConfig "nobody" [("members", JArr [])]
            admin1World)
     = Throw (DocMgrError 404 "user group 'nobody' was not found").
Proof.
  destruct (updateUserGroup_refreshes testConfig "reviewers"
              (JArr [user1Person]) (snd createReviewers) eq_refl eq_refl)
    as [H _].
  destruct (H {| ug_id := "reviewers"; members := JArr [];
                 deletable := true |} eq_refl) as (H1 & _ & H3).
  split; [exact H1 |]. split; [exact H3 |].
  destruct (updateUserGroup_refreshes testConfig "nobody" (JArr [])
              admin1World eq_refl eq_refl) as [_ H'].
  now apply H'.
Defined.

Lemma deleteUserGroup_run cfg i w :
  cacheCoherent (mgr w) ->
  exists r w',
    deleteUserGroup cfg i w = (r, w')
    /\ r = match fst (isAdmin cfg w) with
           | Ok true =>
               match List.find (hasGroupId i) (userCollection (mgr w)) with
               | Some g =>
                   if deletable g then Ok g
                   else Throw (DocMgrError 403
                                 ("The '" ++ i
                                    ++ "' user group can not be deleted"))
               | None =>
                   Throw (DocMgrError 404
                            ("user group '" ++ i ++ "' was not found"))
               end
           | Ok false => Throw (DocMgrError 401 "Caller is not admin")
           | Throw e => Throw e
           end
    /\ (isOk r = false -> storeKept w w')
    /\ (isOk r = true ->
        collections (mgr w') = collections (mgr w)
        /\ userCollection (mgr w')
           = removeFirst (hasGroupId i) (userCollection (mgr w))
        /\ userGroupCache (mgr w') !! i = None
        /\ forall j g,
             userGroupCache (mgr w') !! j = Some g ->
             List.find (hasGroupId j) (userCollection (mgr w)) = Some g).
Proof.
  intros Hcoherent.
  destruct (assertAdmin_run cfg w) as (w1 & K1 & Hrun).
  unfold deleteUserGroup, bind at 1. rewrite Hrun.
  destruct (fst (isAdmin cfg w)) as [[] | e].
  2, 3: eexists _, w1; split; [reflexivity |];
        split; [reflexivity | split; [auto | discriminate]].
  unfold bind at 1, getUserGroup, bind at 1.
  destruct (lookupUserGroup_spec i w1) as (w2 & Hl & K2 & _ & _).
  pose proof (lookupUserGroup_coherent i w1 (proj2 (proj2 K1) Hcoherent)) as Hl'.
  rewrite Hl in Hl' |- *. cbn [fst] in Hl'. injection Hl' as Hl'.
  rewrite Hl'. clear Hl Hl'.
  pose proof (storeKept_trans _ _ _ K1 K2) as K.
  destruct K1 as (_ & Hu1 & _). rewrite Hu1.
  destruct (List.find (hasGroupId i) (userCollection (mgr w))) as [g |] eqn:E.
  2: { eexists _, w2. split; [reflexivity |].
       split; [reflexivity | split; [auto | discriminate]]. }
  cbn [ret]. destruct (deletable g); cbn [negb].
  2: { eexists _, w2. split; [reflexivity |].
       split; [reflexivity | split; [auto | discriminate]]. }
  unfold bind at 1, deleteUserGroupRecord, bind at 1. unfold getMgr at 1.
  unfold setMgr at 1.
  match goal with |- context [bind getMgr ?f ?w0] =>
    destruct (invalidate_run i (ret g) w0)
      as (w3 & -> & Hc3 & Hu3 & Hcache3 & _)
  end.
  cbn [mgr withUserCollection collections userCollection userGroupCache]
    in Hc3, Hu3, Hcache3.
  eexists _, w3. split; [reflexivity |]. split; [reflexivity |].
  split; [discriminate |]. intros _.
  destruct K as (Hc & Hu & Hcoh).
  rewrite Hc3, Hu3, Hcache3, Hc, Hu, lookup_delete_eq. repeat split.
  intros j g' Hg'. apply lookup_delete_Some in Hg' as [Hne Hg'].
  rewrite <- Hu. now apply (Hcoh Hcoherent).
Qed.

(** X11. Deleting a deletable user group.  For an administrator, the
    cache being coherent, a group stored under an id that is no name every
    object inherits and whose [deletable] flag is true is
    returned and taken out of the stored groups and of the cache; when the
    ids of the stored groups are distinct, the next lookup of the id finds
    no group. *)
Theorem deleteUserGroup_removes cfg (i : string) (g : UserGroupInfo)
    (w : World) :
  fst (isAdmin cfg w) = Ok true ->
  cacheCoherent (mgr w) ->
  inheritedName i = false ->
  List.find (hasGroupId i) (userCollection (mgr w)) = Some g ->
  deletable g = true ->
  let run := deleteUserGroup cfg i w in
  fst run = Ok g
  /\ userCollection (mgr (snd run))
     = removeFirst (hasGroupId i) (userCollection (mgr w))
  /\ userGroupCache (mgr (snd run)) !! i = None
  /\ (uniqueIds (mgr w) -> fst (lookupUserGroup i (snd run)) = Ok None).
Proof.
  intros Hadm Hcoherent _ Hfind Hdel run.
  destruct (deleteUserGroup_run cfg i w Hcoherent)
    as (r & w' & Hrun & -> & _ & Hok).
  subst run. rewrite Hadm, Hfind, Hdel in *. rewrite Hrun.
  cbn [fst snd]. destruct (Hok eq_refl) as (_ & Hu & Hcache & _).
  repeat split; auto.
  intros Huniq. rewrite lookupUserGroup_run, Hcache, Hu.
  now destruct (removeFirst_ids i _ Huniq) as [_ ->].
Qed.

(** The operations on user groups keep the ids distinct and the cache
    coherent. *)
Lemma groupsSound_kept w w1 :
  storeKept w w1 -> groupsSound (mgr w) -> groupsSound (mgr w1).
Proof.
  intros (_ & Hu & Hcoh) [Hids Hc]. split; [| auto].
  unfold uniqueIds. now rewrite Hu.
Qed.

Lemma groupsSound_lookupUserGroup i w :
  groupsSound (mgr w) -> groupsSound (mgr (snd (lookupUserGroup i w))).
Proof. apply groupsSound_kept, keeps_lookupUserGroup. Qed.

Lemma groupsSound_getUserGroup i w :
  groupsSound (mgr w) -> groupsSound (mgr (snd (getUserGroup i w))).
Proof.
  intros H. unfold getUserGroup, bind.
  pose proof (groupsSound_lookupUserGroup i w H) as H'.
  destruct (lookupUserGroup i w) as [[[g |] | e] w1]; exact H'.
Qed.

Lemma find_none_not_in i l :
  List.find (hasGroupId i) l = None -> i ∉ List.map ug_id l.
Proof.
  intros H Hin. apply list_elem_of_In, in_map_iff in Hin as (g & Hg & Hin).
  apply (find_none _ _ H) in Hin. apply hasGroupId_spec in Hg. congruence.
Qed.

Lemma groupsSound_createUserGroup cfg args defaultMembers w :
  groupsSound (mgr w) ->
  groupsSound (mgr (snd (createUserGroup cfg args defaultMembers w))).
Proof.
  intros Hs.
  destruct (createUserGroup_run cfg args defaultMembers w)
    as (w1 & K & ->).
  pose proof (groupsSound_kept _ _ K Hs) as Hs1.
  destruct (fst (isAdmin cfg w)) as [[] | e]; try exact Hs1.
  destruct (List.find _ (userCollection (mgr w))) eqn:E; [exact Hs1 |].
  apply groupsSound_getUserGroup. destruct Hs as [Hids Hc], K as (_ & Hu & Hcoh).
  split.
  - unfold uniqueIds. cbn. rewrite map_app. cbn.
    apply NoDup_app. split; [exact Hids |]. split; [| apply NoDup_singleton].
    intros j Hj Hin. apply list_elem_of_singleton in Hin as ->.
    now apply (find_none_not_in _ _ E).
  - intros j g Hg. cbn in Hg |- *. apply (Hcoh Hc) in Hg. rewrite Hu in Hg.
    now apply find_app_first.
Qed.

Lemma groupsSound_getOrCreateUserGroup cfg args defaultMembers w :
  groupsSound (mgr w) ->
  groupsSound (mgr (snd (getOrCreateUserGroup cfg args defaultMembers w))).
Proof.
  intros Hs. unfold getOrCreateUserGroup, bind, getMgr, findUserGroup.
  cbn [ret]. destruct (userGroupCache (mgr w) !! uc_id args); [exact Hs |].
  cbn. destruct (List.find _ (userCollection (mgr w))); [exact Hs |].
  now apply groupsSound_createUserGroup.
Qed.

Lemma groupsSound_updateUserGroup cfg i ms w :
  groupsSound (mgr w) ->
  groupsSound (mgr (snd (updateUserGroup cfg i [("members", ms)] w))).
Proof.
  intros Hs. destruct (fst (isAdmin cfg w)) as [[] | e] eqn:Hadm.
  - destruct (updateUserGroup_members_run cfg i ms w Hadm)
      as (w' & -> & _ & Hids & Hi & Hj & _ & Hcache & Hother).
    destruct Hs as [Hnd Hc]. split.
    + unfold uniqueIds. cbn. now rewrite Hids.
    + intros j g Hg. cbn in Hg |- *.
      destruct (decide (j = i)) as [-> | Hne]; [congruence |].
      rewrite (Hj j Hne). eauto.
  - destruct (assertAdmin_run cfg w) as (w1 & K & Hrun).
    unfold updateUserGroup, bind. rewrite Hrun, Hadm.
    exact (groupsSound_kept _ _ K Hs).
  - destruct (assertAdmin_run cfg w) as (w1 & K & Hrun).
    unfold updateUserGroup, bind. rewrite Hrun, Hadm.
    exact (groupsSound_kept _ _ K Hs).
Qed.

Lemma groupsSound_deleteUserGroup cfg i w :
  groupsSound (mgr w) -> groupsSound (mgr (snd (deleteUserGroup cfg i w))).
Proof.
  intros [Hnd Hc].
  destruct (deleteUserGroup_run cfg i w Hc) as (r & w' & -> & _ & Hf & Hok).
  cbn [snd]. destruct (isOk r) eqn:E.
  - destruct (Hok eq_refl) as (_ & Hu & Hcache & Hother). split.
    + unfold uniqueIds. rewrite Hu. now apply removeFirst_ids.
    + intros j g Hg. rewrite Hu.
      destruct (decide (j = i)) as [-> | Hne]; [congruence |].
      rewrite find_removeFirst_other by exact Hne. eauto.
  - apply (groupsSound_kept w); [now apply Hf | now split].
Qed.

Lemma groupsSound_startWorld c s :
  bool_decide (NoDup (List.map ug_id (userCollection s))) = true ->
  userGroupCache s = ∅ ->
  groupsSound (mgr (startWorld c s)).
Proof.
  intros H Hc. split; [now apply bool_decide_eq_true in H |].
  now apply cacheCoherent_empty.
Qed.

Lemma deleteUserGroup_removes_witness :
  fst dropReviewers
  = Ok {| ug_id := "reviewers"; members := JArr [user1Person];
          deletable := true |}
  /\ fst (lookupUserGroup "reviewers" (snd dropReviewers)) = Ok None.
Proof.
  assert (Hs : groupsSound (mgr (snd fillReviewers))).
  { apply groupsSound_updateUserGroup, groupsSound_createUserGroup.
    now apply groupsSound_startWorld. }
  destruct (deleteUserGroup_removes testConfig "reviewers"
              {| ug_id := "reviewers"; members := JArr [user1Person];
                 deletable := true |}
              (snd fillReviewers) eq_refl (proj2 Hs) eq_refl eq_refl
              eq_refl)
    as (H1 & _ & _ & H4).
  split; [exact H1 |]. exact (H4 (proj1 Hs)).
Defined.

(** X12. The operations on user groups keep the groups sound: when the
    stored groups have ids of their own and the cache holds nothing but
    stored groups, this is still so after [createUserGroup],
    [getOrCreateUserGroup], an [updateUserGroup] of the members,
    [deleteUserGroup] and [lookupUserGroup], whether they return or throw:
    a cached group is never stale. *)
Theorem group_operations_keep_groups_sound cfg (w : World) :
  groupsSound (mgr w) ->
  (forall args defaultMembers,
     groupsSound (mgr (snd (createUserGroup cfg args defaultMembers w))))
  /\ (forall args defaultMembers,
        groupsSound
          (mgr (snd (getOrCreateUserGroup cfg args defaultMembers w))))
  /\ (forall i ms,
        groupsSound
          (mgr (snd (updateUserGroup cfg i [("members", ms)] w))))
  /\ (forall i, groupsSound (mgr (snd (deleteUserGroup cfg i w))))
  /\ (forall i, groupsSound (mgr (snd (lookupUserGroup i w)))).
Proof.
  intros Hs. split; [| split; [| split; [| split]]]; intros.
  - now apply groupsSound_createUserGroup.
  - now apply groupsSound_getOrCreateUserGroup.
  - now apply groupsSound_updateUserGroup.
  - now apply groupsSound_deleteUserGroup.
  - now apply groupsSound_lookupUserGroup.
Qed.

Lemma group_operations_keep_groups_sound_witness :
  groupsSound (mgr (snd createReviewers))
  /\ groupsSound (mgr (snd dropReviewers)).
Proof.
  assert (H0 : groupsSound (mgr admin1World))
    by now apply groupsSound_startWorld.
  destruct (group_operations_keep_groups_sound testConfig admin1World H0)
    as (H1 & _).
  split; [apply H1 |].
  destruct (group_operations_keep_groups_sound testConfig _
              (H1 reviewersArgs None)) as (_ & _ & H3 & _).
  destruct (group_operations_keep_groups_sound testConfig _
              (H3 "reviewers" (JArr [user1Person]))) as (_ & _ & _ & H4 & _).
  apply H4.
Defined.

(** ** The context handed to the callbacks *)

Lemma getField_string path s : isOk (getField path (JStr s)) = false.
Proof.
  unfold getField. destruct (split dot path) as [| part rest] eqn:E.
  - now apply split_nonempty in E.
  - reflexivity.
Qed.

Section CallerInGroup.
Variable cfg : DocMgrConfig.
Hypothesis Hobject : documents cfg !! "[object Object]" = None.

Lemma getMembersAt_object g d t :
  getMembersAt cfg g (JObj d) t = getMembers cfg g None None.
Proof.
  unfold getMembersAt, getMembers, getDocRolesAt, getDocRoles.
  cbn [truthy js_String]. rewrite Hobject, !lookup_empty.
  unfold _getMembersAt, _getMembers.
  destruct (nonempty t); [| reflexivity].
  pose proof (getField_string g t) as H.
  now destruct (getField g (JStr t)).
Qed.

Lemma isInUserGroupAt_object g d t :
  isInUserGroupAt cfg g (JObj d) t = isInUserGroup cfg g None None.
Proof.
  unfold isInUserGroupAt, isInUserGroup. now rewrite getMembersAt_object.
Qed.

Lemma isInUserGroupsLoopAt_object gs d t :
  isInUserGroupsLoopAt cfg gs (JObj d) t
  = isInUserGroupsLoop cfg gs None None.
Proof.
  induction gs as [| g gs IH]; [reflexivity |].
  cbn [isInUserGroupsLoopAt isInUserGroupsLoop].
  now rewrite isInUserGroupAt_object, IH.
Qed.

(** X13. [assertCallerInGroup] does not look at the document.  Its call of
    [assertInUserGroups] has the document and the type in each other's
    place, so that (no type being registered under the name
    [[object Object]]) neither the roles of the document type nor the
    fields of the document are consulted: the assertion is decided on the
    global roles of the caller, the stored user groups and the admin
    status, and is the same for every type and every document. *)
Theorem assertCallerInGroup_ignores_document
    (type : string) (doc : Fields) (groups : list string) :
  assertCallerInGroup cfg type doc groups = assertInStoredGroups cfg groups.
Proof.
  unfold assertCallerInGroup, assertInUserGroupsAt, assertInStoredGroups,
    isInUserGroupsAt, isInUserGroups.
  destruct groups as [| g gs]; [reflexivity |].
  now rewrite isInUserGroupsLoopAt_object.
Qed.

End CallerInGroup.

Lemma assertCallerInGroup_ignores_document_witness :
  fst (isCallerInGroup ownerConfig "request" (toInfo request1 true) ["Owner"]
         ownerWorld) = Ok true
  /\ fst (assertCallerInGroup ownerConfig "request" (toInfo request1 true)
            ["Owner"] ownerWorld)
     = Throw (DocMgrError 401 "user1@test.com is not authorized").
Proof.
  split; [reflexivity |].
  now rewrite (assertCallerInGroup_ignores_document ownerConfig eq_refl).
Defined.

(** ** Documents without a state, projections *)

Lemma getDocState_absent cfg type dt w :
  documents cfg !! type = Some dt ->
  size (states dt) <> 1%nat ->
  getDocState cfg type None w
  = (Throw (DocMgrError 400
              ("Document of type '" ++ type ++
               "' can have multiple states but it is missing a 'state' field")),
     w).
Proof.
  intros Hdt Hsize. unfold getDocState.
  rewrite (bind_ok _ _ _ _ _ (getDocType_ok _ _ _ _ Hdt)).
  rewrite <- length_map_to_list in Hsize.
  destruct (map_to_list (states dt)) as [| [k d] [| ? ?]]; try reflexivity.
  now contradiction Hsize.
Qed.

Lemma obj_get_toInfo k d copy :
  k <> "_id" -> k <> "id" -> obj_get k (toInfo d copy) = obj_get k d.
Proof.
  intros H1 H2. unfold toInfo. rewrite obj_get_del_ne by exact H1.
  destruct (obj_has "id" d); [reflexivity |].
  destruct (obj_get "_id" d); [| reflexivity].
  now apply obj_get_cons_ne.
Qed.

Lemma readable_stateless cfg type dt found w :
  documents cfg !! type = Some dt ->
  size (states dt) <> 1%nat ->
  Forall (fun d => obj_get "state" d = None) found ->
  readable cfg type found w = [].
Proof.
  intros Hdt Hsize Hall. revert w.
  induction Hall as [| d rest Hd _ IH]; intros w; [reflexivity |].
  cbn [readable]. rewrite IH, app_nil_r. unfold readGranted, hasReadAccess,
    hasAccess, bind.
  rewrite obj_get_toInfo, Hd by discriminate.
  now rewrite (getDocState_absent _ _ _ _ Hdt Hsize).
Qed.

(** X14. [getDocs] projects before it checks.  The read check of a
    document found by a query is run on the projected document: for a type
    that does not have exactly one state, a projection that leaves out the
    [state] of the documents makes every check fail with a missing state,
    and the query answers the empty list, for every caller, administrators
    included, and whatever the store holds (the projection leaving the
    documents an [_id] that is not [null], or none). *)
Theorem getDocs_projects_before_checking
    cfg (type : string) (dt : DocType) (matching : Fields -> bool)
    (projection : Fields -> Fields) (w : World) :
  documents cfg !! type = Some dt ->
  size (states dt) <> 1%nat ->
  (forall d, obj_get "state" (projection d) = None) ->
  Forall (keepsId projection)
    (collection (mgr w) (docCollectionName cfg type dt)) ->
  fst (getDocs cfg type matching (Some projection) w) = Ok [].
Proof.
  intros Hdt Hsize Hp _. unfold getDocs.
  rewrite (bind_ok _ _ _ _ _ (getDocCollection_spec _ _ _ _ Hdt)).
  unfold find, bind at 1, bind at 1, getMgr. cbn [ret default].
  match goal with |- context [getDocsLoop cfg type ?l [] w] =>
    destruct (getDocsLoop_spec cfg type l [] w) as (w' & ->);
    rewrite (readable_stateless cfg type dt l w Hdt Hsize)
  end; [reflexivity |].
  apply Forall_fmap, Forall_forall. intros d _. apply Hp.
Qed.

Lemma getDocs_projects_before_checking_witness :
  fst (getDocs testConfig "testDocType" everyDoc None admin1World)
  = Ok [toInfo doc1 false]
  /\ fst (getDocs testConfig "testDocType" everyDoc
            (Some (obj_del "state")) admin1World)
     = Ok [].
Proof.
  split; [reflexivity |].
  apply (getDocs_projects_before_checking testConfig "testDocType"
           purchaseType); [reflexivity | | apply obj_get_del_eq |].
  - vm_compute. discriminate.
  - repeat constructor. discriminate.
Defined.

Section ReadOnlyReads.
Variable cfg : DocMgrConfig.
Hypothesis Hcfg : readOnlyConfig cfg.

(** What [getDoc] does before it looks at the projection. *)
Lemma getDoc_run ds dt w :
  documents cfg !! ds_type ds = Some dt ->
  exists r w1,
    (forall projection,
       getDoc cfg ds projection w
       = match r with
         | Throw e => (Throw e, w1)
         | Ok doc =>
             match projection with
             | None => (Ok doc, w1)
             | Some _ => _getDoc cfg ds projection w1
             end
         end)
    /\ storeKept w w1
    /\ forall doc,
         r = Ok doc ->
         exists d,
           List.find (hasKey (ds_id ds))
             (collection (mgr w) (docCollectionName cfg (ds_type ds) dt))
           = Some d
           /\ doc = toInfo d false.
Proof.
  intros Hdt. unfold getDoc.
  pose proof (keeps_modifyCtx (withDocId (Some (JStr (ds_id ds)))) w) as K1.
  rewrite (modifyCtx_run _ w) in K1. cbn [snd] in K1.
  set (w1 := {| mgr := mgr w; ctx := _; trace := trace w |}) in K1.
  pose proof (keeps_modifyCtx (withMode ModeRead) w1) as K2.
  rewrite (modifyCtx_run _ w1) in K2. cbn [snd] in K2.
  set (w2 := {| mgr := mgr w1; ctx := _; trace := trace w1 |}) in K2.
  pose proof (storeKept_trans _ _ _ K1 K2) as K. clear K1 K2.
  assert (Hstart : forall projection,
    (do! modifyCtx (withDocId (Some (JStr (ds_id ds)))) in
     do! modifyCtx (withMode ModeRead) in
     let! doc := _getDoc cfg ds None in
     do! assertReadAccess cfg (ds_type ds) doc in
     let! docState := getDocState cfg (ds_type ds) (obj_get "state" doc) in
     do! runHook HOnRead (onRead docState) (ds_type ds) (toInfo doc true) in
     match projection with
     | None => ret doc
     | Some _ => _getDoc cfg ds projection
     end) w
    = (let! doc := _getDoc cfg ds None in
       do! assertReadAccess cfg (ds_type ds) doc in
       let! docState := getDocState cfg (ds_type ds) (obj_get "state" doc) in
       do! runHook HOnRead (onRead docState) (ds_type ds) (toInfo doc true) in
       match projection with
       | None => ret doc
       | Some _ => _getDoc cfg ds projection
       end) w2) by reflexivity.
  destruct (_getDoc cfg ds None w2) as [[doc | e] w3] eqn:Hdoc.
  2: { exists (Throw e), w3. split; [| split].
       - intros p. rewrite Hstart. unfold bind at 1. now rewrite Hdoc.
       - destruct (_getDoc_spec cfg ds None w2) as (r & Hr).
         rewrite Hr in Hdoc. now injection Hdoc as _ <-.
       - discriminate. }
  pose proof Hdoc as Hdoc'.
  apply (_getDoc_ok _ _ dt) in Hdoc' as [-> (d & Hd & ->)]; [| exact Hdt].
  assert (Hfound : exists d0,
            List.find (hasKey (ds_id ds))
              (collection (mgr w) (docCollectionName cfg (ds_type ds) dt))
            = Some d0 /\ toInfo d false = toInfo d0 false) by eauto.
  pose proof (keeps_assertReadAccess cfg Hcfg (ds_type ds) (toInfo d false) w2)
    as K3.
  destruct (assertReadAccess cfg (ds_type ds) (toInfo d false) w2)
    as [[[] | e] w4] eqn:Hread; cbn [snd] in K3.
  2: { exists (Throw e), w4. split; [| split].
       - intros p. rewrite Hstart. unfold bind at 1. rewrite Hdoc.
         unfold bind at 1. now rewrite Hread.
       - eauto using storeKept_trans.
       - discriminate. }
  pose proof (keeps_getDocState cfg (ds_type ds)
                (obj_get "state" (toInfo d false)) w4) as K4.
  destruct (getDocState cfg (ds_type ds) (obj_get "state" (toInfo d false)) w4)
    as [[S | e] w5] eqn:HS; cbn [snd] in K4.
  2: { exists (Throw e), w5. split; [| split].
       - intros p. rewrite Hstart. unfold bind at 1. rewrite Hdoc.
         unfold bind at 1. rewrite Hread. unfold bind at 1. now rewrite HS.
       - eauto using storeKept_trans.
       - discriminate. }
  pose proof (getDocState_readOnly cfg Hcfg _ _ _ _ _ HS)
    as (_ & _ & _ & _ & _ & _ & _ & HonRead & _).
  pose proof (keeps_runHook HOnRead (onRead S) (ds_type ds)
                (toInfo (toInfo d false) true) HonRead w5) as K5.
  destruct (runHook HOnRead (onRead S) (ds_type ds)
              (toInfo (toInfo d false) true) w5) as [[[] | e] w6] eqn:Hhook;
    cbn [snd] in K5.
  2: { exists (Throw e), w6. split; [| split].
       - intros p. rewrite Hstart. unfold bind at 1. rewrite Hdoc.
         unfold bind at 1. rewrite Hread. unfold bind at 1. rewrite HS.
         unfold bind at 1. now rewrite Hhook.
       - eauto 6 using storeKept_trans.
       - discriminate. }
  exists (Ok (toInfo d false)), w6. split; [| split].
  - intros p. rewrite Hstart. unfold bind at 1. rewrite Hdoc.
    unfold bind at 1. rewrite Hread. unfold bind at 1. rewrite HS.
    unfold bind at 1. rewrite Hhook. now destruct p.
  - eauto 6 using storeKept_trans.
  - intros doc [= <-]. exact Hfound.
Qed.

(** X15. [getDoc] checks before it projects.  When no callback of the
    configuration writes the store, the projection plays no part in what
    [getDoc] decides: with a projection it throws what it throws without
    one, and where it returns the document without one it returns, with
    one, the projection of the stored object (the projection leaving the
    document an [_id] that is not [null], or none). *)
Theorem getDoc_checks_before_projecting
    (ds : DocSpec) (dt : DocType) (projection : Fields -> Fields)
    (w : World) :
  documents cfg !! ds_type ds = Some dt ->
  (forall d,
     List.find (hasKey (ds_id ds))
       (collection (mgr w) (docCollectionName cfg (ds_type ds) dt)) = Some d ->
     keepsId projection d) ->
  match fst (getDoc cfg ds None w) with
  | Throw e => fst (getDoc cfg ds (Some projection) w) = Throw e
  | Ok doc =>
      exists d,
        List.find (hasKey (ds_id ds))
          (collection (mgr w) (docCollectionName cfg (ds_type ds) dt))
        = Some d
        /\ doc = toInfo d false
        /\ fst (getDoc cfg ds (Some projection) w)
           = Ok (toInfo (projection d) false)
  end.
Proof.
  intros Hdt _.
  destruct (getDoc_run ds dt w Hdt) as (r & w1 & Hrun & (Hc & _) & Hdoc).
  rewrite !Hrun. destruct r as [doc | e]; [| reflexivity].
  cbn [fst]. destruct (Hdoc doc eq_refl) as (d & Hd & ->).
  exists d. split; [exact Hd |]. split; [reflexivity |].
  unfold _getDoc.
  rewrite (bind_ok _ _ _ _ _ (getDocCollection_spec _ _ _ _ Hdt)).
  unfold findOne, bind, getMgr. cbn [ret default].
  unfold collection in Hd |- *. rewrite Hc, Hd. reflexivity.
Qed.

End ReadOnlyReads.

Lemma getDoc_checks_before_projecting_witness :
  fst (getDoc testConfig ds1 None user1World) = Ok (toInfo doc1 false)
  /\ fst (getDoc testConfig ds1 (Some (obj_del "state")) user1World)
     = Ok (toInfo (obj_del "state" doc1) false).
Proof.
  assert (Hid : forall d,
            List.find (hasKey (ds_id ds1))
              (collection (mgr user1World)
                 (docCollectionName testConfig (ds_type ds1) purchaseType))
            = Some d ->
            keepsId (obj_del "state") d)
    by (intros d [= <-]; discriminate).
  pose proof (getDoc_checks_before_projecting testConfig
                readOnlyConfig_testConfig ds1 purchaseType (obj_del "state")
                user1World eq_refl Hid) as H.
  change (fst (getDoc testConfig ds1 None user1World))
    with (Ok (toInfo doc1 false) : Result Fields) in H.
  destruct H as (d & Hd & _ & H). injection Hd as <-.
  split; [reflexivity | exact H].
Defined.

(** ** How [getDoc] and [deleteDoc] fail *)

Lemma getDocState_again cfg type state w S w1 :
  getDocState cfg type state w = (Ok S, w1) ->
  getDocState cfg type state w1 = (Ok S, w1).
Proof.
  unfold getDocState. unfold bind at 1 3. rewrite !getDocType_spec.
  destruct (documents cfg !! type) as [dt |]; [| discriminate].
  destruct state as [[| | | st | |] |]; try discriminate.
  - destruct (states dt !! stateBase st) as [T |].
    + now intros [= <- <-].
    + unfold bind.
      destruct (isAdmin cfg w) as [[[] | e] w2] eqn:E; try discriminate.
      intros [= <- <-].
      now rewrite (isAdmin_memoised cfg w2 true (isAdmin_memo _ _ _ _ E)).
  - destruct (map_to_list (states dt)) as [| [k d] [| ? ?]];
      try discriminate.
    now intros [= <- <-].
Qed.

(** An assertion of access on a document whose state has been resolved is
    the assertion of the gate, every throw of which reads as the denial. *)
Lemma assertAccess_run cfg gate msg type doc w S w1 :
  getDocState cfg type (obj_get "state" doc) w = (Ok S, w1) ->
  assertAccess (hasAccess cfg gate) msg type doc w
  = match assertInUserGroups cfg (gate S) type doc w1 with
    | (Ok _, w2) => (Ok tt, w2)
    | (Throw _, w2) => (Throw (DocMgrError 401 msg), w2)
    end.
Proof.
  intros HS. unfold assertAccess, hasAccess, bind. rewrite HS.
  unfold tryCatch.
  now destruct (assertInUserGroups cfg (gate S) type doc w1) as [[[] | e] w2].
Qed.

Lemma serving_run m ds {A} (k : M A) w :
  (do! modifyCtx (withDocId (Some (JStr (ds_id ds)))) in
   do! modifyCtx (withMode m) in k) w
  = k (serving m ds w).
Proof. reflexivity. Qed.

Lemma _getDoc_found cfg ds dt d w :
  documents cfg !! ds_type ds = Some dt ->
  List.find (hasKey (ds_id ds))
    (collection (mgr w) (docCollectionName cfg (ds_type ds) dt)) = Some d ->
  _getDoc cfg ds None w = (Ok (toInfo d false), w).
Proof.
  intros Hdt Hd. unfold _getDoc.
  rewrite (bind_ok _ _ _ _ _ (getDocCollection_spec _ _ _ _ Hdt)).
  unfold findOne, bind, getMgr. cbn [ret default]. now rewrite Hd.
Qed.

Lemma _getDoc_missing cfg ds dt project w :
  documents cfg !! ds_type ds = Some dt ->
  List.find (hasKey (ds_id ds))
    (collection (mgr w) (docCollectionName cfg (ds_type ds) dt)) = None ->
  _getDoc cfg ds project w
  = (Throw (DocMgrError 404
              ("document '" ++ stringifyDocSpec ds ++ "' was not found")), w).
Proof.
  intros Hdt Hd. unfold _getDoc.
  rewrite (bind_ok _ _ _ _ _ (getDocCollection_spec _ _ _ _ Hdt)).
  unfold findOne, bind, getMgr. cbn [ret default]. now rewrite Hd.
Qed.

(** X16. How [getDoc] fails.  A document that is not stored is reported
    with the 404 error to every caller, before any gate is evaluated: the
    world is as it was but for the id and the mode recorded in the
    context.  For a stored document whose state resolves, whatever the
    evaluation of the read gate throws (a denial, or an error of a callback
    or of the membership test) is reported as the 401 error
    "read access denied". *)
Theorem getDoc_failures
    cfg (ds : DocSpec) (dt : DocType)
    (projection : option (Fields -> Fields)) (w : World) :
  documents cfg !! ds_type ds = Some dt ->
  let pc := docCollectionName cfg (ds_type ds) dt in
  (List.find (hasKey (ds_id ds)) (collection (mgr w) pc) = None ->
   getDoc cfg ds projection w
   = (Throw (DocMgrError 404
               ("document '" ++ stringifyDocSpec ds ++ "' was not found")),
      serving ModeRead ds w))
  /\ (forall d S w1 e w2,
        List.find (hasKey (ds_id ds)) (collection (mgr w) pc) = Some d ->
        getDocState cfg (ds_type ds) (obj_get "state" d)
          (serving ModeRead ds w) = (Ok S, w1) ->
        assertInUserGroups cfg (read S) (ds_type ds) (toInfo d false) w1
        = (Throw e, w2) ->
        getDoc cfg ds projection w
        = (Throw (DocMgrError 401 "read access denied"), w2)).
Proof.
  intros Hdt pc. unfold getDoc. rewrite serving_run. split.
  - intros Hnone. unfold bind.
    now rewrite (_getDoc_missing cfg ds dt None (serving ModeRead ds w) Hdt).
  - intros d S w1 e w2 Hd HS Hgate.
    rewrite (bind_ok _ _ _ _ _
               (_getDoc_found cfg ds dt d (serving ModeRead ds w) Hdt Hd)).
    unfold bind at 1, assertReadAccess, hasReadAccess.
    rewrite (assertAccess_run cfg read _ _ _ _ S w1), Hgate; [reflexivity |].
    now rewrite obj_get_toInfo by discriminate.
Qed.

Lemma getDoc_failures_witness :
  fst (getDoc testConfig {| ds_type := "testDocType"; ds_id := "9" |} None
         user1World)
  = Throw (DocMgrError 404
             ("document '"
                ++ stringifyDocSpec {| ds_type := "testDocType"; ds_id := "9" |}
                ++ "' was not found"))
  /\ fst (getDoc ownerConfig {| ds_type := "request"; ds_id := "1" |} None
            ownerWorld)
     = Throw (DocMgrError 401 "read access denied").
Proof.
  split.
  - destruct (getDoc_failures testConfig
                {| ds_type := "testDocType"; ds_id := "9" |} purchaseType
                None user1World eq_refl) as [H _].
    now rewrite H.
  - destruct (getDoc_failures ownerConfig
                {| ds_type := "request"; ds_id := "1" |} requestType
                None ownerWorld eq_refl) as [_ H].
    erewrite (H request2); reflexivity.
Defined.

(** What [deleteDoc] does once the state of the document is resolved. *)
Lemma deleteDoc_run
    cfg (ds : DocSpec) (dt : DocType) (d : Fields) (S : DocState)
    (w w1 : World) :
  documents cfg !! ds_type ds = Some dt ->
  List.find (hasKey (ds_id ds))
    (collection (mgr w) (docCollectionName cfg (ds_type ds) dt)) = Some d ->
  getDocState cfg (ds_type ds) (obj_get "state" d) (serving ModeDelete ds w)
  = (Ok S, w1) ->
  deleteDoc cfg ds w
  = match assertInUserGroups cfg (deletionGate S) (ds_type ds)
            (toInfo d false) w1 with
    | (Throw _, w2) =>
        (Throw (DocMgrError 401
                  (if declared (delete_ S) then "delete access denied"
                   else "write access denied")), w2)
    | (Ok _, w2) =>
        (do! runHook HOnDelete (onDelete S) (ds_type ds)
               (toInfo (toInfo d false) true) in
         let! pc := getDocCollection cfg (ds_type ds) in
         do! deleteOne pc (ds_id ds) in
         ret (toInfo d false)) w2
    end.
Proof.
  intros Hdt Hd HS. unfold deleteDoc. rewrite serving_run.
  rewrite (bind_ok _ _ _ _ _
             (_getDoc_found cfg ds dt d (serving ModeDelete ds w) Hdt Hd)).
  assert (HS' : getDocState cfg (ds_type ds)
                  (obj_get "state" (toInfo d false)) (serving ModeDelete ds w)
                = (Ok S, w1)) by now rewrite obj_get_toInfo by discriminate.
  rewrite (bind_ok _ _ _ _ _ HS'). apply getDocState_again in HS'.
  unfold bind at 1, deletionGate.
  destruct (delete_ S) as [g |] eqn:Hg; cbn [declared].
  - unfold assertDeleteAccess, hasDeleteAccess.
    rewrite (assertAccess_run cfg delete_ _ _ _ _ S w1 HS'), Hg.
    now destruct (assertInUserGroups cfg (Some g) _ _ w1) as [[[] | e] w2].
  - unfold assertWriteAccess, hasWriteAccess.
    rewrite (assertAccess_run cfg write _ _ _ _ S w1 HS').
    now destruct (assertInUserGroups cfg (write S) _ _ w1) as [[[] | e] w2].
Qed.

(** X17. The gate of a deletion.  [deleteDoc] lets the [delete] gate of
    the document's state decide when the state declares one, and its
    [write] gate otherwise; the [read] gate plays no part.  Whatever the
    evaluation of that gate throws is reported as the 401 error, worded
    after the gate; when the gate lets the caller through, the deletion
    goes on with the [onDelete] hook and the removal. *)
Theorem deleteDoc_gate
    cfg (ds : DocSpec) (dt : DocType) (d : Fields) (S : DocState)
    (w w1 : World) :
  documents cfg !! ds_type ds = Some dt ->
  List.find (hasKey (ds_id ds))
    (collection (mgr w) (docCollectionName cfg (ds_type ds) dt)) = Some d ->
  getDocState cfg (ds_type ds) (obj_get "state" d) (serving ModeDelete ds w)
  = (Ok S, w1) ->
  deleteDoc cfg ds w
  = match assertInUserGroups cfg (deletionGate S) (ds_type ds)
            (toInfo d false) w1 with
    | (Throw _, w2) =>
        (Throw (DocMgrError 401
                  (if declared (delete_ S) then "delete access denied"
                   else "write access denied")), w2)
    | (Ok _, w2) =>
        (do! runHook HOnDelete (onDelete S) (ds_type ds)
               (toInfo (toInfo d false) true) in
         let! pc := getDocCollection cfg (ds_type ds) in
         do! deleteOne pc (ds_id ds) in
         ret (toInfo d false)) w2
    end.
Proof. apply deleteDoc_run. Qed.

Lemma deleteDoc_gate_witness :
  fst (deleteDoc ownerConfig {| ds_type := "request"; ds_id := "1" |}
         ownerWorld)
  = Throw (DocMgrError 401 "write access denied")
  /\ fst (deleteDoc ownerConfig {| ds_type := "request"; ds_id := "0" |}
            ownerWorld)
     = Ok (toInfo request1 false).
Proof.
  split.
  - now erewrite (deleteDoc_gate ownerConfig
                    {| ds_type := "request"; ds_id := "1" |} requestType
                    request2 _ ownerWorld _ eq_refl eq_refl eq_refl).
  - now erewrite (deleteDoc_gate ownerConfig
                    {| ds_type := "request"; ds_id := "0" |} requestType
                    request1 _ ownerWorld _ eq_refl eq_refl eq_refl).
Defined.

(** The admin status does not depend on the id and the mode a request has
    recorded in the context. *)
Lemma isInUserGroup_global_serving cfg g m ds w :
  isInUserGroup cfg g None None (serving m ds w)
  = (fst (isInUserGroup cfg g None None w),
     serving m ds (snd (isInUserGroup cfg g None None w))).
Proof.
  unfold isInUserGroup, bind, logEvent, getCtx.
  cbn [serving ctx mgr trace withMode withDocId user].
  destruct (includes (roles (user (ctx w))) g); [reflexivity |].
  unfold getMembers. cbn [getDocRoles]. rewrite lookup_empty.
  unfold _getMembers, bind. rewrite !lookupUserGroup_run. cbn [mgr].
  destruct (userGroupCache (mgr w) !! g) as [ug |];
    [| destruct (List.find (hasGroupId g) (userCollection (mgr w)))
         as [ug |]]; cbn [ret].
  all: repeat match goal with
    | |- context [if ?b then _ else _] => destruct b
    | |- context [match ?r with Ok _ => _ | Throw _ => _ end] => destruct r
    end; reflexivity.
Qed.

Lemma isInUserGroupsLoop_global_serving cfg gs m ds w :
  isInUserGroupsLoop cfg gs None None (serving m ds w)
  = (fst (isInUserGroupsLoop cfg gs None None w),
     serving m ds (snd (isInUserGroupsLoop cfg gs None None w))).
Proof.
  revert w. induction gs as [| g gs IH]; intros w; [reflexivity |].
  cbn [isInUserGroupsLoop]. unfold bind.
  rewrite isInUserGroup_global_serving.
  destruct (isInUserGroup cfg g None None w) as [[[] | e] w1];
    cbn [fst snd]; try reflexivity.
  apply IH.
Qed.

Lemma isAdmin_serving cfg m ds w :
  isAdmin cfg (serving m ds w)
  = (fst (isAdmin cfg w), serving m ds (snd (isAdmin cfg w))).
Proof.
  unfold isAdmin, bind, getCtx.
  cbn [serving ctx withMode withDocId isAdmin_ user].
  destruct (isAdmin_ (ctx w)); [reflexivity |].
  destruct (includes (adminIds cfg) _); [reflexivity |].
  destruct (includes (roles _) _); [reflexivity |].
  fold (serving m ds w). rewrite isInUserGroupsLoop_global_serving.
  now destruct (isInUserGroupsLoop cfg (adminGroups cfg) None None w)
    as [[r | e] w1].
Qed.

(** X18. An administrator can read and delete a document whose state is no
    state of its type; a caller who is not cannot, unless the state is a
    name every object inherits.  For a stored document whose [state], cut
    at the first [$], is not declared: when the caller is an administrator
    [getDoc] returns the document and [deleteDoc] returns it and removes it
    from its collection; when the caller is not, and the state so cut is no
    inherited name, both throw the 400 error of the invalid state. *)
Theorem admin_handles_invalid_state
    cfg (ds : DocSpec) (dt : DocType) (d : Fields) (st : string) (w : World) :
  documents cfg !! ds_type ds = Some dt ->
  let pc := docCollectionName cfg (ds_type ds) dt in
  List.find (hasKey (ds_id ds)) (collection (mgr w) pc) = Some d ->
  obj_get "state" d = Some (JStr st) ->
  states dt !! stateBase st = None ->
  (fst (isAdmin cfg w) = Ok true ->
   fst (getDoc cfg ds None w) = Ok (toInfo d false)
   /\ fst (deleteDoc cfg ds w) = Ok (toInfo d false)
   /\ collections (mgr (snd (deleteDoc cfg ds w)))
      = <[pc := removeFirst (hasKey (ds_id ds)) (collection (mgr w) pc)]>
          (collections (mgr w)))
  /\ (fst (isAdmin cfg w) = Ok false ->
      inheritedName (stateBase st) = false ->
      let invalid :=
        Throw (DocMgrError 400
                 ("Invalid state in '" ++ ds_type ds ++ "' document: '"
                    ++ stateBase st ++ "'")) in
      fst (getDoc cfg ds None w) = invalid
      /\ fst (deleteDoc cfg ds w) = invalid).
Proof.
  intros Hdt pc Hd Hst Hnone.
  assert (HS : forall m,
            getDocState cfg (ds_type ds) (obj_get "state" d) (serving m ds w)
            = (match fst (isAdmin cfg w) with
               | Ok true => Ok (noHooks "invalid" "")
               | Ok false =>
                   Throw (DocMgrError 400
                            ("Invalid state in '" ++ ds_type ds
                               ++ "' document: '" ++ stateBase st ++ "'"))
               | Throw e => Throw e
               end, serving m ds (snd (isAdmin cfg w)))).
  { intros m. unfold getDocState.
    rewrite (bind_ok _ _ _ _ _ (getDocType_ok _ _ _ _ Hdt)), Hst, Hnone.
    unfold bind. rewrite isAdmin_serving.
    now destruct (fst (isAdmin cfg w)) as [[] | e]. }
  pose proof (isAdmin_kept cfg w) as (Hc & _).
  split.
  - intros Hadm. rewrite Hadm in HS. split.
    + unfold getDoc. rewrite serving_run.
      rewrite (bind_ok _ _ _ _ _
                 (_getDoc_found cfg ds dt d (serving ModeRead ds w) Hdt Hd)).
      assert (HS' : getDocState cfg (ds_type ds)
                      (obj_get "state" (toInfo d false))
                      (serving ModeRead ds w)
                    = (Ok (noHooks "invalid" ""),
                       serving ModeRead ds (snd (isAdmin cfg w))))
        by (rewrite obj_get_toInfo by discriminate; apply HS).
      unfold bind at 1, assertReadAccess, hasReadAccess.
      rewrite (assertAccess_run cfg read _ _ _ _ _ _ HS').
      cbn [noHooks read assertInUserGroups ret].
      rewrite (bind_ok _ _ _ _ _ (getDocState_again _ _ _ _ _ _ HS')).
      reflexivity.
    + assert (Hdel : exists w',
                deleteDoc cfg ds w = (Ok (toInfo d false), w')
                /\ collections (mgr w')
                   = <[pc := removeFirst (hasKey (ds_id ds))
                               (collection (mgr w) pc)]> (collections (mgr w))).
      { rewrite (deleteDoc_run cfg ds dt d _ w _ Hdt Hd (HS ModeDelete)).
        cbn [deletionGate noHooks delete_ write assertInUserGroups ret runHook
               onDelete].
        unfold bind at 1. cbn [ret].
        rewrite (bind_ok _ _ _ _ _ (getDocCollection_spec _ _ _ _ Hdt)).
        fold pc. unfold bind. rewrite deleteOne_spec.
        cbn [ret snd serving mgr].
        assert (Hcoll : collection (mgr (snd (isAdmin cfg w))) pc
                        = collection (mgr w) pc)
          by (unfold collection; now rewrite Hc).
        rewrite Hcoll.
        assert (Hex : existsb (hasKey (ds_id ds)) (collection (mgr w) pc)
                      = true).
        { apply existsb_exists. apply find_some in Hd. eauto. }
        rewrite Hex. eexists. split; [reflexivity |].
        cbn [mgr withCollections collections]. now rewrite Hc. }
      destruct Hdel as (w' & -> & Hw'). split; [reflexivity | exact Hw'].
  - intros Hadm _ invalid. rewrite Hadm in HS. split.
    + unfold getDoc. rewrite serving_run.
      rewrite (bind_ok _ _ _ _ _
                 (_getDoc_found cfg ds dt d (serving ModeRead ds w) Hdt Hd)).
      unfold bind at 1, assertReadAccess, assertAccess, bind at 1,
        hasReadAccess, hasAccess, bind at 1.
      rewrite obj_get_toInfo by discriminate. now rewrite HS.
    + unfold deleteDoc. rewrite serving_run.
      rewrite (bind_ok _ _ _ _ _
                 (_getDoc_found cfg ds dt d (serving ModeDelete ds w) Hdt Hd)).
      unfold bind at 1. rewrite obj_get_toInfo by discriminate.
      now rewrite HS.
Qed.

Lemma admin_handles_invalid_state_witness :
  fst (deleteDoc testConfig straySpec
         (startWorld (createUserContextAdmin "admin1") strayStore))
  = Ok (toInfo strayDoc false)
  /\ fst (deleteDoc testConfig straySpec
            (startWorld (createUserContext "user1") strayStore))
     = Throw (DocMgrError 400
                "Invalid state in 'testDocType' document: 'lost'").
Proof.
  split.
  - destruct (admin_handles_invalid_state testConfig straySpec purchaseType
                strayDoc "lost"
                (startWorld (createUserContextAdmin "admin1") strayStore)
                eq_refl eq_refl eq_refl eq_refl) as [H _].
    now destruct (H eq_refl) as (_ & H2 & _).
  - destruct (admin_handles_invalid_state testConfig straySpec purchaseType
                strayDoc "lost"
                (startWorld (createUserContext "user1") strayStore)
                eq_refl eq_refl eq_refl eq_refl) as [_ H].
    now destruct (H eq_refl eq_refl) as [_ H2].
Defined.

(** ** What the operations on user groups refuse *)

(** X19. What the removal and the update of a user group refuse.  The
    cache being coherent: [updateUserGroup] and [deleteUserGroup] throw the
    401 error for a caller who is no administrator, whatever the id and
    whether a group is stored under it or not; for an administrator,
    [deleteUserGroup] throws the 404 error when no group is stored under
    the id and the id is no name every object inherits.  Whenever
    [deleteUserGroup] throws, and when [updateUserGroup]
    refuses a caller who is no administrator, the collections and the
    stored groups are as before. *)
Theorem user_group_refusals
    cfg (i : string) (args : Fields) (w : World) :
  cacheCoherent (mgr w) ->
  let del := deleteUserGroup cfg i w in
  let upd := updateUserGroup cfg i args w in
  (fst (isAdmin cfg w) = Ok false ->
   fst del = Throw (DocMgrError 401 "Caller is not admin")
   /\ fst upd = Throw (DocMgrError 401 "Caller is not admin")
   /\ storeKept w (snd upd))
  /\ (fst (isAdmin cfg w) = Ok true ->
      inheritedName i = false ->
      List.find (hasGroupId i) (userCollection (mgr w)) = None ->
      fst del
      = Throw (DocMgrError 404 ("user group '" ++ i ++ "' was not found")))
  /\ (isOk (fst del) = false -> storeKept w (snd del)).
Proof.
  intros Hcoherent del upd.
  destruct (deleteUserGroup_run cfg i w Hcoherent)
    as (r & w' & Hrun & Hr & Hfail & _).
  subst del. rewrite Hrun. cbn [fst snd].
  split; [| split].
  - intros Hadmin. rewrite Hadmin in Hr. split; [exact Hr |].
    subst upd. unfold updateUserGroup, bind.
    destruct (assertAdmin_run cfg w) as (w1 & K1 & ->).
    rewrite Hadmin. auto.
  - intros Hadmin _ Hnone. now rewrite Hadmin, Hnone in Hr.
  - exact Hfail.
Qed.

Lemma user_group_refusals_witness :
  fst (deleteUserGroup testConfig "procurement" user1World)
  = Throw (DocMgrError 401 "Caller is not admin")
  /\ fst (updateUserGroup testConfig "management"
            [("members", JArr [user1Person])] user1World)
     = Throw (DocMgrError 401 "Caller is not admin")
  /\ fst (deleteUserGroup testConfig "nobody" admin1World)
     = Throw (DocMgrError 404 "user group 'nobody' was not found")
  /\ storeKept admin1World
       (snd (deleteUserGroup testConfig "nobody" admin1World)).
Proof.
  assert (Hc : forall c, cacheCoherent (mgr (startWorld c testStore)))
    by (intros c; now apply cacheCoherent_empty).
  destruct (user_group_refusals testConfig "procurement" [] user1World
              (Hc _)) as (H1 & _).
  destruct (user_group_refusals testConfig "management"
              [("members", JArr [user1Person])] user1World (Hc _))
    as (H2 & _).
  destruct (user_group_refusals testConfig "nobody" [] admin1World (Hc _))
    as (_ & H3 & H4).
  split; [exact (proj1 (H1 eq_refl)) |].
  split; [exact (proj1 (proj2 (H2 eq_refl))) |].
  split; [exact (H3 eq_refl eq_refl eq_refl) |].
  apply H4. now rewrite (H3 eq_refl eq_refl eq_refl).
Defined.

(** ** An administrator and the transition table *)

(** The admin status does not depend on what [updateDoc] records in the
    context. *)
Lemma isInUserGroup_global_updating cfg g ds args w :
  isInUserGroup cfg g None None (updating ds args w)
  = (fst (isInUserGroup cfg g None None w),
     updating ds args (snd (isInUserGroup cfg g None None w))).
Proof.
  unfold isInUserGroup, bind, logEvent, getCtx.
  cbn [updating ctx mgr trace withMode withDocId withUpdates user].
  destruct (includes (roles (user (ctx w))) g); [reflexivity |].
  unfold getMembers. cbn [getDocRoles]. rewrite lookup_empty.
  unfold _getMembers, bind. rewrite !lookupUserGroup_run. cbn [mgr].
  destruct (userGroupCache (mgr w) !! g) as [ug |];
    [| destruct (List.find (hasGroupId g) (userCollection (mgr w)))
         as [ug |]]; cbn [ret].
  all: repeat match goal with
    | |- context [if ?b then _ else _] => destruct b
    | |- context [match ?r with Ok _ => _ | Throw _ => _ end] => destruct r
    end; reflexivity.
Qed.

Lemma isInUserGroupsLoop_global_updating cfg gs ds args w :
  isInUserGroupsLoop cfg gs None None (updating ds args w)
  = (fst (isInUserGroupsLoop cfg gs None None w),
     updating ds args (snd (isInUserGroupsLoop cfg gs None None w))).
Proof.
  revert w. induction gs as [| g gs IH]; intros w; [reflexivity |].
  cbn [isInUserGroupsLoop]. unfold bind.
  rewrite isInUserGroup_global_updating.
  destruct (isInUserGroup cfg g None None w) as [[[] | e] w1];
    cbn [fst snd]; try reflexivity.
  apply IH.
Qed.

Lemma isAdmin_updating cfg ds args w :
  isAdmin cfg (updating ds args w)
  = (fst (isAdmin cfg w), updating ds args (snd (isAdmin cfg w))).
Proof.
  unfold isAdmin, bind, getCtx.
  cbn [updating ctx withMode withDocId withUpdates isAdmin_ user].
  destruct (isAdmin_ (ctx w)); [reflexivity |].
  destruct (includes (adminIds cfg) _); [reflexivity |].
  destruct (includes (roles _) _); [reflexivity |].
  fold (updating ds args w). rewrite isInUserGroupsLoop_global_updating.
  now destruct (isInUserGroupsLoop cfg (adminGroups cfg) None None w)
    as [[r | e] w1].
Qed.

Lemma find_existsb {A} (p : A -> bool) l x :
  List.find p l = Some x -> existsb p l = true.
Proof.
  induction l as [| y l IH]; [discriminate |]. cbn.
  destruct (p y); [reflexivity | exact IH].
Qed.

Lemma updateFirst_set_found k S coll d d' :
  List.find (hasKey k) coll = Some d ->
  fold_left assignField S (Ok d) = Ok d' ->
  exists coll',
    updateFirst k [("$set", S)] coll = Ok coll'
    /\ List.find (hasKey k) coll' = Some d'.
Proof.
  intros Hfind Hset. induction coll as [| d0 rest IH]; [discriminate |].
  cbn [List.find] in Hfind. cbn [updateFirst].
  destruct (hasKey k d0) eqn:Hk.
  - injection Hfind as ->.
    cbn [fold_left applyOperator fst snd].
    change (String.eqb "$set" "$set") with true. cbn match.
    rewrite Hset. eexists. split; [reflexivity |].
    cbn [List.find]. now rewrite (hasKey_assignFields _ _ _ _ Hset), Hk.
  - destruct (IH Hfind) as (rest' & -> & Hrest).
    eexists. split; [reflexivity |]. cbn [List.find]. now rewrite Hk.
Qed.

(** X20. An administrator is not held to the transition table, nor to the
    states of the type.  For a stored document in a declared state that has
    no [exit] gate, an update carrying nothing but a [state] that is not
    empty, is no key of the [nextStates] of the current state and, cut at
    the first [$], is no state of the type, succeeds when the caller is an
    administrator: the document is stored and returned with that state cut
    at the first [$], and with empty lists as its cached read and write
    groups. *)
Theorem admin_forces_undeclared_state
    cfg (ds : DocSpec) (dt : DocType) (d : Fields) (cur st : string)
    (S1 : DocState) (w : World) :
  documents cfg !! ds_type ds = Some dt ->
  let pc := docCollectionName cfg (ds_type ds) dt in
  List.find (hasKey (ds_id ds)) (collection (mgr w) pc) = Some d ->
  obj_get "state" d = Some (JStr cur) ->
  states dt !! stateBase cur = Some S1 ->
  exit S1 = None ->
  st <> "" ->
  nextStates S1 !! st = None ->
  states dt !! stateBase st = None ->
  fst (isAdmin cfg w) = Ok true ->
  exists r w',
    updateDoc cfg ds [("state", JStr st)] w = (Ok r, w')
    /\ obj_get "state" r = Some (JStr (stateBase st))
    /\ storedState (mgr w') pc (ds_id ds) = Some (JStr (stateBase st))
    /\ obj_get "curStateRead" r = Some (JArr [])
    /\ obj_get "curStateWrite" r = Some (JArr []).
Proof.
  intros Hdt pc Hd Hcur HS1 Hexit Hne Hnext Hst Hadmin.
  set (args := [("state", JStr st)]).
  unfold updateDoc.
  do 3 (rewrite (bind_ok _ _ _ _ _ (modifyCtx_run _ _));
        cbn [mgr ctx trace]).
  fold (updating ds args w).
  rewrite (bind_ok _ _ _ _ _
             (_getDoc_found cfg ds dt d (updating ds args w) Hdt Hd)).
  assert (HgetS : getDocState cfg (ds_type ds)
                    (obj_get "state" (toInfo d false)) (updating ds args w)
                  = (Ok S1, updating ds args w)).
  { rewrite obj_get_toInfo, Hcur by discriminate. unfold getDocState.
    rewrite (bind_ok _ _ _ _ _ (getDocType_ok _ _ _ _ Hdt)).
    now rewrite HS1. }
  rewrite (bind_ok _ _ _ _ _ HgetS).
  pose proof (isAdmin_updating cfg ds args w) as Hadm.
  rewrite Hadmin in Hadm.
  rewrite (bind_ok _ _ _ _ _ Hadm).
  set (w1 := updating ds args (snd (isAdmin cfg w))).
  fold w1 in Hadm.
  pose proof (isAdmin_memoised cfg w1 true (isAdmin_memo _ _ _ _ Hadm))
    as Hmemo.
  assert (Ht : negb (String.eqb st "") = true).
  { apply negb_true_iff, String.eqb_neq, Hne. }
  cbn [args obj_get ifTruthy truthy]. rewrite ?String.eqb_refl.
  cbn [ifTruthy truthy]. rewrite Ht. cbn [js_String]. rewrite Hnext.
  cbn [negb]. rewrite Hexit.
  assert (HgetN : getDocState cfg (ds_type ds) (Some (JStr st)) w1
                  = (Ok (noHooks "invalid" ""), w1)).
  { unfold getDocState.
    rewrite (bind_ok _ _ _ _ _ (getDocType_ok _ _ _ _ Hdt)).
    rewrite Hst. unfold bind. now rewrite Hmemo. }
  unfold bind. cbn [ret assertIfDeclared]. rewrite HgetN.
  cbn [hasNonStateKey existsb fst String.eqb Ascii.eqb Bool.eqb negb orb
       noHooks entry onEntry onReentry read write assertIfDeclared
       andb declared runHook option_bind mbind ret].
  rewrite andb_false_r. cbn [runHook ret].
  change (hasNonStateKey args) with false. cbn match. cbn [ret].
  unfold cacheGroups, getInUserGroups, bind. cbn [ret default groupsJson map].
  rewrite !modifyCtx_run. cbn [mgr ctx trace ret].
  rewrite !modifyCtx_run. cbn [mgr ctx trace ret].
  rewrite (getDocCollection_spec _ _ _ _ Hdt).
  unfold updateArgs. cbn [ret].
  assert (Hupd :
    toMongoUpdate
      (obj_set "curStateWrite" (groupsJson [])
         (obj_set "curStateRead" (groupsJson []) args))
    = Ok [("$set", [("state", JStr (stateBase st));
                    ("curStateRead", JArr []); ("curStateWrite", JArr [])])])
    by reflexivity.
  rewrite Hupd. clear Hupd.
  set (d' := obj_set "curStateWrite" (JArr [])
               (obj_set "curStateRead" (JArr [])
                  (obj_set "state" (JStr (stateBase st)) d))).
  assert (Hset : fold_left assignField
                   [("state", JStr (stateBase st));
                    ("curStateRead", JArr []); ("curStateWrite", JArr [])]
                   (Ok d) = Ok d') by reflexivity.
  assert (Hd1 : List.find (hasKey (ds_id ds)) (collection (mgr w1) pc)
                = Some d).
  { pose proof (isAdmin_kept cfg w) as (Hc & _).
    unfold collection in Hd |- *. cbn [w1 updating mgr]. now rewrite Hc. }
  destruct (updateFirst_set_found _ _ _ _ _ Hd1 Hset) as (coll' & Hfirst & Hd').
  unfold updateOne, bind, getMgr. cbn [ret mgr].
  fold pc. rewrite Hfirst, (find_existsb _ _ _ Hd1).
  cbn [setMgr]. unfold setMgr. cbn [mgr ctx trace].
  match goal with |- context [_getDoc cfg ds None ?w2] =>
    assert (Hfound : List.find (hasKey (ds_id ds))
                       (collection (mgr w2)
                          (docCollectionName cfg (ds_type ds) dt))
                     = Some d')
      by (fold pc; cbn [mgr]; now rewrite collection_insert);
    rewrite (_getDoc_found cfg ds dt d' w2 Hdt Hfound);
    exists (toInfo d' false), w2
  end.
  split; [reflexivity |].
  assert (Hstate : obj_get "state" d' = Some (JStr (stateBase st))).
  { unfold d'. rewrite !obj_get_set_ne by discriminate.
    apply obj_get_set_eq. }
  split; [now rewrite obj_get_toInfo by discriminate |].
  split.
  - unfold storedState. fold pc in Hfound. cbn [mgr] in Hfound |- *.
    now rewrite Hfound.
  - split; rewrite obj_get_toInfo by discriminate; unfold d'.
    + rewrite obj_get_set_ne by discriminate. apply obj_get_set_eq.
    + apply obj_get_set_eq.
Qed.

Lemma admin_forces_undeclared_state_witness :
  exists r w',
    updateDoc testConfig ds1 [("state", JStr "archived")] admin1World
    = (Ok r, w')
    /\ obj_get "state" r = Some (JStr "archived")
    /\ storedState (mgr w') "test.testDocType.doc" "0"
       = Some (JStr "archived")
    /\ obj_get "curStateRead" r = Some (JArr [])
    /\ obj_get "curStateWrite" r = Some (JArr []).
Proof.
  refine (admin_forces_undeclared_state testConfig ds1 purchaseType doc1
            "requested" "archived" _ admin1World eq_refl eq_refl eq_refl
            eq_refl eq_refl _ eq_refl eq_refl eq_refl).
  discriminate.
Defined.
